(** * The MCP protocol core: registry, negotiator, monitor and server

    A shallow embedding of

    - [app/mcp/adapters/base.py]   ([ProtocolVersionRegistry]),
    - [app/mcp/negotiation.py]     ([MCPProtocolNegotiator]),
    - [app/mcp/monitoring.py]      ([MCPMonitor]),
    - [app/mcp/server.py]          ([MCPConnection], [MCPServer]),
    - [app/mcp/adapters/mcp_v1.py] ([MCPv1Adapter]),

    followed by the properties of the specification that were checked
    against it.  Python [int] is [Z], [str] is [string] (compared by code
    point, which is the byte order of its UTF-8 text), a [dict] is an
    association list in insertion order, an exception is a value of
    [exn] carried by [result]. *)

From Stdlib Require Import ZArith QArith Qround Lqa Bool List String Ascii Lia.
From Stdlib Require Import Permutation Sorted DecimalString.
From Stdlib Require Import PrimFloat Uint63.
Import ListNotations.

#[local] Set Warnings "-register-all".

Local Open Scope string_scope.
Local Open Scope Z_scope.
Local Open Scope list_scope.

(* ================================================================== *)
(** * Part I: definitions *)
(* ================================================================== *)

(** ** Python values, exceptions and dictionaries *)

Module Py.

(** The exceptions the modelled code raises or lets through. *)
Inductive exn : Type :=
| ValueError (msg : string)
| TypeError (msg : string)
| RuntimeError (msg : string)
| AttributeError (msg : string)
| IndexError (msg : string)
| WebSocketDisconnect
| OtherError (type_name msg : string).

(** [type(e).__name__] and [str(e)]. *)
Definition exn_name (e : exn) : string :=
  match e with
  | ValueError _ => "ValueError"
  | TypeError _ => "TypeError"
  | RuntimeError _ => "RuntimeError"
  | AttributeError _ => "AttributeError"
  | IndexError _ => "IndexError"
  | WebSocketDisconnect => "WebSocketDisconnect"
  | OtherError n _ => n
  end.

Definition exn_str (e : exn) : string :=
  match e with
  | ValueError m | TypeError m | RuntimeError m | AttributeError m
  | IndexError m | OtherError _ m => m
  | WebSocketDisconnect => ""
  end.

(** A computation that returns or raises. *)
Inductive result (A : Type) : Type :=
| Ok (a : A)
| Raise (e : exn).
Arguments Ok {A} a.
Arguments Raise {A} e.

Definition bind {A B : Type} (r : result A) (k : A -> result B) : result B :=
  match r with
  | Ok a => k a
  | Raise e => Raise e
  end.

(** A Python value as it travels in messages: what [json.loads] builds,
    plus [PObject] for an object [json.dumps] has no encoding for (a
    [datetime], a [UUID], ...).  A float is kept as the rational it
    denotes. *)
Inductive pyval : Type :=
| PNone
| PBool (b : bool)
| PInt (z : Z)
| PFloat (q : Q)
| PStr (s : string)
| PList (l : list pyval)
| PDict (d : list (string * pyval))
| PObject (repr : string).

(** A [dict] with [str] keys, in insertion order, keys distinct. *)
Definition dict (V : Type) : Type := list (string * V).

Fixpoint dict_get {V : Type} (d : dict V) (k : string) : option V :=
  match d with
  | [] => None
  | (k', v) :: d' => if String.eqb k' k then Some v else dict_get d' k
  end.

Definition dict_contains {V : Type} (d : dict V) (k : string) : bool :=
  match dict_get d k with Some _ => true | None => false end.

(** [d[k] = v]: an existing key keeps its place, a new one goes last. *)
Fixpoint dict_set {V : Type} (d : dict V) (k : string) (v : V) : dict V :=
  match d with
  | [] => [(k, v)]
  | (k', v') :: d' =>
      if String.eqb k' k then (k', v) :: d' else (k', v') :: dict_set d' k v
  end.

(** [d.pop(k, None)] as far as [d] goes. *)
Fixpoint dict_remove {V : Type} (d : dict V) (k : string) : dict V :=
  match d with
  | [] => []
  | (k', v') :: d' =>
      if String.eqb k' k then d' else (k', v') :: dict_remove d' k
  end.

Definition dict_keys {V : Type} (d : dict V) : list string := map fst d.
Definition dict_values {V : Type} (d : dict V) : list V := map snd d.

(** [d.get(k, default)]. *)
Definition dict_get_default {V : Type} (d : dict V) (k : string) (default : V) : V :=
  match dict_get d k with Some v => v | None => default end.

(** [x in l] for a list of strings. *)
Definition str_in (x : string) (l : list string) : bool :=
  existsb (String.eqb x) l.

(** Truthiness of a value ([if v:]). *)
Definition truthy (v : pyval) : bool :=
  match v with
  | PNone => false
  | PBool b => b
  | PInt z => negb (z =? 0)
  | PFloat q => negb (Qeq_bool q 0)
  | PStr s => negb (String.eqb s "")
  | PList l => match l with [] => false | _ => true end
  | PDict d => match d with [] => false | _ => true end
  | PObject _ => true
  end.

(** [v == s] for a string literal [s]. *)
Definition is_str (v : pyval) (s : string) : bool :=
  match v with PStr s' => String.eqb s' s | _ => false end.

(** [message.get(k)] on a parsed message: [None] for a missing key. *)
Definition msg_get (d : dict pyval) (k : string) : pyval :=
  dict_get_default d k PNone.

(** What [json.dumps] accepts: everything but [PObject]. *)
Fixpoint json_serialisable (v : pyval) : bool :=
  match v with
  | PObject _ => false
  | PList l => forallb json_serialisable l
  | PDict d => forallb (fun kv => json_serialisable (snd kv)) d
  | _ => true
  end.

(** *** Strings *)

(** A [str] is kept as its UTF-8 text.  [code_points] reads the code
    points back; a byte that starts no well-formed sequence is read as
    U+FFFD, which is neither white space nor a digit. *)
Definition continuation (c : ascii) : option N :=
  let n := N_of_ascii c in
  if ((128 <=? n) && (n <? 192))%N then Some (n - 128)%N else None.

Definition replacement : N := 65533%N.

Fixpoint code_points (s : string) : list N :=
  match s with
  | EmptyString => []
  | String b0 s0 =>
      let n0 := N_of_ascii b0 in
      if (n0 <? 128)%N then n0 :: code_points s0
      else
        match s0 with
        | String b1 s1 =>
            match continuation b1 with
            | Some c1 =>
                if ((194 <=? n0) && (n0 <? 224))%N then
                  ((n0 - 192) * 64 + c1)%N :: code_points s1
                else
                  match s1 with
                  | String b2 s2 =>
                      match continuation b2 with
                      | Some c2 =>
                          if ((224 <=? n0) && (n0 <? 240))%N then
                            let cp := (((n0 - 224) * 64 + c1) * 64 + c2)%N in
                            (if (2048 <=? cp)%N then cp else replacement)
                              :: code_points s2
                          else
                            match s2 with
                            | String b3 s3 =>
                                match continuation b3 with
                                | Some c3 =>
                                    if ((240 <=? n0) && (n0 <? 245))%N then
                                      let cp :=
                                        ((((n0 - 240) * 64 + c1) * 64 + c2) * 64 + c3)%N in
                                      (if ((65536 <=? cp) && (cp <=? 1114111))%N
                                       then cp else replacement)
                                        :: code_points s3
                                    else replacement :: code_points s0
                                | None => replacement :: code_points s0
                                end
                            | EmptyString => replacement :: code_points s0
                            end
                      | None => replacement :: code_points s0
                      end
                  | EmptyString => replacement :: code_points s0
                  end
            | None => replacement :: code_points s0
            end
        | EmptyString => [replacement]
        end
  end.

(** The white space beyond ASCII ([str.isspace] of CPython 3.11, which
    has Unicode 14.0). *)
Definition unicode_space (cp : N) : bool :=
  (existsb (N.eqb cp) [133; 160; 5760; 8232; 8233; 8239; 8287; 12288]
   || ((8192 <=? cp) && (cp <=? 8202)))%N.

(** The zeros of the decimal digits beyond ASCII (the code points of
    category Nd with value 0, Unicode 14.0); the nine code points after
    a zero are the digits 1 to 9 of its script. *)
Definition decimal_zeros : list N :=
  [ 1632; 1776; 1984; 2406; 2534; 2662; 2790; 2918; 3046; 3174; 3302; 3430; 3558; 3664;
    3792; 3872; 4160; 4240; 6112; 6160; 6470; 6608; 6784; 6800; 6992; 7088; 7232; 7248;
    42528; 43216; 43264; 43472; 43504; 43600; 44016; 65296; 66720; 68912; 69734; 69872;
    69942; 70096; 70384; 70736; 70864; 71248; 71360; 71472; 71904; 72016; 72784; 73040;
    73120; 92768; 92864; 93008; 120782; 120792; 120802; 120812; 120822; 123200; 123632;
    125264; 130032 ]%N.

Definition decimal_digit (cp : N) : option N :=
  match find (fun z => ((z <=? cp) && (cp <? z + 10))%N) decimal_zeros with
  | Some z => Some (cp - z)%N
  | None => None
  end.

(** What [int] parses is the string with white space turned into blanks
    and decimal digits into ASCII digits; a code point below 127 stays
    and anything else becomes "?"
    ([_PyUnicode_TransformDecimalAndSpaceToASCII]). *)
Definition to_ascii (cp : N) : N :=
  if (cp <? 127)%N then cp
  else if unicode_space cp then 32%N
  else match decimal_digit cp with
       | Some d => (48 + d)%N
       | None => 63%N
       end.

(** C's [isspace] and [isdigit]. *)
Definition is_space (c : N) : bool := (((9 <=? c) && (c <=? 13)) || (c =? 32))%N.

Definition is_digit (c : N) : bool := ((48 <=? c) && (c <=? 57))%N.

Definition digit_value (c : N) : Z := Z.of_N c - 48.

Fixpoint skip_spaces (l : list N) : list N :=
  match l with
  | c :: l' => if is_space c then skip_spaces l' else l
  | [] => []
  end.

(** The scan of [PyLong_FromString] in base 10: digits with single
    underscores between them.  It gives the value, the number of digits
    and what follows them. *)
Fixpoint scan_digits (l : list N) (acc digits : Z) (after_underscore : bool)
  : option (Z * Z * list N) :=
  match l with
  | c :: l' =>
      if is_digit c then scan_digits l' (10 * acc + digit_value c) (digits + 1) false
      else if (c =? 95)%N then
        if after_underscore then None else scan_digits l' acc digits true
      else if after_underscore then None else Some (acc, digits, l)
  | [] => if after_underscore then None else Some (acc, digits, [])
  end.

(** [sys.get_int_max_str_digits()], as it is set when the interpreter
    starts. *)
Definition max_str_digits : Z := 4300.

(** [int(s)] for a string: [None] where Python raises [ValueError].
    White space around the number is skipped, a sign may come first, the
    digits may not start with an underscore, there has to be a digit,
    and there may not be more than [max_str_digits] of them. *)
Definition py_int (s : string) : option Z :=
  let text := skip_spaces (map to_ascii (code_points s)) in
  let signed :=
    match text with
    | c :: r => if (c =? 43)%N then (false, r)
                else if (c =? 45)%N then (true, r)
                else (false, text)
    | [] => (false, text)
    end in
  match snd signed with
  | c :: _ =>
      if (c =? 95)%N then None
      else
        match scan_digits (snd signed) 0 0 false with
        | Some (value, digits, rest) =>
            if (digits =? 0) || (max_str_digits <? digits) then None
            else match skip_spaces rest with
                 | [] => Some (if fst signed then - value else value)
                 | _ :: _ => None
                 end
        | None => None
        end
  | [] => None
  end.

(** [s.split(sep)] for a one-character separator: never empty. *)
Fixpoint split (sep : ascii) (s : string) : list string :=
  match s with
  | EmptyString => [EmptyString]
  | String c s' =>
      if Ascii.eqb c sep then EmptyString :: split sep s'
      else match split sep s' with
           | h :: t => String c h :: t
           | [] => [String c EmptyString]
           end
  end.

(** [sub in s] for two strings. *)
Definition substring_of (sub s : string) : bool :=
  match String.index 0 sub s with Some _ => true | None => false end.

(** [k in c] for a string [k]: key membership in a dict, element
    membership in a list, substring test on a string; the other values
    are not iterable. *)
Definition py_in (k : string) (c : pyval) : result bool :=
  match c with
  | PDict d => Ok (dict_contains d k)
  | PList l => Ok (existsb (fun v => is_str v k) l)
  | PStr s => Ok (substring_of k s)
  | _ => Raise (TypeError "argument is not iterable")
  end.

(** [c[k]] for a string [k]: only a dict can be indexed by a string. *)
Definition py_getitem (c : pyval) (k : string) : result pyval :=
  match c with
  | PDict d =>
      match dict_get d k with
      | Some v => Ok v
      | None => Raise (OtherError "KeyError" k)
      end
  | _ => Raise (TypeError "indices must be integers")
  end.

(** The elements [for x in v] runs through. *)
Definition py_iter (v : pyval) : result (list pyval) :=
  match v with
  | PList l => Ok l
  | PStr s => Ok (map (fun c => PStr (String c EmptyString)) (list_ascii_of_string s))
  | PDict d => Ok (map PStr (dict_keys d))
  | _ => Raise (TypeError "object is not iterable")
  end.

Definition hashable (v : pyval) : bool :=
  match v with
  | PList _ | PDict _ => false
  | _ => true
  end.

(** The elements [set(v)] or [s.update(v)] takes in: [v] has to be
    iterable and every element hashable. *)
Definition py_set_elements (v : pyval) : result (list pyval) :=
  bind (py_iter v) (fun l =>
    if forallb hashable l then Ok l else Raise (TypeError "unhashable type")).

(** The strings among some values. *)
Fixpoint strs (l : list pyval) : list string :=
  match l with
  | [] => []
  | PStr s :: l' => s :: strs l'
  | _ :: l' => strs l'
  end.

(** *** Tuples of ints and strings, and their comparison *)

Inductive item : Type :=
| IInt (z : Z)
| IStr (s : string).

(** [x == y]: an int never equals a string. *)
Definition item_eqb (x y : item) : bool :=
  match x, y with
  | IInt a, IInt b => a =? b
  | IStr a, IStr b => String.eqb a b
  | _, _ => false
  end.

Definition item_type (x : item) : string :=
  match x with IInt _ => "int" | IStr _ => "str" end.

Definition not_supported (op : string) (x y : item) : exn :=
  TypeError ("'" ++ op ++ "' not supported between instances of '"
             ++ item_type x ++ "' and '" ++ item_type y ++ "'")%string.

(** [x < y]: [TypeError] between an int and a string. *)
Definition item_lt (x y : item) : result bool :=
  match x, y with
  | IInt a, IInt b => Ok (a <? b)
  | IStr a, IStr b => Ok (String.ltb a b)
  | _, _ => Raise (not_supported "<" x y)
  end.

(** [x >= y]. *)
Definition item_ge (x y : item) : result bool :=
  match x, y with
  | IInt a, IInt b => Ok (b <=? a)
  | IStr a, IStr b => Ok (String.leb b a)
  | _, _ => Raise (not_supported ">=" x y)
  end.

(** Tuple comparison: the first pair of items that are not [==] decides;
    when one tuple is a prefix of the other, the lengths decide. *)
Fixpoint tuple_lt (a b : list item) : result bool :=
  match a, b with
  | [], [] => Ok false
  | [], _ :: _ => Ok true
  | _ :: _, [] => Ok false
  | x :: a', y :: b' => if item_eqb x y then tuple_lt a' b' else item_lt x y
  end.

Fixpoint tuple_ge (a b : list item) : result bool :=
  match a, b with
  | [], [] => Ok true
  | [], _ :: _ => Ok false
  | _ :: _, [] => Ok true
  | x :: a', y :: b' => if item_eqb x y then tuple_ge a' b' else item_ge x y
  end.

(** *** [sorted] *)

Section Sorted.
Context {A K : Type}.
Variable key : A -> K.
Variable lt : K -> K -> result bool.

(** [x] goes before the first element it is [<] of: a stable insertion
    that, like [list.sort], only ever asks [<]. *)
Fixpoint insert_sorted (x : A) (s : list A) : result (list A) :=
  match s with
  | [] => Ok [x]
  | y :: s' =>
      bind (lt (key x) (key y)) (fun b =>
        if b then Ok (x :: y :: s')
        else bind (insert_sorted x s') (fun r => Ok (y :: r)))
  end.

Fixpoint sort_ascending (l : list A) (done : list A) : result (list A) :=
  match l with
  | [] => Ok done
  | x :: l' => bind (insert_sorted x done) (sort_ascending l')
  end.

(** [sorted(l, key=key, reverse=reverse)].  With [reverse] the list is
    reversed, sorted and reversed again, which keeps equal keys in their
    original order.  A comparison that raises ends the sort.  The sort is
    by insertion; CPython's merge sort returns the same list whenever no
    comparison raises, and asks the one comparison there is on a list of
    two. *)
Definition py_sorted (reverse : bool) (l : list A) : result (list A) :=
  if reverse
  then bind (sort_ascending (rev l) []) (fun s => Ok (rev s))
  else sort_ascending l [].

(** No element of [s] is below one that stands before it. *)
Definition ascending (s : list A) : Prop :=
  StronglySorted (fun a b => lt (key b) (key a) = Ok false) s.

End Sorted.

End Py.

(** ** The registry of protocol adapters ([adapters/base.py]) *)

Module Registry.
Import Py.

(** What [await adapter.handle_tool_call(tool, parameters)] does: it
    returns or raises, and takes some time doing so. *)
Record tool_outcome : Type := {
  outcome : result pyval;
  elapsed : Z                    (* microseconds on the server's clock *)
}.

(** The [ProtocolAdapter] interface of [core/domain.py].  The answer to a
    call is a function of the call: the collaborators behind an adapter
    are not part of this model. *)
Record ProtocolAdapter : Type := {
  get_supported_version : string;
  get_supported_tools : list string;
  handle_tool_call : string -> pyval -> tool_outcome
}.

Record ProtocolVersionRegistry : Type := {
  _adapters : dict ProtocolAdapter;
  _compatibility_matrix : dict (dict bool)
}.

(** [ProtocolVersionRegistry()]. *)
Definition new_registry : ProtocolVersionRegistry :=
  {| _adapters := []; _compatibility_matrix := [] |}.

Definition register_adapter (r : ProtocolVersionRegistry) (adapter : ProtocolAdapter)
  : ProtocolVersionRegistry :=
  let version := get_supported_version adapter in
  {| _adapters := dict_set (_adapters r) version adapter;
     _compatibility_matrix := _compatibility_matrix r |}.

Definition get_adapter (r : ProtocolVersionRegistry) (version : string)
  : option ProtocolAdapter :=
  dict_get (_adapters r) version.

Definition get_supported_versions (r : ProtocolVersionRegistry) : list string :=
  dict_keys (_adapters r).

Definition set_compatibility (r : ProtocolVersionRegistry)
  (version1 version2 : string) (compatible : bool) : ProtocolVersionRegistry :=
  let row := dict_get_default (_compatibility_matrix r) version1 [] in
  {| _adapters := _adapters r;
     _compatibility_matrix :=
       dict_set (_compatibility_matrix r) version1 (dict_set row version2 compatible) |}.

Definition are_compatible (r : ProtocolVersionRegistry) (version1 version2 : string) : bool :=
  dict_get_default (dict_get_default (_compatibility_matrix r) version1 []) version2 false.

(** The second loop of [find_best_version]: client versions outside,
    registered versions (in registration order) inside. *)
Fixpoint first_compatible (r : ProtocolVersionRegistry) (client_versions : list string)
  : option string :=
  match client_versions with
  | [] => None
  | client_version :: rest =>
      match find (fun server_version => are_compatible r server_version client_version)
                 (get_supported_versions r) with
      | Some server_version => Some server_version
      | None => first_compatible r rest
      end
  end.

Definition find_best_version (r : ProtocolVersionRegistry) (client_versions : list string)
  : option string :=
  match find (fun version => dict_contains (_adapters r) version) client_versions with
  | Some version => Some version
  | None => first_compatible r client_versions
  end.

(** The operations that build a registry, and a registry built by them. *)
Inductive registry_op : Type :=
| Register (adapter : ProtocolAdapter)
| SetCompatibility (version1 version2 : string) (compatible : bool).

Definition apply_op (r : ProtocolVersionRegistry) (op : registry_op) : ProtocolVersionRegistry :=
  match op with
  | Register a => register_adapter r a
  | SetCompatibility v1 v2 b => set_compatibility r v1 v2 b
  end.

Definition run_ops (ops : list registry_op) : ProtocolVersionRegistry :=
  fold_left apply_op ops new_registry.

End Registry.

(** ** The negotiator ([negotiation.py]) *)

Module Negotiator.
Import Py.
Import Registry.

Record MCPProtocolNegotiator : Type := {
  _registry : ProtocolVersionRegistry;
  _compatibility_matrix : dict (dict bool)
}.

Definition _build_default_compatibility_matrix : dict (dict bool) :=
  [ ("1.0", [("1.0", true); ("0.9", true)]);
    ("1.1", [("1.1", true); ("1.0", true); ("0.9", false)]);
    ("2.0", [("2.0", true); ("1.1", false); ("1.0", false)]) ].

(** [MCPProtocolNegotiator(registry)]: the negotiator keeps a matrix of
    its own and never reads the registry's. *)
Definition new_negotiator (registry : ProtocolVersionRegistry) : MCPProtocolNegotiator :=
  {| _registry := registry;
     _compatibility_matrix := _build_default_compatibility_matrix |}.

Definition get_compatibility_matrix (n : MCPProtocolNegotiator) : dict (dict bool) :=
  _compatibility_matrix n.

Definition add_compatibility_rule (n : MCPProtocolNegotiator)
  (server_version client_version : string) (compatible : bool) : MCPProtocolNegotiator :=
  let row := dict_get_default (_compatibility_matrix n) server_version [] in
  {| _registry := _registry n;
     _compatibility_matrix :=
       dict_set (_compatibility_matrix n) server_version
                (dict_set row client_version compatible) |}.

(** The client's versions as the document gives them: a list holding the
    one value of a single-version field, or the value of a list field as
    it is. *)
Definition _extract_client_versions (capabilities : pyval) : result pyval :=
  bind (py_in "protocolVersion" capabilities) (fun b1 =>
  if b1 then bind (py_getitem capabilities "protocolVersion") (fun v => Ok (PList [v])) else
  bind (py_in "supportedVersions" capabilities) (fun b2 =>
  if b2 then py_getitem capabilities "supportedVersions" else
  bind (py_in "versions" capabilities) (fun b3 =>
  if b3 then py_getitem capabilities "versions" else
  bind (py_in "version" capabilities) (fun b4 =>
  if b4 then bind (py_getitem capabilities "version") (fun v => Ok (PList [v])) else
  Ok (PList [PStr "1.0"]))))).

(** [features.update(capabilities[k])] when [k in capabilities]. *)
Definition update_from (capabilities : pyval) (k : string) (features : list pyval)
  : result (list pyval) :=
  bind (py_in k capabilities) (fun b =>
  if b then
    bind (py_getitem capabilities k) (fun v =>
    bind (py_set_elements v) (fun l => Ok (features ++ l)))
  else Ok features).

(** The set of features, as the list of its elements. *)
Definition _extract_client_features (capabilities : pyval) : result (list pyval) :=
  bind (update_from capabilities "features" []) (fun f1 =>
  bind (update_from capabilities "tools" f1) (fun f2 =>
  bind (py_in "capabilities" capabilities) (fun b =>
  if b then
    bind (py_getitem capabilities "capabilities") (fun v =>
    match v with
    | PList _ | PDict _ => bind (py_set_elements v) (fun l => Ok (f2 ++ l))
    | _ => Ok f2
    end)
  else Ok f2))).

Definition _are_versions_compatible (n : MCPProtocolNegotiator)
  (server_version client_version : string) : bool :=
  dict_get_default (dict_get_default (_compatibility_matrix n) server_version [])
                   client_version false.

(** [required_features.issubset(supported_tools)]: a feature that is not
    a string is no tool's name. *)
Definition features_subset (required_features : list pyval) (supported_tools : list string) : bool :=
  forallb (fun f => match f with PStr s => str_in s supported_tools | _ => false end)
          required_features.

Definition _can_provide_features (n : MCPProtocolNegotiator)
  (server_version : string) (required_features : list pyval) : bool :=
  match get_adapter (_registry n) server_version with
  | None => false
  | Some adapter =>
      let supported_tools := get_supported_tools adapter in
      match required_features with
      | [] => true
      | _ => features_subset required_features supported_tools
      end
  end.

(** The inner loop of [_find_compatible_version] for one server version:
    a client version that is not a string is no key of the matrix. *)
Definition some_client_compatible (n : MCPProtocolNegotiator) (server_version : string)
  (client_versions client_features : list pyval) : bool :=
  existsb (fun c =>
             match c with
             | PStr client_version =>
                 _are_versions_compatible n server_version client_version
                 && _can_provide_features n server_version client_features
             | _ => false
             end) client_versions.

Definition string_lt (a b : string) : result bool := Ok (String.ltb a b).

Definition _find_compatible_version (n : MCPProtocolNegotiator)
  (client_versions : list pyval) (server_versions : list string)
  (client_features : list pyval) : result (option string) :=
  bind (py_sorted (fun v => v) string_lt true server_versions) (fun latest_first =>
  Ok (find (fun server_version =>
              some_client_compatible n server_version client_versions client_features)
           latest_first)).

(** [_version_sort_key]: the numbers between the dots, or [(0, version)]
    when a part is no number. *)
Fixpoint ints_of (parts : list string) : option (list Z) :=
  match parts with
  | [] => Some []
  | p :: rest =>
      match py_int p, ints_of rest with
      | Some z, Some zs => Some (z :: zs)
      | _, _ => None
      end
  end.

Definition _version_sort_key (version : string) : list item :=
  match ints_of (split "." version) with
  | Some zs => map IInt zs
  | None => [IInt 0; IStr version]
  end.

Definition _select_latest_version (versions : list string) : result string :=
  bind (py_sorted _version_sort_key tuple_lt true versions) (fun s =>
  match s with
  | v :: _ => Ok v
  | [] => Raise (IndexError "list index out of range")
  end).

Definition _get_fallback_version (server_versions : list string) : result (option string) :=
  match server_versions with
  | [] => Ok None
  | _ =>
      bind (py_sorted _version_sort_key tuple_lt false server_versions) (fun s =>
      match s with
      | v :: _ => Ok (Some v)
      | [] => Raise (IndexError "list index out of range")
      end)
  end.

(** The body of the loop of [_can_client_handle_fallback]: anything
    raised inside it (a version that is not a string has no [split], two
    keys may not compare) moves on to the next client version. *)
Definition client_reaches (fallback_version : string) (client_version : pyval) : bool :=
  match client_version with
  | PStr c =>
      match tuple_ge (_version_sort_key c) (_version_sort_key fallback_version) with
      | Ok b => b
      | Raise _ => false
      end
  | _ => false
  end.

Definition _can_client_handle_fallback (fallback_version : string) (capabilities : pyval)
  : result bool :=
  bind (_extract_client_versions capabilities) (fun client_versions =>
  bind (py_iter client_versions) (fun l =>
  Ok (existsb (client_reaches fallback_version) l))).

(** The exact matches: the strings the client lists that are registered. *)
Definition exact_match (n : MCPProtocolNegotiator) (client_list : list pyval) (v : string)
  : Prop :=
  In v (strs client_list) /\ In v (get_supported_versions (_registry n)).

(** A version made of numbers and dots only. *)
Definition dotted_numeric (version : string) : Prop :=
  ints_of (split "." version) <> None.

Section Negotiate.

(** The order in which a set of strings is iterated (it depends on the
    strings' hashes), and [str] of a value, for the error's text. *)
Variable set_order : list string -> list string.
Variable py_str : pyval -> string.

Definition no_compatible_version (client_versions : pyval) (server_versions : list string) : exn :=
  ValueError ("No compatible MCP protocol version found. "
              ++ "Client supports: " ++ py_str client_versions ++ ", "
              ++ "Server supports: " ++ py_str (PList (map PStr server_versions)))%string.

(** [if version:] for an optional string: [None] and the empty string
    are passed over. *)
Definition chosen (version : option string) : option string :=
  match version with
  | Some v => if String.eqb v "" then None else Some v
  | None => None
  end.

Definition negotiate_protocol (n : MCPProtocolNegotiator) (client_capabilities : pyval)
  : result string :=
  bind (_extract_client_versions client_capabilities) (fun client_versions =>
  bind (_extract_client_features client_capabilities) (fun client_features =>
  let server_versions := get_supported_versions (_registry n) in
  (* Step 1: exact matches, the latest first *)
  bind (py_set_elements client_versions) (fun client_list =>
  let exact_matches :=
    nodup string_dec (filter (fun v => str_in v server_versions) (strs client_list)) in
  match exact_matches with
  | _ :: _ => _select_latest_version (set_order exact_matches)
  | [] =>
      (* Step 2: compatible versions *)
      bind (_find_compatible_version n client_list server_versions client_features)
        (fun compatible_version =>
      match chosen compatible_version with
      | Some v => Ok v
      | None =>
          (* Step 3: the most basic version, if the client can handle it *)
          bind (_get_fallback_version server_versions) (fun basic_version =>
          match chosen basic_version with
          | Some v =>
              bind (_can_client_handle_fallback v client_capabilities) (fun can =>
              if can then Ok v
              else Raise (no_compatible_version client_versions server_versions))
          | None =>
              (* Step 4: no compatible version *)
              Raise (no_compatible_version client_versions server_versions)
          end)
      end)
  end))).

(** [get_protocol_info]. *)
Definition get_protocol_info (n : MCPProtocolNegotiator) (version : string) : result pyval :=
  match get_adapter (_registry n) version with
  | None => Raise (ValueError ("Unknown protocol version: " ++ version)%string)
  | Some adapter =>
      let row := dict_get_default (_compatibility_matrix n) version [] in
      Ok (PDict
        [ ("version", PStr version);
          ("supported_tools", PList (map PStr (get_supported_tools adapter)));
          ("compatible_with",
             PList (map (fun kv => PStr (fst kv)) (filter (fun kv => snd kv) row)));
          ("features", PDict
             [ ("tool_count", PInt (Z.of_nat (List.length (get_supported_tools adapter))));
               ("backward_compatible", PBool (existsb (fun kv => snd kv) row)) ]) ])
  end.

End Negotiate.

(** [validate_client_request]: the parameters are not looked at. *)
Definition validate_client_request (n : MCPProtocolNegotiator) (version tool_name : string)
  (parameters : pyval) : bool :=
  match get_adapter (_registry n) version with
  | None => false
  | Some adapter => str_in tool_name (get_supported_tools adapter)
  end.

End Negotiator.
(** ** The monitor ([monitoring.py]) *)

Module Monitor.
Import Py.

(** The arithmetic of Python's [float] as the monitor uses it.  The code
    is written once over this interface; [Binary64] below instantiates it
    with IEEE 754 doubles and [Exact] with exact rationals. *)
Record Arith : Type := {
  num : Type;
  zero : num;                    (* [0.0] *)
  infinity : num;                (* [float('inf')] *)
  of_int : Z -> num;             (* an [int] where a [float] is needed *)
  add : num -> num -> num;
  mul : num -> num -> num;
  div : num -> num -> num;
  sum : list num -> num;         (* [sum(l)] *)
  lt : num -> num -> bool;       (* [a < b] *)
  le : num -> num -> bool        (* [a <= b] *)
}.

(** [min(a, b)] and [max(a, b)]: the first argument unless the second is
    strictly smaller (larger). *)
Definition py_min (A : Arith) (a b : num A) : num A := if lt A b a then b else a.
Definition py_max (A : Arith) (a b : num A) : num A := if lt A a b then b else a.

(** [int / int], and [timedelta.total_seconds()] of a number of
    microseconds. *)
Definition true_div (A : Arith) (a b : Z) : num A := div A (of_int A a) (of_int A b).
Definition total_seconds (A : Arith) (microseconds : Z) : num A :=
  true_div A microseconds 1000000.

(** [deque(maxlen=n).append(x)]. *)
Definition deque_append {X : Type} (maxlen : Z) (d : list X) (x : X) : list X :=
  if maxlen <=? Z.of_nat (List.length d) then tl d ++ [x] else d ++ [x].

(** [d[k] += 1] on a [defaultdict(int)]. *)
Definition count_up (d : dict Z) (k : string) : dict Z :=
  dict_set d k (dict_get_default d k 0 + 1).

(** A [datetime] is a number of microseconds from 1970-01-01; the type
    ranges from 0001-01-01 to the last microsecond of the year 9999. *)
Definition datetime_min : Z := -62135596800000000.
Definition datetime_max : Z := 253402300799999999.

Definition int_repr (z : Z) : string := NilZero.string_of_int (Z.to_int z).

(** [timedelta(hours=h)] for an int [h], in microseconds: a [timedelta]
    has at most 999999999 days, counted downwards for a negative one. *)
Definition timedelta_hours (h : Z) : result Z :=
  let microseconds := h * 3600000000 in
  let days := microseconds / 86400000000 in
  if (days <? - 2147483648) || (2147483647 <? days) then
    Raise (OtherError "OverflowError" "Python int too large to convert to C int")
  else if (days <? - 999999999) || (999999999 <? days) then
    Raise (OtherError "OverflowError"
             ("days=" ++ int_repr days ++ "; must have magnitude <= 999999999")%string)
  else Ok microseconds.

(** A [timedelta] of so many microseconds, with the same two checks. *)
Definition timedelta_microseconds (microseconds : Z) : result Z :=
  let days := microseconds / 86400000000 in
  if (days <? - 2147483648) || (2147483647 <? days) then
    Raise (OtherError "OverflowError" "Python int too large to convert to C int")
  else if (days <? - 999999999) || (999999999 <? days) then
    Raise (OtherError "OverflowError"
             ("days=" ++ int_repr days ++ "; must have magnitude <= 999999999")%string)
  else Ok microseconds.

(** [d - delta] for a [datetime] and a [timedelta]. *)
Definition datetime_sub (d delta : Z) : result Z :=
  let r := d - delta in
  if (r <? datetime_min) || (datetime_max <? r) then
    Raise (OtherError "OverflowError" "date value out of range")
  else Ok r.

Module ConnectionMetrics.
Record t (A : Arith) : Type := {
  connection_id : string;
  connected_at : Z;              (* a [datetime], in microseconds *)
  protocol_version : string;
  client_info : pyval;
  message_count : Z;
  bytes_sent : Z;
  bytes_received : Z;
  errors : Z;
  last_activity : Z;
  avg_response_time : num A;
  tool_calls : dict Z
}.
Arguments connection_id {A} _.
Arguments connected_at {A} _.
Arguments protocol_version {A} _.
Arguments client_info {A} _.
Arguments message_count {A} _.
Arguments bytes_sent {A} _.
Arguments bytes_received {A} _.
Arguments errors {A} _.
Arguments last_activity {A} _.
Arguments avg_response_time {A} _.
Arguments tool_calls {A} _.
End ConnectionMetrics.

Module ToolMetrics.
Record t (A : Arith) : Type := {
  tool_name : string;
  total_calls : Z;
  successful_calls : Z;
  failed_calls : Z;
  avg_execution_time : num A;
  min_execution_time : num A;
  max_execution_time : num A;
  recent_response_times : list (num A);   (* [deque(maxlen=100)] *)
  error_types : dict Z
}.
Arguments tool_name {A} _.
Arguments total_calls {A} _.
Arguments successful_calls {A} _.
Arguments failed_calls {A} _.
Arguments avg_execution_time {A} _.
Arguments min_execution_time {A} _.
Arguments max_execution_time {A} _.
Arguments recent_response_times {A} _.
Arguments error_types {A} _.

(** [ToolMetrics(tool_name)]. *)
Definition new (A : Arith) (name : string) : t A :=
  {| tool_name := name; total_calls := 0; successful_calls := 0; failed_calls := 0;
     avg_execution_time := zero A; min_execution_time := infinity A;
     max_execution_time := zero A; recent_response_times := []; error_types := [] |}.
End ToolMetrics.

Module ProtocolMetrics.
Record t (A : Arith) : Type := {
  protocol_version : string;
  total_connections : Z;
  active_connections : Z;
  total_messages : Z;
  total_errors : Z;
  avg_connection_duration : num A;
  handshake_failures : Z;
  negotiation_failures : Z
}.
Arguments protocol_version {A} _.
Arguments total_connections {A} _.
Arguments active_connections {A} _.
Arguments total_messages {A} _.
Arguments total_errors {A} _.
Arguments avg_connection_duration {A} _.
Arguments handshake_failures {A} _.
Arguments negotiation_failures {A} _.

(** [ProtocolMetrics(protocol_version)]. *)
Definition new (A : Arith) (version : string) : t A :=
  {| protocol_version := version; total_connections := 0; active_connections := 0;
     total_messages := 0; total_errors := 0; avg_connection_duration := zero A;
     handshake_failures := 0; negotiation_failures := 0 |}.
End ProtocolMetrics.

(** An entry of [_connection_history]. *)
Record history_entry (A : Arith) : Type := {
  h_connection_id : string;
  h_protocol_version : string;
  h_duration : num A;
  h_message_count : Z;
  h_errors : Z;
  h_ended_at : Z
}.

(** [_alert_thresholds]: a dict whose four keys never change. *)
Record thresholds (A : Arith) : Type := {
  max_connections : num A;
  max_error_rate : num A;
  max_response_time : num A;
  connection_timeout : num A
}.
Arguments max_connections {A} _.
Arguments max_error_rate {A} _.
Arguments max_response_time {A} _.
Arguments connection_timeout {A} _.

Record MCPMonitor (A : Arith) : Type := {
  _retention_hours : Z;
  _connections : dict (ConnectionMetrics.t A);
  _connection_history : list (history_entry A);   (* [deque(maxlen=10000)] *)
  _tool_metrics : dict (ToolMetrics.t A);
  _protocol_metrics : dict (ProtocolMetrics.t A);
  _alert_thresholds : thresholds A
}.
Arguments _retention_hours {A} _.
Arguments _connections {A} _.
Arguments _connection_history {A} _.
Arguments _tool_metrics {A} _.
Arguments _protocol_metrics {A} _.
Arguments _alert_thresholds {A} _.

Section Operations.
Variable A : Arith.

(** [MCPMonitor(retention_hours)]. *)
Definition new_monitor (retention_hours : Z) : MCPMonitor A :=
  {| _retention_hours := retention_hours;
     _connections := [];
     _connection_history := [];
     _tool_metrics := [];
     _protocol_metrics := [];
     _alert_thresholds :=
       {| max_connections := of_int A 100;
          max_error_rate := true_div A 1 10;
          max_response_time := of_int A 30;
          connection_timeout := of_int A 300 |} |}.

Definition with_connections (m : MCPMonitor A) (c : dict (ConnectionMetrics.t A)) : MCPMonitor A :=
  {| _retention_hours := _retention_hours m; _connections := c;
     _connection_history := _connection_history m; _tool_metrics := _tool_metrics m;
     _protocol_metrics := _protocol_metrics m; _alert_thresholds := _alert_thresholds m |}.

Definition with_history (m : MCPMonitor A) (h : list (history_entry A)) : MCPMonitor A :=
  {| _retention_hours := _retention_hours m; _connections := _connections m;
     _connection_history := h; _tool_metrics := _tool_metrics m;
     _protocol_metrics := _protocol_metrics m; _alert_thresholds := _alert_thresholds m |}.

Definition with_tool_metrics (m : MCPMonitor A) (t : dict (ToolMetrics.t A)) : MCPMonitor A :=
  {| _retention_hours := _retention_hours m; _connections := _connections m;
     _connection_history := _connection_history m; _tool_metrics := t;
     _protocol_metrics := _protocol_metrics m; _alert_thresholds := _alert_thresholds m |}.

Definition with_protocol_metrics (m : MCPMonitor A) (p : dict (ProtocolMetrics.t A)) : MCPMonitor A :=
  {| _retention_hours := _retention_hours m; _connections := _connections m;
     _connection_history := _connection_history m; _tool_metrics := _tool_metrics m;
     _protocol_metrics := p; _alert_thresholds := _alert_thresholds m |}.

Definition with_thresholds (m : MCPMonitor A) (t : thresholds A) : MCPMonitor A :=
  {| _retention_hours := _retention_hours m; _connections := _connections m;
     _connection_history := _connection_history m; _tool_metrics := _tool_metrics m;
     _protocol_metrics := _protocol_metrics m; _alert_thresholds := t |}.

(** [datetime.utcnow()] is read twice while the [ConnectionMetrics] is
    made: [now] for the argument [connected_at], and then [later] by the
    [default_factory] of [last_activity]. *)
Definition track_connection_started (m : MCPMonitor A) (now later : Z)
  (connection_id protocol_version : string) (client_info : pyval) : MCPMonitor A :=
  let metrics :=
    {| ConnectionMetrics.connection_id := connection_id;
       ConnectionMetrics.connected_at := now;
       ConnectionMetrics.protocol_version := protocol_version;
       ConnectionMetrics.client_info := client_info;
       ConnectionMetrics.message_count := 0;
       ConnectionMetrics.bytes_sent := 0;
       ConnectionMetrics.bytes_received := 0;
       ConnectionMetrics.errors := 0;
       ConnectionMetrics.last_activity := later;
       ConnectionMetrics.avg_response_time := zero A;
       ConnectionMetrics.tool_calls := [] |} in
  let pm := dict_get_default (_protocol_metrics m) protocol_version
                             (ProtocolMetrics.new A protocol_version) in
  let pm' :=
    {| ProtocolMetrics.protocol_version := ProtocolMetrics.protocol_version pm;
       ProtocolMetrics.total_connections := ProtocolMetrics.total_connections pm + 1;
       ProtocolMetrics.active_connections := ProtocolMetrics.active_connections pm + 1;
       ProtocolMetrics.total_messages := ProtocolMetrics.total_messages pm;
       ProtocolMetrics.total_errors := ProtocolMetrics.total_errors pm;
       ProtocolMetrics.avg_connection_duration := ProtocolMetrics.avg_connection_duration pm;
       ProtocolMetrics.handshake_failures := ProtocolMetrics.handshake_failures pm;
       ProtocolMetrics.negotiation_failures := ProtocolMetrics.negotiation_failures pm |} in
  with_protocol_metrics
    (with_connections m (dict_set (_connections m) connection_id metrics))
    (dict_set (_protocol_metrics m) protocol_version pm').

(** [datetime.utcnow()] is read twice here as well: [now] for the
    duration and [later] for ["ended_at"]. *)
Definition track_connection_ended (m : MCPMonitor A) (now later : Z)
  (connection_id : string) : MCPMonitor A :=
  match dict_get (_connections m) connection_id with
  | None => m
  | Some metrics =>
      let duration := total_seconds A (now - ConnectionMetrics.connected_at metrics) in
      let version := ConnectionMetrics.protocol_version metrics in
      let protocols :=
        match dict_get (_protocol_metrics m) version with
        | None => _protocol_metrics m
        | Some pm =>
            let total := ProtocolMetrics.total_connections pm in
            let current_avg := ProtocolMetrics.avg_connection_duration pm in
            dict_set (_protocol_metrics m) version
              {| ProtocolMetrics.protocol_version := ProtocolMetrics.protocol_version pm;
                 ProtocolMetrics.total_connections := total;
                 ProtocolMetrics.active_connections :=
                   Z.max 0 (ProtocolMetrics.active_connections pm - 1);
                 ProtocolMetrics.total_messages := ProtocolMetrics.total_messages pm;
                 ProtocolMetrics.total_errors := ProtocolMetrics.total_errors pm;
                 ProtocolMetrics.avg_connection_duration :=
                   div A (add A (mul A current_avg (of_int A (total - 1))) duration)
                         (of_int A total);
                 ProtocolMetrics.handshake_failures := ProtocolMetrics.handshake_failures pm;
                 ProtocolMetrics.negotiation_failures :=
                   ProtocolMetrics.negotiation_failures pm |}
        end in
      let entry :=
        {| h_connection_id := connection_id;
           h_protocol_version := version;
           h_duration := duration;
           h_message_count := ConnectionMetrics.message_count metrics;
           h_errors := ConnectionMetrics.errors metrics;
           h_ended_at := later |} in
      with_history
        (with_protocol_metrics
           (with_connections m (dict_remove (_connections m) connection_id))
           protocols)
        (deque_append 10000 (_connection_history m) entry)
  end.

Definition track_message (m : MCPMonitor A) (now : Z)
  (connection_id message_type : string) (size_bytes : Z) (is_outbound : bool) : MCPMonitor A :=
  match dict_get (_connections m) connection_id with
  | None => m
  | Some c =>
      let c' :=
        {| ConnectionMetrics.connection_id := ConnectionMetrics.connection_id c;
           ConnectionMetrics.connected_at := ConnectionMetrics.connected_at c;
           ConnectionMetrics.protocol_version := ConnectionMetrics.protocol_version c;
           ConnectionMetrics.client_info := ConnectionMetrics.client_info c;
           ConnectionMetrics.message_count := ConnectionMetrics.message_count c + 1;
           ConnectionMetrics.bytes_sent :=
             if is_outbound then ConnectionMetrics.bytes_sent c + size_bytes
             else ConnectionMetrics.bytes_sent c;
           ConnectionMetrics.bytes_received :=
             if is_outbound then ConnectionMetrics.bytes_received c
             else ConnectionMetrics.bytes_received c + size_bytes;
           ConnectionMetrics.errors := ConnectionMetrics.errors c;
           ConnectionMetrics.last_activity := now;
           ConnectionMetrics.avg_response_time := ConnectionMetrics.avg_response_time c;
           ConnectionMetrics.tool_calls := ConnectionMetrics.tool_calls c |} in
      let version := ConnectionMetrics.protocol_version c in
      let protocols :=
        match dict_get (_protocol_metrics m) version with
        | None => _protocol_metrics m
        | Some pm =>
            dict_set (_protocol_metrics m) version
              {| ProtocolMetrics.protocol_version := ProtocolMetrics.protocol_version pm;
                 ProtocolMetrics.total_connections := ProtocolMetrics.total_connections pm;
                 ProtocolMetrics.active_connections := ProtocolMetrics.active_connections pm;
                 ProtocolMetrics.total_messages := ProtocolMetrics.total_messages pm + 1;
                 ProtocolMetrics.total_errors := ProtocolMetrics.total_errors pm;
                 ProtocolMetrics.avg_connection_duration :=
                   ProtocolMetrics.avg_connection_duration pm;
                 ProtocolMetrics.handshake_failures := ProtocolMetrics.handshake_failures pm;
                 ProtocolMetrics.negotiation_failures :=
                   ProtocolMetrics.negotiation_failures pm |}
        end in
      with_protocol_metrics
        (with_connections m (dict_set (_connections m) connection_id c'))
        protocols
  end.

(** The part of [track_tool_call] that updates one tool's metrics. *)
Definition update_tool_metrics (t : ToolMetrics.t A) (execution_time : num A)
  (success : bool) (error_type : option string) : ToolMetrics.t A :=
  let window := deque_append 100 (ToolMetrics.recent_response_times t) execution_time in
  {| ToolMetrics.tool_name := ToolMetrics.tool_name t;
     ToolMetrics.total_calls := ToolMetrics.total_calls t + 1;
     ToolMetrics.successful_calls :=
       if success then ToolMetrics.successful_calls t + 1 else ToolMetrics.successful_calls t;
     ToolMetrics.failed_calls :=
       if success then ToolMetrics.failed_calls t else ToolMetrics.failed_calls t + 1;
     ToolMetrics.avg_execution_time :=
       match window with
       | [] => ToolMetrics.avg_execution_time t
       | _ => div A (sum A window) (of_int A (Z.of_nat (List.length window)))
       end;
     ToolMetrics.min_execution_time :=
       py_min A (ToolMetrics.min_execution_time t) execution_time;
     ToolMetrics.max_execution_time :=
       py_max A (ToolMetrics.max_execution_time t) execution_time;
     ToolMetrics.recent_response_times := window;
     ToolMetrics.error_types :=
       if success then ToolMetrics.error_types t
       else match error_type with
            | Some e => if String.eqb e "" then ToolMetrics.error_types t
                        else count_up (ToolMetrics.error_types t) e
            | None => ToolMetrics.error_types t
            end |}.

Definition track_tool_call (m : MCPMonitor A) (connection_id tool_name : string)
  (execution_time : num A) (success : bool) (error_type : option string) : MCPMonitor A :=
  let connections :=
    match dict_get (_connections m) connection_id with
    | None => _connections m
    | Some c =>
        dict_set (_connections m) connection_id
          {| ConnectionMetrics.connection_id := ConnectionMetrics.connection_id c;
             ConnectionMetrics.connected_at := ConnectionMetrics.connected_at c;
             ConnectionMetrics.protocol_version := ConnectionMetrics.protocol_version c;
             ConnectionMetrics.client_info := ConnectionMetrics.client_info c;
             ConnectionMetrics.message_count := ConnectionMetrics.message_count c;
             ConnectionMetrics.bytes_sent := ConnectionMetrics.bytes_sent c;
             ConnectionMetrics.bytes_received := ConnectionMetrics.bytes_received c;
             ConnectionMetrics.errors :=
               if success then ConnectionMetrics.errors c else ConnectionMetrics.errors c + 1;
             ConnectionMetrics.last_activity := ConnectionMetrics.last_activity c;
             ConnectionMetrics.avg_response_time := ConnectionMetrics.avg_response_time c;
             ConnectionMetrics.tool_calls :=
               count_up (ConnectionMetrics.tool_calls c) tool_name |}
    end in
  let t := dict_get_default (_tool_metrics m) tool_name (ToolMetrics.new A tool_name) in
  with_tool_metrics
    (with_connections m connections)
    (dict_set (_tool_metrics m) tool_name
              (update_tool_metrics t execution_time success error_type)).

Definition bump_handshake_failures (pm : ProtocolMetrics.t A) : ProtocolMetrics.t A :=
  {| ProtocolMetrics.protocol_version := ProtocolMetrics.protocol_version pm;
     ProtocolMetrics.total_connections := ProtocolMetrics.total_connections pm;
     ProtocolMetrics.active_connections := ProtocolMetrics.active_connections pm;
     ProtocolMetrics.total_messages := ProtocolMetrics.total_messages pm;
     ProtocolMetrics.total_errors := ProtocolMetrics.total_errors pm;
     ProtocolMetrics.avg_connection_duration := ProtocolMetrics.avg_connection_duration pm;
     ProtocolMetrics.handshake_failures := ProtocolMetrics.handshake_failures pm + 1;
     ProtocolMetrics.negotiation_failures := ProtocolMetrics.negotiation_failures pm |}.

Definition bump_negotiation_failures (pm : ProtocolMetrics.t A) : ProtocolMetrics.t A :=
  {| ProtocolMetrics.protocol_version := ProtocolMetrics.protocol_version pm;
     ProtocolMetrics.total_connections := ProtocolMetrics.total_connections pm;
     ProtocolMetrics.active_connections := ProtocolMetrics.active_connections pm;
     ProtocolMetrics.total_messages := ProtocolMetrics.total_messages pm;
     ProtocolMetrics.total_errors := ProtocolMetrics.total_errors pm;
     ProtocolMetrics.avg_connection_duration := ProtocolMetrics.avg_connection_duration pm;
     ProtocolMetrics.handshake_failures := ProtocolMetrics.handshake_failures pm;
     ProtocolMetrics.negotiation_failures := ProtocolMetrics.negotiation_failures pm + 1 |}.

Definition track_handshake_failure (m : MCPMonitor A) (protocol_version reason : string)
  : MCPMonitor A :=
  let pm := dict_get_default (_protocol_metrics m) protocol_version
                             (ProtocolMetrics.new A protocol_version) in
  with_protocol_metrics m
    (dict_set (_protocol_metrics m) protocol_version (bump_handshake_failures pm)).

Definition track_negotiation_failure (m : MCPMonitor A) (client_versions : pyval)
  (reason : string) : MCPMonitor A :=
  with_protocol_metrics m
    (map (fun kv => (fst kv, bump_negotiation_failures (snd kv))) (_protocol_metrics m)).

Definition set_alert_threshold (m : MCPMonitor A) (threshold_name : string) (value : num A)
  : MCPMonitor A :=
  let t := _alert_thresholds m in
  if String.eqb threshold_name "max_connections" then
    with_thresholds m
      {| max_connections := value; max_error_rate := max_error_rate t;
         max_response_time := max_response_time t;
         connection_timeout := connection_timeout t |}
  else if String.eqb threshold_name "max_error_rate" then
    with_thresholds m
      {| max_connections := max_connections t; max_error_rate := value;
         max_response_time := max_response_time t;
         connection_timeout := connection_timeout t |}
  else if String.eqb threshold_name "max_response_time" then
    with_thresholds m
      {| max_connections := max_connections t; max_error_rate := max_error_rate t;
         max_response_time := value; connection_timeout := connection_timeout t |}
  else if String.eqb threshold_name "connection_timeout" then
    with_thresholds m
      {| max_connections := max_connections t; max_error_rate := max_error_rate t;
         max_response_time := max_response_time t; connection_timeout := value |}
  else m.

(** The events the monitor accepts, and the monitor after a run of them. *)
Inductive monitor_event : Type :=
| ConnectionStarted (now later : Z) (connection_id protocol_version : string)
                    (client_info : pyval)
| ConnectionEnded (now later : Z) (connection_id : string)
| MessageTracked (now : Z) (connection_id message_type : string) (size_bytes : Z)
                 (is_outbound : bool)
| ToolCall (connection_id tool_name : string) (execution_time : num A) (success : bool)
           (error_type : option string)
| HandshakeFailure (protocol_version reason : string)
| NegotiationFailure (client_versions : pyval) (reason : string)
| SetAlertThreshold (threshold_name : string) (value : num A).

Definition apply_event (m : MCPMonitor A) (e : monitor_event) : MCPMonitor A :=
  match e with
  | ConnectionStarted now later c v i => track_connection_started m now later c v i
  | ConnectionEnded now later c => track_connection_ended m now later c
  | MessageTracked now c t s o => track_message m now c t s o
  | ToolCall c t x s e => track_tool_call m c t x s e
  | HandshakeFailure v r => track_handshake_failure m v r
  | NegotiationFailure cv r => track_negotiation_failure m cv r
  | SetAlertThreshold n v => set_alert_threshold m n v
  end.

Definition run_events (retention_hours : Z) (events : list monitor_event) : MCPMonitor A :=
  fold_left apply_event events (new_monitor retention_hours).

(** *** Health *)

(** The text of an issue's ["message"], by its template and the values
    formatted into it. *)
Inductive issue_message : Type :=
| HighConnectionCount (total_active : Z)
| HighErrorRate (tool_name : string) (error_rate : num A)
| SlowResponse (tool_name : string) (avg_execution_time : num A)
| StaleConnections (count : Z).

(** One entry of ["issues"]; ["threshold"] and ["connections"] are the
    keys only some issues have. *)
Record issue : Type := {
  issue_type : string;
  severity : string;
  message : issue_message;
  threshold : option (num A);
  connections : option (list string)
}.

(** What [get_health_status] returns. *)
Record health : Type := {
  status : string;
  timestamp : Z;
  active_connections : Z;
  total_issues : Z;
  issues : list issue;
  uptime_seconds : num A
}.

(** [timedelta(seconds=x)] for a float [x], in microseconds, or what it
    raises: [OverflowError] for an infinite [x] and for one of too many
    days, [ValueError] for a NaN. *)
Variable timedelta_us : num A -> result Z.

Definition connection_issues (m : MCPMonitor A) (total_active : Z) : list issue :=
  if lt A (max_connections (_alert_thresholds m)) (of_int A total_active) then
    [ {| issue_type := "high_connection_count"; severity := "warning";
         message := HighConnectionCount total_active;
         threshold := Some (max_connections (_alert_thresholds m));
         connections := None |} ]
  else [].

Definition error_rate_issue (m : MCPMonitor A) (kv : string * ToolMetrics.t A) : list issue :=
  let (tool_name, tool_metrics) := kv in
  if 0 <? ToolMetrics.total_calls tool_metrics then
    let error_rate :=
      true_div A (ToolMetrics.failed_calls tool_metrics)
                 (ToolMetrics.total_calls tool_metrics) in
    if lt A (max_error_rate (_alert_thresholds m)) error_rate then
      [ {| issue_type := "high_error_rate"; severity := "critical";
           message := HighErrorRate tool_name error_rate;
           threshold := Some (max_error_rate (_alert_thresholds m));
           connections := None |} ]
    else []
  else [].

Definition response_time_issue (m : MCPMonitor A) (kv : string * ToolMetrics.t A) : list issue :=
  let (tool_name, tool_metrics) := kv in
  if lt A (max_response_time (_alert_thresholds m))
          (ToolMetrics.avg_execution_time tool_metrics) then
    [ {| issue_type := "slow_response"; severity := "warning";
         message := SlowResponse tool_name (ToolMetrics.avg_execution_time tool_metrics);
         threshold := Some (max_response_time (_alert_thresholds m));
         connections := None |} ]
  else [].

(** [now - timedelta(seconds=connection_timeout)]: the making of the
    [timedelta] and the subtraction can both raise. *)
Definition stale_cutoff (m : MCPMonitor A) (now : Z) : result Z :=
  bind (timedelta_us (connection_timeout (_alert_thresholds m))) (fun delta =>
  datetime_sub now delta).

Definition stale_connection_ids (m : MCPMonitor A) (cutoff_time : Z) : list string :=
  map fst (filter (fun kv => ConnectionMetrics.last_activity (snd kv) <? cutoff_time)
                  (_connections m)).

Definition stale_issues (stale_connections : list string) : list issue :=
  match stale_connections with
  | [] => []
  | _ :: _ =>
      [ {| issue_type := "stale_connections"; severity := "info";
           message := StaleConnections (Z.of_nat (List.length stale_connections));
           threshold := None;
           connections := Some stale_connections |} ]
  end.

(** The sum of the versions' active connections. *)
Definition total_active_connections (m : MCPMonitor A) : Z :=
  fold_left Z.add (map (fun kv => ProtocolMetrics.active_connections (snd kv))
                       (_protocol_metrics m)) 0.

(** [issue["severity"] == "critical"] and [== "warning"]. *)
Definition is_critical (i : issue) : bool := String.eqb (severity i) "critical".
Definition is_warning (i : issue) : bool := String.eqb (severity i) "warning".

(** [get_health_status]: what the cutoff for stale connections raises
    ends the call, whatever issues have been found by then. *)
Definition get_health_status (m : MCPMonitor A) (now : Z) : result health :=
  let total_active := total_active_connections m in
  let found :=
    connection_issues m total_active
    ++ flat_map (error_rate_issue m) (_tool_metrics m)
    ++ flat_map (response_time_issue m) (_tool_metrics m) in
  bind (stale_cutoff m now) (fun cutoff =>
  let stale_connections := stale_connection_ids m cutoff in
  let issues := found ++ stale_issues stale_connections in
  let status :=
    if existsb is_critical issues then "unhealthy"
    else if existsb is_warning issues then "degraded"
    else "healthy" in
  Ok {| status := status;
        timestamp := now;
        active_connections := total_active;
        total_issues := Z.of_nat (List.length issues);
        issues := issues;
        uptime_seconds :=
          total_seconds A
            (now - match map (fun kv => ConnectionMetrics.connected_at (snd kv))
                             (_connections m) with
                   | [] => now
                   | t :: ts => fold_left Z.min ts t
                   end) |}).

(** *** Summaries *)

(** A dict built by assigning the items of a list in turn. *)
Definition dict_of_items {V : Type} (items : list (string * V)) : dict V :=
  fold_left (fun d kv => dict_set d (fst kv) (snd kv)) items [].

(** [sum] of the ints of a generator. *)
Definition int_sum (l : list Z) : Z := fold_left Z.add l 0.

Definition _calculate_avg_message_time (m : MCPMonitor A) : num A :=
  match _tool_metrics m with
  | [] => zero A
  | tools =>
      let total_time :=
        sum A (map (fun kv => ToolMetrics.avg_execution_time (snd kv)) tools) in
      div A total_time (of_int A (Z.of_nat (List.length tools)))
  end.

Definition _calculate_overall_error_rate (m : MCPMonitor A) : num A :=
  let total_calls :=
    int_sum (map (fun kv => ToolMetrics.total_calls (snd kv)) (_tool_metrics m)) in
  let total_failures :=
    int_sum (map (fun kv => ToolMetrics.failed_calls (snd kv)) (_tool_metrics m)) in
  if total_calls =? 0 then zero A else true_div A total_failures total_calls.

(** [_calculate_throughput], with the reading [now] of the clock. *)
Definition _calculate_throughput (m : MCPMonitor A) (now : Z) : num A :=
  match _protocol_metrics m with
  | [] => zero A
  | protocols =>
      let total_messages :=
        int_sum (map (fun kv => ProtocolMetrics.total_messages (snd kv)) protocols) in
      match map (fun kv => ConnectionMetrics.connected_at (snd kv)) (_connections m) with
      | [] => zero A
      | t :: ts =>
          let earliest_connection := fold_left Z.min ts t in
          let elapsed_seconds := total_seconds A (now - earliest_connection) in
          if lt A (of_int A 0) elapsed_seconds
          then div A (of_int A total_messages) elapsed_seconds
          else zero A
      end
  end.

(** The entries of ["tools"] and ["protocols"] in a summary. *)
Record tool_summary : Type := {
  ts_total_calls : Z;
  ts_success_rate : num A;
  ts_avg_execution_time : num A;
  ts_error_types : dict Z
}.

Record protocol_summary : Type := {
  ps_total_connections : Z;
  ps_active_connections : Z;
  ps_total_messages : Z;
  ps_handshake_failures : Z;
  ps_negotiation_failures : Z;
  ps_avg_connection_duration : num A
}.

(** What [get_metrics_summary] returns: ["connections"] is laid out in
    the three fields [ms_active], [ms_total_since_start] and
    [ms_by_protocol], ["performance"] in the last three. *)
Record metrics_summary : Type := {
  ms_timestamp : Z;
  ms_active : Z;
  ms_total_since_start : Z;
  ms_by_protocol : dict Z;
  ms_tools : dict tool_summary;
  ms_protocols : dict protocol_summary;
  ms_avg_message_processing_time : num A;
  ms_error_rate : num A;
  ms_throughput_per_second : num A
}.

(** [get_metrics_summary]; [now] is the clock's reading for the
    timestamp and [later] its reading inside [_calculate_throughput]. *)
Definition get_metrics_summary (m : MCPMonitor A) (now later : Z) : metrics_summary :=
  let active_connections := Z.of_nat (List.length (_connections m)) in
  let total_connections :=
    int_sum (map (fun kv => ProtocolMetrics.total_connections (snd kv))
                 (_protocol_metrics m)) in
  let tool_summary :=
    dict_of_items
      (map (fun kv =>
              let metrics := snd kv in
              (fst kv,
               {| ts_total_calls := ToolMetrics.total_calls metrics;
                  ts_success_rate :=
                    true_div A (ToolMetrics.successful_calls metrics)
                               (Z.max 1 (ToolMetrics.total_calls metrics));
                  ts_avg_execution_time := ToolMetrics.avg_execution_time metrics;
                  ts_error_types := ToolMetrics.error_types metrics |}))
           (_tool_metrics m)) in
  let protocol_summary :=
    dict_of_items
      (map (fun kv =>
              let metrics := snd kv in
              (fst kv,
               {| ps_total_connections := ProtocolMetrics.total_connections metrics;
                  ps_active_connections := ProtocolMetrics.active_connections metrics;
                  ps_total_messages := ProtocolMetrics.total_messages metrics;
                  ps_handshake_failures := ProtocolMetrics.handshake_failures metrics;
                  ps_negotiation_failures := ProtocolMetrics.negotiation_failures metrics;
                  ps_avg_connection_duration :=
                    ProtocolMetrics.avg_connection_duration metrics |}))
           (_protocol_metrics m)) in
  {| ms_timestamp := now;
     ms_active := active_connections;
     ms_total_since_start := total_connections;
     ms_by_protocol :=
       dict_of_items
         (map (fun kv => (fst kv, ProtocolMetrics.active_connections (snd kv)))
              (_protocol_metrics m));
     ms_tools := tool_summary;
     ms_protocols := protocol_summary;
     ms_avg_message_processing_time := _calculate_avg_message_time m;
     ms_error_rate := _calculate_overall_error_rate m;
     ms_throughput_per_second := _calculate_throughput m later |}.

(** *** Retention *)

(** [deque(items, maxlen=n)]. *)
Definition deque_of {X : Type} (maxlen : Z) (items : list X) : list X :=
  fold_left (deque_append maxlen) items [].

(** [cleanup_old_data] at the time [now]: the history keeps the entries
    that ended after [now] minus the retention time. *)
Definition cleanup_old_data (m : MCPMonitor A) (now : Z) : result (MCPMonitor A) :=
  bind (timedelta_hours (_retention_hours m)) (fun retention =>
  bind (datetime_sub now retention) (fun cutoff_time =>
  Ok (with_history m
        (deque_of 10000
           (filter (fun entry => cutoff_time <? h_ended_at A entry)
                   (_connection_history m)))))).

(** *** One connection *)

(** What [get_connection_details] returns for a tracked connection. *)
Record connection_details : Type := {
  cd_connection_id : string;
  cd_protocol_version : string;
  cd_client_info : pyval;
  cd_connected_at : Z;
  cd_duration_seconds : num A;
  cd_message_count : Z;
  cd_bytes_sent : Z;
  cd_bytes_received : Z;
  cd_errors : Z;
  cd_last_activity : Z;
  cd_tool_calls : dict Z;
  cd_avg_response_time : num A
}.

Definition get_connection_details (m : MCPMonitor A) (now : Z) (connection_id : string)
  : option connection_details :=
  match dict_get (_connections m) connection_id with
  | None => None
  | Some metrics =>
      Some {| cd_connection_id := connection_id;
              cd_protocol_version := ConnectionMetrics.protocol_version metrics;
              cd_client_info := ConnectionMetrics.client_info metrics;
              cd_connected_at := ConnectionMetrics.connected_at metrics;
              cd_duration_seconds :=
                total_seconds A (now - ConnectionMetrics.connected_at metrics);
              cd_message_count := ConnectionMetrics.message_count metrics;
              cd_bytes_sent := ConnectionMetrics.bytes_sent metrics;
              cd_bytes_received := ConnectionMetrics.bytes_received metrics;
              cd_errors := ConnectionMetrics.errors metrics;
              cd_last_activity := ConnectionMetrics.last_activity metrics;
              cd_tool_calls := ConnectionMetrics.tool_calls metrics;
              cd_avg_response_time := ConnectionMetrics.avg_response_time metrics |}
  end.

End Operations.

Arguments issue_type {A} _.
Arguments severity {A} _.
Arguments message {A} _.
Arguments threshold {A} _.
Arguments connections {A} _.
Arguments status {A} _.
Arguments timestamp {A} _.
Arguments active_connections {A} _.
Arguments total_issues {A} _.
Arguments issues {A} _.
Arguments uptime_seconds {A} _.
Arguments ts_total_calls {A} _.
Arguments ts_success_rate {A} _.
Arguments ts_avg_execution_time {A} _.
Arguments ts_error_types {A} _.
Arguments ps_total_connections {A} _.
Arguments ps_active_connections {A} _.
Arguments ps_total_messages {A} _.
Arguments ps_handshake_failures {A} _.
Arguments ps_negotiation_failures {A} _.
Arguments ps_avg_connection_duration {A} _.
Arguments ms_timestamp {A} _.
Arguments ms_active {A} _.
Arguments ms_total_since_start {A} _.
Arguments ms_by_protocol {A} _.
Arguments ms_tools {A} _.
Arguments ms_protocols {A} _.
Arguments ms_avg_message_processing_time {A} _.
Arguments ms_error_rate {A} _.
Arguments ms_throughput_per_second {A} _.
Arguments cd_connection_id {A} _.
Arguments cd_protocol_version {A} _.
Arguments cd_client_info {A} _.
Arguments cd_connected_at {A} _.
Arguments cd_duration_seconds {A} _.
Arguments cd_message_count {A} _.
Arguments cd_bytes_sent {A} _.
Arguments cd_bytes_received {A} _.
Arguments cd_errors {A} _.
Arguments cd_last_activity {A} _.
Arguments cd_tool_calls {A} _.
Arguments cd_avg_response_time {A} _.

End Monitor.

(** *** The specification's conditions on the monitor *)

Module MonitorSpec.
Import Py.
Import Monitor.

(** The invariant of a tool's metrics: the calls add up, and after the
    first call the average lies between the minimum and the maximum. *)
Definition metrics_invariant (A : Arith) (t : ToolMetrics.t A) : Prop :=
  ToolMetrics.total_calls t = ToolMetrics.successful_calls t + ToolMetrics.failed_calls t
  /\ (1 <= ToolMetrics.total_calls t ->
      le A (ToolMetrics.min_execution_time t) (ToolMetrics.avg_execution_time t) = true
      /\ le A (ToolMetrics.avg_execution_time t) (ToolMetrics.max_execution_time t) = true).

(** What holds of a tool's metrics in every arithmetic: the calls add up,
    there has been a call, the window holds between one and a hundred
    latencies, and the average is the window's sum over its length. *)
Definition metrics_account (A : Arith) (t : ToolMetrics.t A) : Prop :=
  ToolMetrics.total_calls t = ToolMetrics.successful_calls t + ToolMetrics.failed_calls t
  /\ 0 <= ToolMetrics.successful_calls t
  /\ 0 <= ToolMetrics.failed_calls t
  /\ 1 <= ToolMetrics.total_calls t
  /\ ToolMetrics.recent_response_times t <> []
  /\ Z.of_nat (List.length (ToolMetrics.recent_response_times t)) <= 100
  /\ Z.of_nat (List.length (ToolMetrics.recent_response_times t)) <= ToolMetrics.total_calls t
  /\ ToolMetrics.avg_execution_time t =
       div A (sum A (ToolMetrics.recent_response_times t))
             (of_int A (Z.of_nat (List.length (ToolMetrics.recent_response_times t)))).

(** What holds of a tool's metrics before and after any call. *)
Definition countable (A : Arith) (t : ToolMetrics.t A) : Prop :=
  ToolMetrics.total_calls t = ToolMetrics.successful_calls t + ToolMetrics.failed_calls t
  /\ 0 <= ToolMetrics.successful_calls t
  /\ 0 <= ToolMetrics.failed_calls t
  /\ Z.of_nat (List.length (ToolMetrics.recent_response_times t)) <= 100
  /\ Z.of_nat (List.length (ToolMetrics.recent_response_times t)) <= ToolMetrics.total_calls t.

Definition all_account (A : Arith) (m : MCPMonitor A) : Prop :=
  forall name t, dict_get (_tool_metrics m) name = Some t -> metrics_account A t.

(** A critical issue: some tool with at least one call fails more often
    than [max_error_rate]. *)
Definition error_rate_exceeded (A : Arith) (m : MCPMonitor A) : Prop :=
  exists name t,
    In (name, t) (_tool_metrics m)
    /\ 0 < ToolMetrics.total_calls t
    /\ lt A (max_error_rate (_alert_thresholds m))
            (div A (of_int A (ToolMetrics.failed_calls t))
                   (of_int A (ToolMetrics.total_calls t))) = true.

(** The total of the active connections, version by version. *)
Fixpoint total_active (A : Arith) (protocols : dict (ProtocolMetrics.t A)) : Z :=
  match protocols with
  | [] => 0
  | (_, metrics) :: rest => ProtocolMetrics.active_connections metrics + total_active A rest
  end.

(** A warning issue: more active connections than [max_connections], or
    some tool slower on average than [max_response_time]. *)
Definition overloaded_or_slow (A : Arith) (m : MCPMonitor A) : Prop :=
  lt A (max_connections (_alert_thresholds m))
       (of_int A (total_active A (_protocol_metrics m))) = true
  \/ exists name t,
       In (name, t) (_tool_metrics m)
       /\ lt A (max_response_time (_alert_thresholds m))
               (ToolMetrics.avg_execution_time t) = true.

(** The instant before which a connection is stale, [now] minus
    [connection_timeout]: there is none when the timeout makes no
    [timedelta] or the date falls out of the range of [datetime]. *)
Definition stale_before (A : Arith) (timedelta_us : num A -> result Z)
  (m : MCPMonitor A) (now : Z) : result Z :=
  match timedelta_us (connection_timeout (_alert_thresholds m)) with
  | Ok delta =>
      if (now - delta <? datetime_min) || (datetime_max <? now - delta)
      then Raise (OtherError "OverflowError" "date value out of range")
      else Ok (now - delta)
  | Raise e => Raise e
  end.

(** A stale connection: last active before [now - connection_timeout]. *)
Definition some_connection_stale (A : Arith) (timedelta_us : num A -> result Z)
  (m : MCPMonitor A) (now : Z) : Prop :=
  exists id c cutoff,
    In (id, c) (_connections m)
    /\ stale_before A timedelta_us m now = Ok cutoff
    /\ ConnectionMetrics.last_activity c < cutoff.

End MonitorSpec.

(** *** Two arithmetics *)

(** IEEE 754 binary64, the arithmetic of CPython's [float]. *)
Module Binary64.
Import Monitor.

(** [float(z)], exact below [2^53]. *)
Definition float_of_int (z : Z) : float :=
  match z with
  | Z0 => PrimFloat.zero
  | Zpos _ => PrimFloat.of_uint63 (Uint63.of_Z z)
  | Zneg p => PrimFloat.opp (PrimFloat.of_uint63 (Uint63.of_Z (Zpos p)))
  end.

(** [sum(l)] up to CPython 3.11: the floats are added from left to
    right, starting from the integer [0]. *)
Definition sum_left (l : list float) : float :=
  fold_left PrimFloat.add l PrimFloat.zero.

(** [sum(l)] from CPython 3.12 on: Neumaier's compensated summation of
    the floats after the first. *)
Fixpoint neumaier (l : list float) (f_result c : float) : float :=
  match l with
  | [] =>
      if negb (PrimFloat.is_zero c) && PrimFloat.is_finite c
      then PrimFloat.add f_result c else f_result
  | x :: l' =>
      let t := PrimFloat.add f_result x in
      let c' :=
        if PrimFloat.leb (PrimFloat.abs x) (PrimFloat.abs f_result)
        then PrimFloat.add c (PrimFloat.add (PrimFloat.sub f_result t) x)
        else PrimFloat.add c (PrimFloat.add (PrimFloat.sub x t) f_result) in
      neumaier l' t c'
  end.

Definition sum_compensated (l : list float) : float :=
  match l with
  | [] => PrimFloat.zero
  | x :: l' => neumaier l' (PrimFloat.add PrimFloat.zero x) PrimFloat.zero
  end.

Definition arith : Arith :=
  {| num := float; zero := PrimFloat.zero; infinity := PrimFloat.infinity;
     of_int := float_of_int; add := PrimFloat.add; mul := PrimFloat.mul; div := PrimFloat.div;
     sum := sum_left; lt := PrimFloat.ltb; le := PrimFloat.leb |}.

Definition arith_compensated : Arith :=
  {| num := float; zero := PrimFloat.zero; infinity := PrimFloat.infinity;
     of_int := float_of_int; add := PrimFloat.add; mul := PrimFloat.mul; div := PrimFloat.div;
     sum := sum_compensated; lt := PrimFloat.ltb; le := PrimFloat.leb |}.

(** The double nearest to one tenth: [0.1]. *)
Definition tenth : float := PrimFloat.div (float_of_int 1) (float_of_int 10).

End Binary64.

(** Exact arithmetic: the rationals and [+inf], which the monitor needs
    for the minimum of no latency.  There is no rounding, no [-inf] and
    no NaN here. *)
Module Exact.
Import Monitor.

Inductive xq : Type :=
| Fin (q : Q)
| PInf.

Definition xadd (a b : xq) : xq :=
  match a, b with
  | Fin x, Fin y => Fin (x + y)
  | _, _ => PInf
  end.

Definition xmul (a b : xq) : xq :=
  match a, b with
  | Fin x, Fin y => Fin (x * y)
  | _, _ => PInf
  end.

Definition xdiv (a b : xq) : xq :=
  match a, b with
  | Fin x, Fin y => Fin (x / y)
  | Fin _, PInf => Fin 0
  | PInf, _ => PInf
  end.

Definition xle (a b : xq) : bool :=
  match a, b with
  | Fin x, Fin y => Qle_bool x y
  | _, PInf => true
  | PInf, Fin _ => false
  end.

Definition xlt (a b : xq) : bool := negb (xle b a).

Definition xsum (l : list xq) : xq := fold_left xadd l (Fin 0).

Definition arith : Arith :=
  {| num := xq; zero := Fin 0; infinity := PInf;
     of_int := fun z => Fin (inject_Z z); add := xadd; mul := xmul; div := xdiv;
     sum := xsum; lt := xlt; le := xle |}.

(** Rounding to the nearest integer, ties to the even one. *)
Definition round_half_even (y : Q) : Z :=
  let f := Qfloor y in
  match Qcompare (y - inject_Z f) (1 # 2) with
  | Lt => f
  | Gt => f + 1
  | Eq => if Z.even f then f else f + 1
  end.

(** [timedelta(seconds=x)] in microseconds: there is none for an
    infinite [x], nor for one of more than 999999999 days. *)
Definition timedelta_us (x : xq) : Py.result Z :=
  match x with
  | Fin q => timedelta_microseconds (round_half_even (q * 1000000))
  | PInf => Py.Raise (Py.OtherError "OverflowError"
                        "cannot convert float infinity to integer")
  end.

(** Every latency in the window lies between the minimum and the
    maximum. *)
Definition window_bounded (t : ToolMetrics.t arith) : Prop :=
  forall y, In y (ToolMetrics.recent_response_times t) ->
            xle (ToolMetrics.min_execution_time t) y = true
            /\ xle y (ToolMetrics.max_execution_time t) = true.

Definition all_bounded (m : MCPMonitor arith) : Prop :=
  forall name t, Py.dict_get (_tool_metrics m) name = Some t -> window_bounded t.

(** The latencies of a window when all are finite. *)
Fixpoint finite_part (w : list xq) : option (list Q) :=
  match w with
  | [] => Some []
  | Fin q :: w' => option_map (cons q) (finite_part w')
  | PInf :: _ => None
  end.

End Exact.

(** ** The server ([server.py]) *)

Module Server.
Import Py.
Import Registry.
Import Negotiator.

(** [WebSocketState]. *)
Inductive WebSocketState : Type := CONNECTING | CONNECTED | DISCONNECTED.

Definition is_connected (s : WebSocketState) : bool :=
  match s with CONNECTED => true | _ => false end.

(** What the transport has for the next [receive_text]: a text frame, or
    the client's disconnect. *)
Inductive incoming : Type :=
| Frame (raw : string)
| Disconnect.

(** The transport of one connection: its state, what the client still
    sends, what the server has sent (the messages given to [json.dumps]
    and [send_text], oldest first) and the close the server made. *)
Record WebSocket : Type := {
  client_state : WebSocketState;
  inbox : list incoming;
  sent : list (dict pyval);
  closed : option (Z * string)
}.

Record MCPConnection : Type := {
  connection_id : string;
  negotiated_version : option string;
  connected_at : Z;
  message_count : Z;
  client_info : pyval;
  is_authenticated : bool
}.

(** What the server tells its monitor. *)
Inductive monitor_call : Type :=
| track_connection_started (connection_id : string) (protocol_version : option string)
                           (client_info : pyval)
| track_connection_ended (connection_id : string)
| track_message (connection_id : string) (message_type : pyval) (size_bytes : Z)
                (is_outbound : bool)
| track_tool_call (connection_id tool_name : string) (execution_time_us : Z)
                  (success : bool) (error_type : option string)
| track_negotiation_failure (client_versions : pyval) (reason : string).

(** The server.  [_connections] is kept by its keys: a connection object
    is only ever used by the handler that made it. *)
Record MCPServer : Type := {
  _registry : ProtocolVersionRegistry;
  _negotiator : MCPProtocolNegotiator;
  _max_connections : Z;
  _connections : list string;
  _total_connections : Z;
  _total_messages : Z
}.

(** Everything one run of [handle_connection] reads and writes. *)
Record state : Type := {
  server : MCPServer;
  connection : MCPConnection;
  websocket : WebSocket;
  clock : Z;                                  (* [datetime.utcnow()], microseconds *)
  dispatched : list (string * pyval);         (* the calls of [adapter.handle_tool_call] *)
  monitor_log : list monitor_call
}.

(** A coroutine of the server: it runs on a state and returns or raises. *)
Definition M (X : Type) : Type := state -> result X * state.

Definition ret {X : Type} (x : X) : M X := fun s => (Ok x, s).
Definition raise {X : Type} (e : exn) : M X := fun s => (Raise e, s).

Definition mbind {X Y : Type} (m : M X) (k : X -> M Y) : M Y :=
  fun s =>
    match m s with
    | (Ok x, s') => k x s'
    | (Raise e, s') => (Raise e, s')
    end.

Declare Scope server_scope.
Delimit Scope server_scope with server.
Notation "x <- m ;; k" := (mbind m (fun x => k))
  (at level 61, m at next level, right associativity) : server_scope.
Notation "m ;; k" := (mbind m (fun _ => k))
  (at level 61, right associativity) : server_scope.
Local Open Scope server_scope.

(** [try: m  except Exception as e: h e]. *)
Definition try_except {X : Type} (m : M X) (h : exn -> M X) : M X :=
  fun s =>
    match m s with
    | (Raise e, s') => h e s'
    | r => r
    end.

(** [try: m  finally: f]. *)
Definition try_finally {X : Type} (m : M X) (f : M unit) : M X :=
  fun s =>
    let (r, s') := m s in
    match f s' with
    | (Ok _, s'') => (r, s'')
    | (Raise e, s'') => (Raise e, s'')
    end.

(** [try: m  except: pass]. *)
Definition swallow (m : M unit) : M unit := try_except m (fun _ => ret tt).

Definition get : M state := fun s => (Ok s, s).
Definition modify (f : state -> state) : M unit := fun s => (Ok tt, f s).

Definition set_websocket (w : WebSocket) (s : state) : state :=
  {| server := server s; connection := connection s; websocket := w; clock := clock s;
     dispatched := dispatched s; monitor_log := monitor_log s |}.

Definition set_connection (c : MCPConnection) (s : state) : state :=
  {| server := server s; connection := c; websocket := websocket s; clock := clock s;
     dispatched := dispatched s; monitor_log := monitor_log s |}.

Definition set_server (v : MCPServer) (s : state) : state :=
  {| server := v; connection := connection s; websocket := websocket s; clock := clock s;
     dispatched := dispatched s; monitor_log := monitor_log s |}.

Definition monitor (call : monitor_call) : M unit :=
  modify (fun s =>
    {| server := server s; connection := connection s; websocket := websocket s;
       clock := clock s; dispatched := dispatched s;
       monitor_log := monitor_log s ++ [call] |}).

(** [websocket.accept()]. *)
Definition accept : M unit :=
  modify (fun s =>
    set_websocket {| client_state := CONNECTED; inbox := inbox (websocket s);
                     sent := sent (websocket s); closed := closed (websocket s) |} s).

(** [websocket.close(code, reason)]. *)
Definition close (code : Z) (reason : string) : M unit :=
  modify (fun s =>
    set_websocket {| client_state := DISCONNECTED; inbox := inbox (websocket s);
                     sent := sent (websocket s); closed := Some (code, reason) |} s).

(** The state once [message] has gone out. *)
Definition with_sent (message : dict pyval) (s : state) : state :=
  set_websocket {| client_state := client_state (websocket s);
                   inbox := inbox (websocket s);
                   sent := sent (websocket s) ++ [message];
                   closed := closed (websocket s) |} s.

(** [websocket.send_text(json.dumps(message))]. *)
Definition send_text_json (message : dict pyval) : M unit :=
  if json_serialisable (PDict message) then modify (with_sent message)
  else raise (TypeError "Object is not JSON serializable").

(** [websocket.receive_text()]: the next frame, or [WebSocketDisconnect]
    when the client has gone. *)
Definition receive_text : M string :=
  fun s =>
    match inbox (websocket s) with
    | Frame raw :: rest =>
        (Ok raw,
         set_websocket {| client_state := client_state (websocket s); inbox := rest;
                          sent := sent (websocket s); closed := closed (websocket s) |} s)
    | Disconnect :: rest =>
        (Raise WebSocketDisconnect,
         set_websocket {| client_state := DISCONNECTED; inbox := rest;
                          sent := sent (websocket s); closed := closed (websocket s) |} s)
    | [] =>
        (Raise WebSocketDisconnect,
         set_websocket {| client_state := DISCONNECTED; inbox := [];
                          sent := sent (websocket s); closed := closed (websocket s) |} s)
    end.

(** [message["error"]["code"]] of a message, when it has one. *)
Definition error_code (message : dict pyval) : option pyval :=
  match dict_get message "error" with
  | Some (PDict e) => dict_get e "code"
  | _ => None
  end.

Section WithRuntime.

(** [json.loads] ([None] where it raises [JSONDecodeError], whose text is
    [json_error_text]), [str] of a value, [datetime.isoformat] and the
    iteration order of a set of strings. *)
Variable json_loads : string -> option pyval.
Variable json_error_text : string -> string.
Variable py_str : pyval -> string.
Variable isoformat : Z -> string.
Variable set_order : list string -> list string.

(** [MCPConnection.send_message]. *)
Definition send_message (message : dict pyval) : M unit :=
  s <- get ;;
  if is_connected (client_state (websocket s)) then send_text_json message
  else raise (RuntimeError "WebSocket is not connected").

(** [MCPConnection.receive_message]. *)
Definition receive_message : M (dict pyval) :=
  s <- get ;;
  if is_connected (client_state (websocket s)) then
    raw_message <- receive_text ;;
    modify (fun s =>
      let c := connection s in
      set_connection
        {| connection_id := connection_id c; negotiated_version := negotiated_version c;
           connected_at := connected_at c; message_count := message_count c + 1;
           client_info := client_info c; is_authenticated := is_authenticated c |} s) ;;
    match json_loads raw_message with
    | Some (PDict message) => ret message
    | Some _ =>
        (* the debug line calls [message.get] *)
        raise (AttributeError "object has no attribute 'get'")
    | None =>
        raise (ValueError ("Invalid JSON message: " ++ json_error_text raw_message)%string)
    end
  else raise (RuntimeError "WebSocket is not connected").

(** [datetime.utcnow().isoformat()]. *)
Definition timestamp : M pyval :=
  s <- get ;; ret (PStr (isoformat (clock s))).

(** [execution_time * 1000] for a time of [us] microseconds. *)
Definition milliseconds (us : Z) : pyval := PFloat (inject_Z us / 1000).

(** [await adapter.handle_tool_call(tool_name, parameters)]: the call is
    recorded and the clock moves on by the time it took. *)
Definition dispatch (adapter : ProtocolAdapter) (tool_name : string) (parameters : pyval)
  : M tool_outcome :=
  let o := handle_tool_call adapter tool_name parameters in
  modify (fun s =>
    {| server := server s; connection := connection s; websocket := websocket s;
       clock := clock s + elapsed o;
       dispatched := dispatched s ++ [(tool_name, parameters)];
       monitor_log := monitor_log s |}) ;;
  ret o.

Definition _handle_tool_call (adapter : ProtocolAdapter) (message : dict pyval)
  : M (dict pyval) :=
  let tool_name := msg_get message "tool" in
  let parameters := dict_get_default message "parameters" (PDict []) in
  let message_id := msg_get message "id" in
  if negb (truthy tool_name) then
    raise (ValueError "Missing 'tool' field in tool_call message")
  else
    match tool_name with
    | PStr tool =>
        if str_in tool (get_supported_tools adapter) then
          o <- dispatch adapter tool parameters ;;
          end_time <- timestamp ;;
          match outcome o with
          | Ok result =>
              monitor (track_tool_call "unknown" tool (elapsed o) true None) ;;
              ret [ ("type", PStr "tool_response");
                    ("id", message_id);
                    ("tool", tool_name);
                    ("result", result);
                    ("execution_time_ms", milliseconds (elapsed o));
                    ("timestamp", end_time) ]
          | Raise e =>
              monitor (track_tool_call "unknown" tool (elapsed o) false
                                       (Some (exn_name e))) ;;
              ret [ ("type", PStr "tool_error");
                    ("id", message_id);
                    ("tool", tool_name);
                    ("error", PDict
                       [ ("code", PStr "TOOL_EXECUTION_ERROR");
                         ("message", PStr (exn_str e));
                         ("execution_time_ms", milliseconds (elapsed o));
                         ("timestamp", end_time) ]) ]
          end
        else raise (ValueError ("Unsupported tool: " ++ tool)%string)
    | _ =>
        (* only a string is [in] a list of tool names *)
        raise (ValueError ("Unsupported tool: " ++ py_str tool_name)%string)
    end.

Definition server_features : pyval :=
  PList [PStr "async_tools"; PStr "error_handling"; PStr "progress_tracking"].

Definition max_message_size : pyval := PInt (10 * 1024 * 1024).

Definition _handle_get_capabilities (adapter : ProtocolAdapter) (message : dict pyval)
  : M (dict pyval) :=
  ret [ ("type", PStr "capabilities");
        ("id", msg_get message "id");
        ("capabilities", PDict
           [ ("protocol_version", PStr (get_supported_version adapter));
             ("tools", PList (map PStr (get_supported_tools adapter)));
             ("features", server_features);
             ("limits", PDict
                [ ("max_message_size", max_message_size);
                  ("max_tool_calls_per_minute", PInt 100);
                  ("max_concurrent_calls", PInt 10) ]) ]) ].

Definition _handle_get_protocol_info (message : dict pyval) : M (dict pyval) :=
  s <- get ;;
  match chosen (negotiated_version (connection s)) with
  | None => raise (ValueError "No protocol version negotiated")
  | Some version =>
      match get_protocol_info (_negotiator (server s)) version with
      | Ok protocol_info =>
          ret [ ("type", PStr "protocol_info");
                ("id", msg_get message "id");
                ("info", protocol_info) ]
      | Raise e => raise e
      end
  end.

Definition _handle_message (adapter : ProtocolAdapter) (message : dict pyval)
  : M (dict pyval) :=
  let message_type := msg_get message "type" in
  let message_id := msg_get message "id" in
  try_except
    (if is_str message_type "tool_call" then _handle_tool_call adapter message
     else if is_str message_type "ping" then
       ret [ ("type", PStr "pong"); ("id", message_id) ]
     else if is_str message_type "get_capabilities" then
       _handle_get_capabilities adapter message
     else if is_str message_type "get_protocol_info" then
       _handle_get_protocol_info message
     else
       ret [ ("type", PStr "error");
             ("id", message_id);
             ("error", PDict
                [ ("code", PStr "UNKNOWN_MESSAGE_TYPE");
                  ("message",
                   PStr ("Unknown message type: " ++ py_str message_type)%string) ]) ])
    (fun e =>
       now <- timestamp ;;
       ret [ ("type", PStr "error");
             ("id", message_id);
             ("error", PDict
                [ ("code", PStr "HANDLER_ERROR");
                  ("message", PStr (exn_str e));
                  ("timestamp", now) ]) ]).

(** How one turn of the [while True] of [_message_loop] ends: with the
    next turn (and the value [message] is then bound to), or with
    [break]. *)
Inductive loop_control : Type :=
| Continue (message : option (dict pyval))
| Break.

(** The [except Exception] of the loop: [message] is the variable of
    that name, unbound before the first frame has been parsed. *)
Definition message_processing_error (e : exn) (message : option (dict pyval))
  : M loop_control :=
  match message with
  | None => ret Break      (* [message.get] raises inside the [try] *)
  | Some m =>
      try_except
        (now <- timestamp ;;
         send_message
           [ ("type", PStr "error");
             ("request_id", msg_get m "id");
             ("error", PDict
                [ ("code", PStr "MESSAGE_PROCESSING_ERROR");
                  ("message", PStr (exn_str e));
                  ("timestamp", now) ]) ] ;;
         ret (Continue message))
        (fun _ => ret Break)
  end.

Definition count_message : M unit :=
  modify (fun s =>
    let v := server s in
    set_server {| _registry := _registry v; _negotiator := _negotiator v;
                  _max_connections := _max_connections v;
                  _connections := _connections v;
                  _total_connections := _total_connections v;
                  _total_messages := _total_messages v + 1 |} s).

(** What the loop does with a message it has received. *)
Definition process_message (adapter : ProtocolAdapter) (message : dict pyval) : M unit :=
  count_message ;;
  s <- get ;;
  monitor (track_message (connection_id (connection s))
                         (dict_get_default message "type" (PStr "unknown"))
                         (Z.of_nat (String.length (py_str (PDict message))))
                         false) ;;
  response <- _handle_message adapter message ;;
  match response with
  | [] => ret tt
  | _ => send_message response
  end.

(** One turn of the loop. *)
Definition message_loop_turn (adapter : ProtocolAdapter) (message : option (dict pyval))
  : M loop_control :=
  fun s =>
    match receive_message s with
    | (Raise WebSocketDisconnect, s') => (Raise WebSocketDisconnect, s')
    | (Raise e, s') => message_processing_error e message s'
    | (Ok received, s') =>
        match process_message adapter received s' with
        | (Raise WebSocketDisconnect, s'') => (Raise WebSocketDisconnect, s'')
        | (Raise e, s'') => message_processing_error e (Some received) s''
        | (Ok _, s'') => (Ok (Continue (Some received)), s'')
        end
    end.

(** The loop, for at most [turns] turns; [false] when they ran out. *)
Fixpoint message_loop_turns (turns : nat) (adapter : ProtocolAdapter)
  (message : option (dict pyval)) : M bool :=
  match turns with
  | O => ret false
  | S turns' =>
      c <- message_loop_turn adapter message ;;
      match c with
      | Break => ret true
      | Continue message' => message_loop_turns turns' adapter message'
      end
  end.

(** [_message_loop].  A turn takes a frame from the transport or ends
    the loop, so one turn more than there are frames is enough. *)
Definition _message_loop : M bool :=
  s <- get ;;
  match
    match negotiated_version (connection s) with
    | Some v => get_adapter (_registry (server s)) v
    | None => None
    end
  with
  | None => raise (RuntimeError "No adapter available for connection")
  | Some adapter =>
      message_loop_turns (S (List.length (inbox (websocket s)))) adapter None
  end.

Definition set_negotiated (version : string) : M unit :=
  modify (fun s =>
    let c := connection s in
    set_connection
      {| connection_id := connection_id c; negotiated_version := Some version;
         connected_at := connected_at c; message_count := message_count c;
         client_info := client_info c; is_authenticated := is_authenticated c |} s).

Definition set_client_info (info : pyval) : M unit :=
  modify (fun s =>
    let c := connection s in
    set_connection
      {| connection_id := connection_id c; negotiated_version := negotiated_version c;
         connected_at := connected_at c; message_count := message_count c;
         client_info := info; is_authenticated := is_authenticated c |} s).

Definition _perform_handshake : M unit :=
  (* Wait for client hello *)
  message <- receive_message ;;
  if negb (is_str (msg_get message "type") "hello") then
    raise (ValueError "Expected 'hello' message from client")
  else
    let client_capabilities := dict_get_default message "capabilities" (PDict []) in
    set_client_info (dict_get_default message "client_info" (PDict [])) ;;
    s <- get ;;
    (* Negotiate protocol version *)
    negotiated_version <-
      match negotiate_protocol set_order py_str (_negotiator (server s))
                               client_capabilities with
      | Ok version => set_negotiated version ;; ret version
      | Raise (ValueError msg) =>
          match _extract_client_versions client_capabilities with
          | Ok client_versions =>
              monitor (track_negotiation_failure client_versions msg) ;;
              send_message
                [ ("type", PStr "error");
                  ("error", PDict
                     [ ("code", PStr "PROTOCOL_NEGOTIATION_FAILED");
                       ("message", PStr msg);
                       ("supported_versions",
                        PList (map PStr (get_supported_versions
                                           (_registry (server s))))) ]) ] ;;
              raise (ValueError msg)
          | Raise e => raise e
          end
      | Raise e => raise e
      end ;;
    (* Get protocol adapter *)
    match get_adapter (_registry (server s)) negotiated_version with
    | None =>
        raise (RuntimeError ("No adapter found for version " ++ negotiated_version)%string)
    | Some adapter =>
        (* Send server hello *)
        send_message
          [ ("type", PStr "hello");
            ("protocol_version", PStr negotiated_version);
            ("server_info", PDict
               [ ("name", PStr "MCP RAG Server");
                 ("version", PStr "1.0.0");
                 ("description", PStr "RAG server with MCP protocol support") ]);
            ("capabilities", PDict
               [ ("tools", PList (map PStr (get_supported_tools adapter)));
                 ("features", server_features);
                 ("max_message_size", max_message_size) ]) ] ;;
        (* Wait for confirmation; anything but "ready" is only logged *)
        _ <- receive_message ;;
        ret tt
    end.

Definition register_connection : M unit :=
  modify (fun s =>
    let v := server s in
    set_server {| _registry := _registry v; _negotiator := _negotiator v;
                  _max_connections := _max_connections v;
                  _connections := _connections v ++ [connection_id (connection s)];
                  _total_connections := _total_connections v + 1;
                  _total_messages := _total_messages v |} s).

Definition forget_connection : M unit :=
  modify (fun s =>
    let v := server s in
    set_server {| _registry := _registry v; _negotiator := _negotiator v;
                  _max_connections := _max_connections v;
                  _connections :=
                    filter (fun c => negb (String.eqb c (connection_id (connection s))))
                           (_connections v);
                  _total_connections := _total_connections v;
                  _total_messages := _total_messages v |} s).

(** The body of the [try] of [handle_connection]. *)
Definition serve : M unit :=
  register_connection ;;
  _perform_handshake ;;
  s <- get ;;
  monitor (track_connection_started (connection_id (connection s))
                                    (negotiated_version (connection s))
                                    (client_info (connection s))) ;;
  _ <- _message_loop ;;
  ret tt.

(** The message of the [except Exception] clause of [handle_connection]. *)
Definition server_error_message (now : pyval) : dict pyval :=
  [ ("type", PStr "error");
    ("error", PDict
       [ ("code", PStr "SERVER_ERROR");
         ("message", PStr "Internal server error");
         ("timestamp", now) ]) ].

(** Its two [except] clauses. *)
Definition on_error (e : exn) : M unit :=
  match e with
  | WebSocketDisconnect => ret tt
  | _ => swallow (now <- timestamp ;; send_message (server_error_message now))
  end.

(** Its [finally]. *)
Definition cleanup : M unit :=
  s <- get ;;
  monitor (track_connection_ended (connection_id (connection s))) ;;
  forget_connection ;;
  swallow
    (s' <- get ;;
     if is_connected (client_state (websocket s')) then close 1000 "" else ret tt).

(** [handle_connection]: the state holds the transport as it arrives and
    the connection object the handler makes for it. *)
Definition handle_connection : M unit :=
  s <- get ;;
  if _max_connections (server s) <=? Z.of_nat (List.length (_connections (server s))) then
    close 1013 "Server overloaded"
  else
    accept ;;
    try_finally (try_except serve on_error) cleanup.

(** The state in which [handle_connection] starts: a fresh connection
    object for the transport. *)
Definition arrival (v : MCPServer) (id : string) (frames : list incoming) (now : Z) : state :=
  {| server := v;
     connection := {| connection_id := id; negotiated_version := None;
                      connected_at := now; message_count := 0;
                      client_info := PDict []; is_authenticated := false |};
     websocket := {| client_state := CONNECTING; inbox := frames; sent := [];
                     closed := None |};
     clock := now;
     dispatched := [];
     monitor_log := [] |}.

(** [MCPServer(registry, negotiator, monitor, max_connections)]. *)
Definition new_server (registry : ProtocolVersionRegistry)
  (negotiator : MCPProtocolNegotiator) (max_connections : Z) : MCPServer :=
  {| _registry := registry; _negotiator := negotiator;
     _max_connections := max_connections; _connections := [];
     _total_connections := 0; _total_messages := 0 |}.

End WithRuntime.

End Server.

(** ** The server's report and its broadcast ([server.py]) *)

Module ServerAdmin.
Import Py.
Import Registry.
Import Negotiator.
Import Server.

(** A value of the server's [_connections]: a connection object and the
    transport it holds. *)
Record live : Type := {
  conn : MCPConnection;
  socket : WebSocket
}.

(** [conn.negotiated_version or "unknown"]. *)
Definition version_label (c : MCPConnection) : string :=
  match chosen (negotiated_version c) with
  | Some version => version
  | None => "unknown"
  end.

(** The loop of [get_server_stats] over [self._connections.values()]. *)
Definition connections_by_version (connections : list live) : dict Z :=
  fold_left (fun by_version l =>
               let version := version_label (conn l) in
               dict_set by_version version (dict_get_default by_version version 0 + 1))
            connections [].

Section Stats.
Variable A : Monitor.Arith.

(** What [get_server_stats] returns, section by section. *)
Record server_stats : Type := {
  st_name : string;
  st_version : string;
  st_uptime_seconds : Monitor.num A;
  st_started_at : Z;
  st_active : Z;
  st_total_since_start : Z;
  st_max_allowed : Z;
  st_by_version : dict Z;
  st_total_processed : Z;
  st_average_per_connection : Monitor.num A;
  st_supported_versions : list string;
  st_compatibility_matrix : dict (dict bool)
}.

(** [get_server_stats]: [connections] are the values of
    [self._connections], [start_time] is [self._start_time] and [now]
    the clock's reading. *)
Definition get_server_stats (v : MCPServer) (start_time now : Z) (connections : list live)
  : server_stats :=
  {| st_name := "MCP RAG Server";
     st_version := "1.0.0";
     st_uptime_seconds := Monitor.total_seconds A (now - start_time);
     st_started_at := start_time;
     st_active := Z.of_nat (List.length connections);
     st_total_since_start := _total_connections v;
     st_max_allowed := _max_connections v;
     st_by_version := connections_by_version connections;
     st_total_processed := _total_messages v;
     st_average_per_connection :=
       Monitor.true_div A (_total_messages v) (Z.max 1 (_total_connections v));
     st_supported_versions := get_supported_versions (Server._registry v);
     st_compatibility_matrix := get_compatibility_matrix (_negotiator v) |}.

End Stats.

Arguments st_name {A} _.
Arguments st_version {A} _.
Arguments st_uptime_seconds {A} _.
Arguments st_started_at {A} _.
Arguments st_active {A} _.
Arguments st_total_since_start {A} _.
Arguments st_max_allowed {A} _.
Arguments st_by_version {A} _.
Arguments st_total_processed {A} _.
Arguments st_average_per_connection {A} _.
Arguments st_supported_versions {A} _.
Arguments st_compatibility_matrix {A} _.

(** The state a coroutine of the server runs in when it works on the
    live connection [l]. *)
Definition on_connection (v : MCPServer) (now : Z) (l : live) : state :=
  {| server := v; connection := conn l; websocket := socket l; clock := now;
     dispatched := []; monitor_log := [] |}.

(** Whether [broadcast_message] passes a connection over: there is a
    version filter, it is not the empty string, and the connection's
    version is another. *)
Definition filtered_out (version_filter : option string) (c : MCPConnection) : bool :=
  match chosen version_filter with
  | Some version =>
      match negotiated_version c with
      | Some negotiated => negb (String.eqb negotiated version)
      | None => true
      end
  | None => false
  end.

(** One turn of the loop of [broadcast_message]: the count so far and
    the connections as the turn leaves them. *)
Definition broadcast_to (v : MCPServer) (now : Z) (message : dict pyval)
  (version_filter : option string) (acc : Z * list live) (l : live) : Z * list live :=
  let (sent_count, seen) := acc in
  if filtered_out version_filter (conn l) then (sent_count, seen ++ [l])
  else
    match send_message message (on_connection v now l) with
    | (Ok _, s) => (sent_count + 1, seen ++ [{| conn := conn l; socket := websocket s |}])
    | (Raise _, s) => (sent_count, seen ++ [{| conn := conn l; socket := websocket s |}])
    end.

(** [broadcast_message]: the number it returns, and the connections
    afterwards. *)
Definition broadcast_message (v : MCPServer) (now : Z) (connections : list live)
  (message : dict pyval) (version_filter : option string) : Z * list live :=
  fold_left (broadcast_to v now message version_filter) connections (0, []).

End ServerAdmin.

(** ** The adapter for protocol 1.0 ([adapters/mcp_v1.py]) *)

Module MCPv1.
Import Py.
Import Registry.

Definition _supported_tools : list string :=
  [ "rag_search"; "rag_summarize"; "document_upload";
    "document_list"; "document_get"; "document_delete" ].

Definition get_supported_version : string := "1.0".

Definition get_supported_tools : list string := _supported_tools.

(** The double [0.7], as the rational it is. *)
Definition seven_tenths : Q := 3152519739159347 # 4503599627370496.

(** The table of [get_tool_schema]. *)
Definition schemas : dict pyval :=
  [ ("rag_search", PDict
       [ ("type", PStr "object");
         ("properties", PDict
            [ ("query", PDict
                 [ ("type", PStr "string");
                   ("description", PStr "Search query text") ]);
              ("limit", PDict
                 [ ("type", PStr "integer");
                   ("minimum", PInt 1);
                   ("maximum", PInt 100);
                   ("default", PInt 10);
                   ("description", PStr "Maximum number of results to return") ]);
              ("threshold", PDict
                 [ ("type", PStr "number");
                   ("minimum", PFloat 0);
                   ("maximum", PFloat 1);
                   ("default", PFloat seven_tenths);
                   ("description", PStr "Minimum similarity score threshold") ]);
              ("search_type", PDict
                 [ ("type", PStr "string");
                   ("enum", PList [PStr "semantic"; PStr "keyword"; PStr "hybrid"]);
                   ("default", PStr "semantic");
                   ("description", PStr "Type of search to perform") ]);
              ("filters", PDict
                 [ ("type", PStr "object");
                   ("description", PStr "Additional filters to apply") ]) ]);
         ("required", PList [PStr "query"]) ]);
    ("rag_summarize", PDict
       [ ("type", PStr "object");
         ("properties", PDict
            [ ("document_ids", PDict
                 [ ("type", PStr "array");
                   ("items", PDict [("type", PStr "string")]);
                   ("description", PStr "List of document IDs to summarize") ]);
              ("summary_type", PDict
                 [ ("type", PStr "string");
                   ("enum", PList [PStr "extractive"; PStr "abstractive"; PStr "key_points"]);
                   ("default", PStr "extractive");
                   ("description", PStr "Type of summary to generate") ]);
              ("max_length", PDict
                 [ ("type", PStr "integer");
                   ("minimum", PInt 50);
                   ("maximum", PInt 2000);
                   ("default", PInt 500);
                   ("description", PStr "Maximum length of summary in characters") ]);
              ("language", PDict
                 [ ("type", PStr "string");
                   ("default", PStr "en");
                   ("description", PStr "Language for the summary") ]) ]);
         ("required", PList [PStr "document_ids"]) ]);
    ("document_upload", PDict
       [ ("type", PStr "object");
         ("properties", PDict
            [ ("filename", PDict
                 [ ("type", PStr "string");
                   ("description", PStr "Original filename") ]);
              ("content", PDict
                 [ ("type", PStr "string");
                   ("description", PStr "Base64 encoded file content") ]);
              ("metadata", PDict
                 [ ("type", PStr "object");
                   ("description", PStr "Optional metadata for the document") ]) ]);
         ("required", PList [PStr "filename"; PStr "content"]) ]);
    ("document_list", PDict
       [ ("type", PStr "object");
         ("properties", PDict
            [ ("limit", PDict
                 [ ("type", PStr "integer");
                   ("minimum", PInt 1);
                   ("maximum", PInt 100);
                   ("default", PInt 50);
                   ("description", PStr "Maximum number of documents to return") ]);
              ("offset", PDict
                 [ ("type", PStr "integer");
                   ("minimum", PInt 0);
                   ("default", PInt 0);
                   ("description", PStr "Number of documents to skip") ]);
              ("filters", PDict
                 [ ("type", PStr "object");
                   ("description", PStr "Filters to apply to document list") ]) ]) ]);
    ("document_get", PDict
       [ ("type", PStr "object");
         ("properties", PDict
            [ ("document_id", PDict
                 [ ("type", PStr "string");
                   ("description", PStr "ID of the document to retrieve") ]) ]);
         ("required", PList [PStr "document_id"]) ]);
    ("document_delete", PDict
       [ ("type", PStr "object");
         ("properties", PDict
            [ ("document_id", PDict
                 [ ("type", PStr "string");
                   ("description", PStr "ID of the document to delete") ]) ]);
         ("required", PList [PStr "document_id"]) ]) ].

Definition get_tool_schema (tool_name : string) : option pyval :=
  dict_get schemas tool_name.

(** [if k not in parameters: raise ValueError(...)]. *)
Definition require (k : string) (parameters : pyval) : result unit :=
  bind (py_in k parameters) (fun present =>
  if present then Ok tt
  else Raise (ValueError ("Missing required parameter: " ++ k)%string)).

Section Adapter.

(** The two services behind the adapter are not modelled.  What a
    handler does once the parameters have passed its checks (it builds
    the request, awaits the service and converts the answer) is
    [served tool parameters]: it returns or raises.  [isoformat] is
    [datetime.isoformat]; [caught_at] is the clock's reading in the
    [except] clause of [handle_tool_call] and [took] the time of the
    whole call. *)
Variable served : string -> pyval -> result pyval.
Variable isoformat : Z -> string.
Variable caught_at : string -> pyval -> Z.
Variable took : string -> pyval -> Z.

Definition _handle_rag_search (parameters : pyval) : result pyval :=
  bind (require "query" parameters) (fun _ =>
  served "rag_search" parameters).

Definition _handle_rag_summarize (parameters : pyval) : result pyval :=
  bind (require "document_ids" parameters) (fun _ =>
  bind (py_getitem parameters "document_ids") (fun document_ids =>
  match document_ids with
  | PList _ => served "rag_summarize" parameters
  | _ => Raise (ValueError "document_ids must be a list")
  end)).

Definition _handle_document_upload (parameters : pyval) : result pyval :=
  bind (require "filename" parameters) (fun _ =>
  bind (require "content" parameters) (fun _ =>
  served "document_upload" parameters)).

Definition _handle_document_list (parameters : pyval) : result pyval :=
  served "document_list" parameters.

Definition _handle_document_get (parameters : pyval) : result pyval :=
  bind (require "document_id" parameters) (fun _ =>
  served "document_get" parameters).

Definition _handle_document_delete (parameters : pyval) : result pyval :=
  bind (require "document_id" parameters) (fun _ =>
  served "document_delete" parameters).

(** [handle_tool_call]: whatever a handler raises comes back as a
    result with an ["error"] entry. *)
Definition handle_tool_call (tool_name : string) (parameters : pyval) : pyval :=
  match
    if String.eqb tool_name "rag_search" then _handle_rag_search parameters
    else if String.eqb tool_name "rag_summarize" then _handle_rag_summarize parameters
    else if String.eqb tool_name "document_upload" then _handle_document_upload parameters
    else if String.eqb tool_name "document_list" then _handle_document_list parameters
    else if String.eqb tool_name "document_get" then _handle_document_get parameters
    else if String.eqb tool_name "document_delete" then _handle_document_delete parameters
    else Raise (ValueError ("Unsupported tool: " ++ tool_name)%string)
  with
  | Ok result => result
  | Raise e =>
      PDict [ ("error", PDict
                 [ ("code", PStr "TOOL_EXECUTION_ERROR");
                   ("message", PStr (exn_str e));
                   ("tool", PStr tool_name);
                   ("timestamp", PStr (isoformat (caught_at tool_name parameters))) ]) ]
  end.

(** The adapter as the registry and the server see it. *)
Definition MCPv1Adapter : ProtocolAdapter :=
  {| Registry.get_supported_version := get_supported_version;
     Registry.get_supported_tools := get_supported_tools;
     Registry.handle_tool_call := fun tool_name parameters =>
       {| outcome := Ok (handle_tool_call tool_name parameters);
          elapsed := took tool_name parameters |} |}.

End Adapter.

End MCPv1.

(** ** The specification's reading of two registry operations *)

Module RegistrySpec.
Import Py.
Import Registry.
Import Negotiator.

(** The version order: [a] is at most [b] when the key of [b] is not
    below the key of [a]. *)
Definition version_le (a b : string) : bool :=
  match tuple_lt (_version_sort_key b) (_version_sort_key a) with
  | Ok false => true
  | _ => false
  end.

(** The maximum of a list of versions in that order. *)
Definition max_version (l : list string) : option string :=
  fold_left (fun best v =>
               match best with
               | None => Some v
               | Some b => if version_le b v then Some v else Some b
               end) l None.

(** [find_best] as the specification words it: the maximum of the exact
    intersection; otherwise the maximum registered version compatible
    with some client version; otherwise none. *)
Definition find_best_spec (r : ProtocolVersionRegistry) (client_versions : list string)
  : option string :=
  match filter (fun v => dict_contains (_adapters r) v) client_versions with
  | _ :: _ as exact => max_version exact
  | [] =>
      max_version
        (filter (fun v => existsb (fun c => are_compatible r v c) client_versions)
                (get_supported_versions r))
  end.

(** The edge [(version1, version2)] as the operations last recorded it:
    [None] when no [set_compatibility] named it. *)
Fixpoint last_edge (ops : list registry_op) (version1 version2 : string) : option bool :=
  match ops with
  | [] => None
  | op :: rest =>
      match last_edge rest version1 version2 with
      | Some b => Some b
      | None =>
          match op with
          | SetCompatibility v1 v2 b =>
              if String.eqb v1 version1 && String.eqb v2 version2 then Some b else None
          | Register _ => None
          end
      end
  end.

End RegistrySpec.

(** ** The scenario of the specification, and a runtime to run it in *)

Module Scenario.
Import Py.
Import Registry.
Import Negotiator.
Import Server.

Definition v1_tools : list string :=
  [ "rag_search"; "rag_summarize"; "document_upload";
    "document_list"; "document_get"; "document_delete" ].

(** An adapter for version 1.0 in the manner of [MCPv1Adapter]: errors
    come back as a result with an ["error"] entry. *)
Definition adapter_1_0 : ProtocolAdapter :=
  {| get_supported_version := "1.0";
     get_supported_tools := v1_tools;
     handle_tool_call := fun tool parameters =>
       if String.eqb tool "rag_search" then
         match parameters with
         | PDict d =>
             if dict_contains d "query" then
               {| outcome := Ok (PDict [("results", PList []); ("total_results", PInt 0)]);
                  elapsed := 1500 |}
             else
               {| outcome := Ok (PDict [("error", PDict
                                   [("code", PStr "TOOL_EXECUTION_ERROR");
                                    ("message", PStr "Missing required parameter: query")])]);
                  elapsed := 200 |}
         | _ => {| outcome := Raise (TypeError "argument is not iterable"); elapsed := 100 |}
         end
       else {| outcome := Ok (PDict []); elapsed := 1000 |} |}.

(** An adapter for version 1.1 whose [document_get] hands back the
    stored document as it is, timestamps included. *)
Definition adapter_1_1 : ProtocolAdapter :=
  {| get_supported_version := "1.1";
     get_supported_tools := v1_tools;
     handle_tool_call := fun tool parameters =>
       if String.eqb tool "document_get" then
         {| outcome := Ok (PDict [("document", PDict
                             [("id", PStr "doc-1");
                              ("created_at", PObject "datetime.datetime(2024, 1, 1, 0, 0)")])]);
            elapsed := 800 |}
       else handle_tool_call adapter_1_0 tool parameters |}.

(** Another adapter that also calls itself version 1.0. *)
Definition adapter_1_0_bis : ProtocolAdapter :=
  {| get_supported_version := "1.0";
     get_supported_tools := ["rag_search"];
     handle_tool_call := handle_tool_call adapter_1_0 |}.

(** Adapters 1.0 and 1.1 and the four compatibility edges. *)
Definition registry : ProtocolVersionRegistry :=
  run_ops [ Register adapter_1_0; Register adapter_1_1;
            SetCompatibility "1.0" "1.0" true; SetCompatibility "1.0" "0.9" true;
            SetCompatibility "1.1" "1.1" true; SetCompatibility "1.1" "1.0" true ].

Definition negotiator : MCPProtocolNegotiator := new_negotiator registry.

(** The registry of the repository's negotiator tests: one adapter, 1.0. *)
Definition test_registry : ProtocolVersionRegistry :=
  run_ops [ Register adapter_1_0_bis;
            SetCompatibility "1.0" "1.0" true; SetCompatibility "1.0" "0.9" true ].

(** A registry with a numeric and a pre-release version. *)
Definition adapter_named (version : string) : ProtocolAdapter :=
  {| get_supported_version := version;
     get_supported_tools := v1_tools;
     handle_tool_call := handle_tool_call adapter_1_0 |}.

Definition prerelease_registry : ProtocolVersionRegistry :=
  run_ops [ Register (adapter_named "0.9"); Register (adapter_named "1.0-beta") ].

Definition supports (versions : list string) : pyval :=
  PDict [("supportedVersions", PList (map PStr versions))].

Definition mcp_server : MCPServer := new_server registry negotiator 100.

(** Three successful calls of [rag_search] that took [x] seconds each. *)
Definition three_calls (A : Monitor.Arith) (x : Monitor.num A)
  : list (Monitor.monitor_event A) :=
  [ Monitor.ToolCall A "c-1" "rag_search" x true None;
    Monitor.ToolCall A "c-1" "rag_search" x true None;
    Monitor.ToolCall A "c-1" "rag_search" x true None ].

(** A runtime for the scenarios: JSON text for the values met there, a
    decoder that knows the frames of the scenarios by their text, the
    clock's reading for a timestamp, and sets listed in the order their
    elements went in. *)
Definition quote : string := String (ascii_of_nat 34) EmptyString.

Definition decimal (z : Z) : string := NilZero.string_of_int (Z.to_int z).

Fixpoint demo_dumps (v : pyval) : string :=
  match v with
  | PNone => "null"
  | PBool true => "true"
  | PBool false => "false"
  | PInt z => decimal z
  | PFloat q => (decimal (Qnum q) ++ "/" ++ decimal (Zpos (Qden q)))%string
  | PStr s => (quote ++ s ++ quote)%string
  | PList l => ("[" ++ String.concat ", " (map demo_dumps l) ++ "]")%string
  | PDict d =>
      ("{" ++ String.concat ", "
                (map (fun kv => quote ++ fst kv ++ quote ++ ": " ++ demo_dumps (snd kv)) d)
           ++ "}")%string
  | PObject r => r
  end.

Definition hello_message : pyval :=
  PDict [ ("type", PStr "hello");
          ("capabilities", PDict [("protocolVersion", PStr "1.1"); ("features", PList [])]);
          ("client_info", PDict [("name", PStr "demo")]) ].

Definition ready_message : pyval := PDict [("type", PStr "ready")].

Definition search_call : pyval :=
  PDict [ ("type", PStr "tool_call"); ("tool", PStr "rag_search");
          ("parameters", PDict [("query", PStr "rocq")]); ("id", PInt 1) ].

Definition document_call : pyval :=
  PDict [ ("type", PStr "tool_call"); ("tool", PStr "document_get");
          ("parameters", PDict [("document_id", PStr "doc-1")]); ("id", PInt 7) ].

Definition ping_message : pyval := PDict [("type", PStr "ping"); ("id", PStr "p-1")].

Definition known_messages : list pyval :=
  [hello_message; ready_message; search_call; document_call; ping_message; PList [PInt 1]].

Definition demo_loads (raw : string) : option pyval :=
  find (fun v => String.eqb (demo_dumps v) raw) known_messages.

Definition demo_error_text (raw : string) : string :=
  "Expecting value: line 1 column 1 (char 0)".

Definition demo_isoformat (microseconds : Z) : string :=
  ("epoch+" ++ decimal microseconds ++ "us")%string.

Definition demo_set_order (l : list string) : list string := l.

(** A connection of [mcp_server] that has reached the Ready state with
    version 1.1, and what the client sends next. *)
Definition ready_state (frames : list incoming) : state :=
  {| server := {| Server._registry := registry; Server._negotiator := negotiator;
                  _max_connections := 100; _connections := ["c-1"];
                  _total_connections := 1; _total_messages := 0 |};
     connection := {| connection_id := "c-1"; negotiated_version := Some "1.1";
                      connected_at := 0; message_count := 2;
                      client_info := PDict [("name", PStr "demo")];
                      is_authenticated := false |};
     websocket := {| client_state := CONNECTED; inbox := frames; sent := [];
                     closed := None |};
     clock := 5000;
     dispatched := [];
     monitor_log := [] |}.

(** A decoder that knows one frame: the hello of a client that speaks
    version 0.5 only. *)
Definition old_client_loads (raw : string) : option pyval :=
  if String.eqb raw "hello from 0.5" then
    Some (PDict [ ("type", PStr "hello");
                  ("capabilities", PDict [("supportedVersions", PList [PStr "0.5"])]) ])
  else None.

End Scenario.

(* ------------------------------------------------------------------ *)
(** ** Orders and invariants the properties are stated with *)

Module Orders.

(** The lexicographic order of tuples of ints, as a three-way
    comparison: a proper prefix is smaller. *)
Fixpoint lex (a b : list Z) : comparison :=
  match a, b with
  | [], [] => Eq
  | [], _ :: _ => Lt
  | _ :: _, [] => Gt
  | x :: a', y :: b' =>
      match x ?= y with
      | Eq => lex a' b'
      | c => c
      end
  end.

End Orders.

Module RegistryInv.
Import Py.
Import Registry.

(** The adapters are kept under distinct versions, each under the
    version it names. *)
Definition well_keyed (r : ProtocolVersionRegistry) : Prop :=
  NoDup (dict_keys (_adapters r))
  /\ forall v a, In (v, a) (_adapters r) -> get_supported_version a = v.

End RegistryInv.

Module MonitorInv.
Import Py.
Import Monitor.

(** The sum of one counter over the values of a dict. *)
Definition total_of {V : Type} (f : V -> Z) (d : dict V) : Z :=
  int_sum (map (fun kv => f (snd kv)) d).

(** What the monitor's connection counters keep to: a tracked
    connection's version has protocol metrics that count at least one
    connection; no version has more active connections than connections
    in total, or fewer than none; the active connections of all versions
    are at least the connections tracked; the tracked connections have
    distinct ids; the history holds at most 10000 entries. *)
Definition counted (A : Arith) (m : MCPMonitor A) : Prop :=
  (forall id c, In (id, c) (_connections m) ->
     exists pm,
       dict_get (_protocol_metrics m) (ConnectionMetrics.protocol_version c) = Some pm
       /\ 1 <= ProtocolMetrics.total_connections pm)
  /\ (forall v pm, In (v, pm) (_protocol_metrics m) ->
        0 <= ProtocolMetrics.active_connections pm <= ProtocolMetrics.total_connections pm)
  /\ Z.of_nat (List.length (_connections m))
     <= total_of ProtocolMetrics.active_connections (_protocol_metrics m)
  /\ NoDup (dict_keys (_connections m))
  /\ Z.of_nat (List.length (_connection_history m)) <= 10000.

End MonitorInv.

Module ServerInv.
Import Py.
Import Server.

(** What a coroutine of the server that works on one connection leaves
    as it was, and what it only adds to.  The state [s'] is reached from
    [s]: the server's registry, negotiator, limit, connection table and
    connection count are the same, and so are the connection's id and
    the close recorded on the transport, whose state is the same or has
    become [DISCONNECTED]; the messages sent, the
    monitor's log and the tool calls dispatched have only grown, the
    frames to come are a rest of what they were and the message count
    has not gone down.  A coroutine that does not receive ([receives] is
    false) leaves the frames, the transport's state and the connection's
    message count alone; one that dispatches no tool call ([dispatches]
    is false) leaves the dispatched calls and the clock alone. *)
Record step (receives dispatches : bool) (s s' : state) : Prop := {
  step_registry : Server._registry (server s') = Server._registry (server s);
  step_negotiator : _negotiator (server s') = _negotiator (server s);
  step_limit : _max_connections (server s') = _max_connections (server s);
  step_connections : _connections (server s') = _connections (server s);
  step_total : _total_connections (server s') = _total_connections (server s);
  step_messages : _total_messages (server s) <= _total_messages (server s');
  step_id : connection_id (connection s') = connection_id (connection s);
  step_closed : closed (websocket s') = closed (websocket s);
  step_state :
    client_state (websocket s') = client_state (websocket s)
    \/ client_state (websocket s') = DISCONNECTED;
  step_sent : exists more, sent (websocket s') = sent (websocket s) ++ more;
  step_log : exists more, monitor_log s' = monitor_log s ++ more;
  step_inbox : exists taken, inbox (websocket s) = taken ++ inbox (websocket s');
  step_dispatched : exists more, dispatched s' = dispatched s ++ more;
  step_count : message_count (connection s) <= message_count (connection s');
  step_quiet :
    receives = false ->
    inbox (websocket s') = inbox (websocket s)
    /\ client_state (websocket s') = client_state (websocket s)
    /\ message_count (connection s') = message_count (connection s);
  step_idle :
    dispatches = false -> dispatched s' = dispatched s /\ clock s' = clock s
}.

(** A coroutine all of whose runs are such steps. *)
Definition runs {X : Type} (receives dispatches : bool) (m : M X) : Prop :=
  forall s, step receives dispatches s (snd (m s)).

End ServerInv.

Module ReportInv.
Import Py.
Import Server.

(** What a call may tell the monitor in the course of the connection
    [id]: the calls that name a connection name this one, and a tool
    call is reported under the id "unknown". *)
Definition about (id : string) (call : monitor_call) : Prop :=
  match call with
  | track_connection_started c _ _ => c = id
  | track_connection_ended c => c = id
  | track_message c _ _ _ => c = id
  | track_tool_call c _ _ _ _ => c = "unknown"
  | track_negotiation_failure _ _ => True
  end.

(** From [s] to [s'] the connection has kept its id and the monitor has
    only been told such things. *)
Definition reports (s s' : state) : Prop :=
  connection_id (connection s') = connection_id (connection s)
  /\ exists more,
       monitor_log s' = monitor_log s ++ more
       /\ Forall (about (connection_id (connection s))) more.

(** A coroutine all of whose runs are such. *)
Definition reporting {X : Type} (m : M X) : Prop :=
  forall s, reports s (snd (m s)).

End ReportInv.

Module AttributionInv.
Import Py.
Import Monitor.

(** The monitor has no connection under the id [anon], has recorded no
    tool call, error or response time for a connection, and no error
    in the history. *)
Definition blank (A : Arith) (anon : string) (m : MCPMonitor A) : Prop :=
  (forall id c, In (id, c) (_connections m) ->
     id <> anon
     /\ ConnectionMetrics.tool_calls c = []
     /\ ConnectionMetrics.errors c = 0
     /\ ConnectionMetrics.avg_response_time c = zero A)
  /\ (forall entry, In entry (_connection_history m) -> h_errors A entry = 0).

(** The events in which every tool call is reported under [anon] and no
    connection is. *)
Definition unattributed (A : Arith) (anon : string) (e : monitor_event A) : Prop :=
  match e with
  | ToolCall _ c _ _ _ _ => c = anon
  | ConnectionStarted _ _ _ c _ _ => c <> anon
  | _ => True
  end.

End AttributionInv.

(* ================================================================== *)
(** * Part II: properties *)
(* ================================================================== *)

(** ** Dictionaries *)

Module PyFacts.
Import Py.

Lemma dict_get_set_same {V : Type} (d : dict V) (k : string) (v : V) :
  dict_get (dict_set d k v) k = Some v.
Proof.
  induction d as [|[k' v'] d IH]; simpl.
  - now rewrite String.eqb_refl.
  - destruct (String.eqb k' k) eqn:E; simpl; rewrite E; auto.
Qed.

Lemma dict_get_set_other {V : Type} (d : dict V) (k k' : string) (v : V) :
  k <> k' -> dict_get (dict_set d k v) k' = dict_get d k'.
Proof.
  intros Hne. induction d as [|[k0 v0] d IH]; simpl.
  - destruct (String.eqb_spec k k'); congruence.
  - destruct (String.eqb_spec k0 k) as [->|Hk]; simpl.
    + destruct (String.eqb_spec k k'); congruence.
    + destruct (String.eqb_spec k0 k'); auto.
Qed.

Lemma dict_keys_set_present {V : Type} (d : dict V) (k : string) (v : V) :
  dict_contains d k = true -> dict_keys (dict_set d k v) = dict_keys d.
Proof.
  unfold dict_contains, dict_keys.
  induction d as [|[k0 v0] d IH]; simpl; [discriminate|].
  destruct (String.eqb k0 k) eqn:E; simpl; intros H; [reflexivity|].
  now rewrite IH.
Qed.

Lemma dict_keys_set_absent {V : Type} (d : dict V) (k : string) (v : V) :
  dict_contains d k = false -> dict_keys (dict_set d k v) = dict_keys d ++ [k].
Proof.
  unfold dict_contains, dict_keys.
  induction d as [|[k0 v0] d IH]; simpl; [reflexivity|].
  destruct (String.eqb k0 k) eqn:E; simpl; intros H; [discriminate|].
  now rewrite IH.
Qed.

(** [find] returns the first element that passes the test. *)
Lemma find_first {X : Type} (f : X -> bool) (l : list X) (x : X) :
  find f l = Some x <->
  exists pre post, l = pre ++ x :: post /\ f x = true /\ forallb (fun y => negb (f y)) pre = true.
Proof.
  split.
  - induction l as [|y l IH]; simpl; [discriminate|].
    destruct (f y) eqn:E.
    + intros [= ->]. exists [], l. auto.
    + intros H. destruct (IH H) as (pre & post & -> & Hx & Hpre).
      exists (y :: pre), post. simpl. rewrite E. auto.
  - intros (pre & post & -> & Hx & Hpre).
    induction pre as [|y pre IH]; simpl in *.
    + now rewrite Hx.
    + apply andb_true_iff in Hpre as [Hy Hpre].
      apply negb_true_iff in Hy. rewrite Hy. auto.
Qed.

Lemma find_none_iff {X : Type} (f : X -> bool) (l : list X) :
  find f l = None <-> forallb (fun y => negb (f y)) l = true.
Proof.
  induction l as [|y l IH]; simpl; [tauto|].
  destruct (f y); simpl; [split; discriminate | exact IH].
Qed.

End PyFacts.

(** ** The registry *)

Module RegistryFacts.
Import Py.
Import Registry.
Import RegistrySpec.
Import PyFacts.

Lemma are_compatible_register (r : ProtocolVersionRegistry) (a : ProtocolAdapter)
  (v1 v2 : string) :
  are_compatible (register_adapter r a) v1 v2 = are_compatible r v1 v2.
Proof. reflexivity. Qed.

Lemma are_compatible_set (r : ProtocolVersionRegistry) (a b : string) (c : bool)
  (v1 v2 : string) :
  are_compatible (set_compatibility r a b c) v1 v2 =
  if String.eqb a v1 && String.eqb b v2 then c else are_compatible r v1 v2.
Proof.
  unfold are_compatible, set_compatibility, dict_get_default; simpl.
  destruct (String.eqb_spec a v1) as [->|Ha]; simpl.
  - rewrite dict_get_set_same.
    destruct (String.eqb_spec b v2) as [->|Hb].
    + now rewrite dict_get_set_same.
    + now rewrite dict_get_set_other.
  - now rewrite dict_get_set_other.
Qed.

Lemma are_compatible_fold (ops : list registry_op) (r : ProtocolVersionRegistry)
  (v1 v2 : string) :
  are_compatible (fold_left apply_op ops r) v1 v2 =
  match last_edge ops v1 v2 with
  | Some b => b
  | None => are_compatible r v1 v2
  end.
Proof.
  revert r. induction ops as [|op ops IH]; intros r; simpl; [reflexivity|].
  rewrite IH. destruct (last_edge ops v1 v2); [reflexivity|].
  destruct op as [a|a b c]; simpl.
  - apply are_compatible_register.
  - rewrite are_compatible_set. now destruct (String.eqb a v1 && String.eqb b v2).
Qed.

(** C6, as the code has it.  After any sequence of [register_adapter] and
    [set_compatibility] calls, [are_compatible v1 v2] is the value the
    last [set_compatibility v1 v2] recorded, and false when there was
    none: registering an adapter records no edge, so a registered [v] is
    compatible with itself exactly when [set_compatibility v v True] was
    the last call for that pair. *)
Theorem are_compatible_is_last_edge :
  forall (ops : list registry_op) (v1 v2 : string),
    are_compatible (run_ops ops) v1 v2 =
      match last_edge ops v1 v2 with Some b => b | None => false end
    /\ (forall a, are_compatible (register_adapter (run_ops ops) a) v1 v2
                  = are_compatible (run_ops ops) v1 v2)
    /\ (are_compatible (run_ops ops) v1 v1 = true <-> last_edge ops v1 v1 = Some true).
Proof.
  intros ops v1 v2. unfold run_ops.
  repeat split.
  - now rewrite are_compatible_fold.
  - rewrite are_compatible_fold.
    destruct (last_edge ops v1 v1) as [[|]|]; intros H; try discriminate H; reflexivity.
  - intros H. rewrite are_compatible_fold, H. reflexivity.
Qed.

(** C6 fails as stated: with only the adapter for 1.0 registered, 1.0 is
    a registered version and [are_compatible "1.0" "1.0"] is false. *)
Lemma registered_version_not_reflexive :
  get_adapter (run_ops [Register Scenario.adapter_1_0]) "1.0" = Some Scenario.adapter_1_0
  /\ are_compatible (run_ops [Register Scenario.adapter_1_0]) "1.0" "1.0" = false.
Proof. split; reflexivity. Qed.

(** C5, as the code has it.  [register_adapter] never fails and never
    looks at what is registered: the registry maps the adapter's version
    to the adapter just given (replacing one registered before), every
    other version is mapped as before, a version already registered
    keeps its place in [get_supported_versions] and a new one goes last,
    and the compatibility matrix is untouched. *)
Theorem register_adapter_overwrites :
  forall (r : ProtocolVersionRegistry) (a : ProtocolAdapter),
    get_adapter (register_adapter r a) (get_supported_version a) = Some a
    /\ (forall v, v <> get_supported_version a ->
                  get_adapter (register_adapter r a) v = get_adapter r v)
    /\ get_supported_versions (register_adapter r a) =
         (if dict_contains (_adapters r) (get_supported_version a)
          then get_supported_versions r
          else get_supported_versions r ++ [get_supported_version a])
    /\ _compatibility_matrix (register_adapter r a) = _compatibility_matrix r.
Proof.
  intros r a. unfold get_adapter, register_adapter, get_supported_versions; simpl.
  repeat split.
  - apply dict_get_set_same.
  - intros v Hv. apply dict_get_set_other. congruence.
  - destruct (dict_contains (_adapters r) (get_supported_version a)) eqn:E.
    + now apply dict_keys_set_present.
    + now apply dict_keys_set_absent.
Qed.

(** C5 fails as stated: registering a second adapter for version 1.0
    succeeds and replaces the first. *)
Lemma duplicate_version_replaces_adapter :
  get_adapter Scenario.registry "1.0" = Some Scenario.adapter_1_0
  /\ get_supported_version Scenario.adapter_1_0_bis = "1.0"
  /\ get_adapter (register_adapter Scenario.registry Scenario.adapter_1_0_bis) "1.0"
     = Some Scenario.adapter_1_0_bis
  /\ get_adapter (register_adapter Scenario.registry Scenario.adapter_1_0_bis) "1.0"
     <> get_adapter Scenario.registry "1.0".
Proof.
  repeat split.
  intros H. apply (f_equal (option_map get_supported_tools)) in H.
  vm_compute in H. discriminate H.
Qed.

Lemma first_compatible_some (r : ProtocolVersionRegistry) (cl : list string) (v : string) :
  first_compatible r cl = Some v ->
  exists cpre c cpost spre spost,
    cl = cpre ++ c :: cpost
    /\ get_supported_versions r = spre ++ v :: spost
    /\ are_compatible r v c = true
    /\ (forall s, In s spre -> are_compatible r s c = false)
    /\ (forall c' s, In c' cpre -> In s (get_supported_versions r) ->
                     are_compatible r s c' = false).
Proof.
  induction cl as [|c cl IH]; simpl; [discriminate|].
  destruct (find (fun s => are_compatible r s c) (get_supported_versions r)) eqn:E.
  - intros [= ->]. apply find_first in E as (spre & spost & Hs & Hv & Hpre).
    exists [], c, cl, spre, spost. repeat split; auto.
    + intros s Hin. rewrite forallb_forall in Hpre.
      apply negb_true_iff. now apply Hpre.
    + intros c' s [].
  - intros H. destruct (IH H) as (cpre & c0 & cpost & spre & spost & -> & Hs & Hv & Hpre & Hc).
    exists (c :: cpre), c0, cpost, spre, spost. repeat split; auto.
    intros c' s [<-|Hin] Hs'; [|now apply Hc].
    apply find_none_iff in E. rewrite forallb_forall in E.
    apply negb_true_iff. now apply E.
Qed.

Lemma first_compatible_none (r : ProtocolVersionRegistry) (cl : list string) :
  first_compatible r cl = None <->
  (forall c s, In c cl -> In s (get_supported_versions r) -> are_compatible r s c = false).
Proof.
  induction cl as [|c cl IH]; simpl.
  - split; [intros _ c s []|reflexivity].
  - destruct (find (fun s => are_compatible r s c) (get_supported_versions r)) eqn:E.
    + split; [discriminate|]. intros H.
      apply find_some in E as [Hin Hc]. rewrite (H c s) in Hc; auto. discriminate.
    + rewrite IH. apply find_none_iff in E. rewrite forallb_forall in E.
      split.
      * intros H c' s [<-|Hin] Hs; [|now apply H].
        apply negb_true_iff. now apply E.
      * intros H c' s Hin Hs. apply H; auto.
Qed.

(** C3, as the code has it.  [find_best_version] returns the first
    client version, in the order the client listed them, that is
    registered; when none is, it takes the first client version (in the
    client's order) that some registered version is compatible with and
    returns the first such registered version in registration order;
    and it returns none exactly when no client version is registered and
    no registered version is compatible with any client version. *)
Theorem find_best_version_first_match :
  forall (r : ProtocolVersionRegistry) (client_versions : list string),
    (forall v, find_best_version r client_versions = Some v ->
       (exists pre post,
           client_versions = pre ++ v :: post
           /\ get_adapter r v <> None
           /\ (forall x, In x pre -> get_adapter r x = None))
       \/ ((forall x, In x client_versions -> get_adapter r x = None)
           /\ exists cpre c cpost spre spost,
               client_versions = cpre ++ c :: cpost
               /\ get_supported_versions r = spre ++ v :: spost
               /\ are_compatible r v c = true
               /\ (forall s, In s spre -> are_compatible r s c = false)
               /\ (forall c' s, In c' cpre -> In s (get_supported_versions r) ->
                                are_compatible r s c' = false)))
    /\ (find_best_version r client_versions = None <->
          (forall x, In x client_versions -> get_adapter r x = None)
          /\ (forall c s, In c client_versions -> In s (get_supported_versions r) ->
                          are_compatible r s c = false)).
Proof.
  intros r cl. unfold find_best_version, get_adapter.
  assert (Hnot : forall l, forallb (fun y => negb (dict_contains (_adapters r) y)) l = true ->
                           forall x, In x l -> dict_get (_adapters r) x = None).
  { intros l H x Hin. rewrite forallb_forall in H. specialize (H x Hin).
    apply negb_true_iff in H. unfold dict_contains in H.
    now destruct (dict_get (_adapters r) x). }
  destruct (find (fun v => dict_contains (_adapters r) v) cl) eqn:E.
  - split.
    + intros v [= <-]. left.
      apply find_first in E as (pre & post & -> & Hv & Hpre).
      exists pre, post. split; [reflexivity|]. split; [|now apply Hnot].
      unfold dict_contains in Hv. now destruct (dict_get (_adapters r) s).
    + split; [discriminate|]. intros [H _].
      apply find_some in E as [Hin Hc]. unfold dict_contains in Hc.
      rewrite (H s Hin) in Hc. discriminate.
  - apply find_none_iff in E. split.
    + intros v H. right. split; [now apply Hnot|].
      now apply first_compatible_some.
    + rewrite first_compatible_none.
      split; [intros H; split; [now apply Hnot|exact H]|tauto].
Qed.

(** C3 fails as stated: with 1.0 and 1.1 registered and a client that
    lists 1.0 before 1.1, the code answers 1.0, where the maximum of the
    intersection in version order is 1.1. *)
Lemma find_best_version_not_maximum :
  find_best_version Scenario.registry ["1.0"; "1.1"] = Some "1.0"
  /\ find_best_spec Scenario.registry ["1.0"; "1.1"] = Some "1.1".
Proof. split; reflexivity. Qed.

End RegistryFacts.

(** ** Sorting, and the order of sort keys *)

Module SortFacts.
Import Py.

Section Sorting.
Context {A K : Type}.
Variable key : A -> K.
Variable lt : K -> K -> result bool.
Variable dom : A -> Prop.
Hypothesis comparable :
  forall x y, dom x -> dom y -> exists b, lt (key x) (key y) = Ok b.
Hypothesis lt_trans :
  forall x y z, lt (key x) (key y) = Ok true -> lt (key y) (key z) = Ok true ->
                lt (key x) (key z) = Ok true.
Hypothesis lt_irrefl : forall x, lt (key x) (key x) = Ok false.

Lemma not_below (x y : A) :
  dom x -> dom y -> lt (key x) (key y) <> Ok true -> lt (key x) (key y) = Ok false.
Proof.
  intros Hx Hy H. destruct (comparable x y Hx Hy) as [[|] E]; congruence.
Qed.

Lemma insert_sorted_ok (x : A) (s : list A) :
  dom x -> Forall dom s -> ascending key lt s ->
  exists s', insert_sorted key lt x s = Ok s' /\ Permutation (x :: s) s' /\ ascending key lt s'.
Proof.
  intros Hx. induction s as [|y s IH]; intros Hs Hasc.
  - exists [x]. repeat split; auto. repeat constructor.
  - inversion Hs as [|? ? Hy Hs']; subst. inversion Hasc as [|? ? Hasc' Hall]; subst.
    simpl. destruct (comparable x y Hx Hy) as [[|] E]; rewrite E; simpl.
    + exists (x :: y :: s). repeat split; auto.
      constructor; [exact Hasc|]. constructor.
      * apply not_below; auto. intros H.
        pose proof (lt_trans _ _ _ E H) as F. rewrite lt_irrefl in F. discriminate.
      * rewrite Forall_forall in *. intros z Hz. apply not_below; auto.
        intros H. pose proof (lt_trans _ _ _ H E) as F. rewrite (Hall z Hz) in F. discriminate.
    + destruct (IH Hs' Hasc') as (s' & -> & Hperm & Hasc''). simpl.
      exists (y :: s'). repeat split.
      * rewrite perm_swap. now constructor.
      * constructor; [exact Hasc''|].
        rewrite Forall_forall in *. intros z Hz.
        apply Permutation_sym in Hperm. apply (Permutation_in _ Hperm) in Hz.
        destruct Hz as [<-|Hz]; auto.
Qed.

Lemma sort_ascending_ok (l done : list A) :
  Forall dom l -> Forall dom done -> ascending key lt done ->
  exists r, sort_ascending key lt l done = Ok r /\ Permutation (l ++ done) r /\ ascending key lt r.
Proof.
  revert done. induction l as [|x l IH]; intros done Hl Hd Hasc; simpl.
  - exists done. auto.
  - inversion Hl as [|? ? Hx Hl']; subst.
    destruct (insert_sorted_ok x done Hx Hd Hasc) as (s' & -> & Hperm & Hasc'). simpl.
    assert (Hd' : Forall dom s').
    { rewrite Forall_forall in *. intros z Hz.
      apply Permutation_sym in Hperm. apply (Permutation_in _ Hperm) in Hz.
      destruct Hz as [<-|Hz]; auto. }
    destruct (IH s' Hl' Hd' Hasc') as (r & -> & Hperm' & Hr).
    exists r. repeat split; auto.
    rewrite <- Hperm'. rewrite <- Hperm. apply Permutation_middle.
Qed.

Lemma ascending_last (s : list A) (m : A) :
  ascending key lt (s ++ [m]) -> forall x, In x (s ++ [m]) -> lt (key m) (key x) = Ok false.
Proof.
  induction s as [|a s IH]; simpl; intros Hasc x Hx.
  - destruct Hx as [<-|[]]. apply lt_irrefl.
  - inversion Hasc as [|? ? Hasc' Hall]; subst.
    destruct Hx as [<-|Hx]; [|now apply IH].
    rewrite Forall_forall in Hall. apply Hall. apply in_or_app. right. now left.
Qed.

(** [sorted(l, key=key, reverse=True)[0]] is an element of [l] that no
    element of [l] is above. *)
Lemma sorted_reverse_head (l : list A) :
  l <> [] -> Forall dom l ->
  exists v rest,
    py_sorted key lt true l = Ok (v :: rest)
    /\ In v l
    /\ forall x, In x l -> lt (key v) (key x) = Ok false.
Proof.
  intros Hne Hl. unfold py_sorted.
  assert (Hrev : Forall dom (rev l)).
  { rewrite Forall_forall in *. intros z Hz. apply Hl. now apply in_rev. }
  destruct (sort_ascending_ok (rev l) [] Hrev (Forall_nil _)) as (r & -> & Hperm & Hasc).
  { constructor. }
  simpl. rewrite app_nil_r in Hperm.
  destruct (rev r) as [|v rest] eqn:E.
  - exfalso. apply (f_equal (@rev A)) in E. rewrite rev_involutive in E. subst r.
    simpl in Hperm. apply Permutation_sym, Permutation_nil in Hperm.
    apply (f_equal (@rev A)) in Hperm. rewrite rev_involutive in Hperm. now subst l.
  - exists v, rest. split; [reflexivity|].
    assert (Er : r = rev rest ++ [v]).
    { apply (f_equal (@rev A)) in E. now rewrite rev_involutive in E. }
    subst r.
    assert (Hin : forall x, In x l <-> In x (rev rest ++ [v])).
    { intros x. rewrite (in_rev l). split; apply Permutation_in; auto.
      now apply Permutation_sym. }
    split.
    + apply Hin. apply in_or_app. right. now left.
    + intros x Hx. apply (ascending_last _ _ Hasc). now apply Hin.
Qed.

End Sorting.

End SortFacts.

Module TupleFacts.
Import Py.

Lemma ascii_compare_trans (a b c : ascii) :
  Ascii.compare a b = Lt -> Ascii.compare b c = Lt -> Ascii.compare a c = Lt.
Proof.
  unfold Ascii.compare. rewrite !N.compare_lt_iff. apply N.lt_trans.
Qed.

Lemma string_compare_trans (a b c : string) :
  String.compare a b = Lt -> String.compare b c = Lt -> String.compare a c = Lt.
Proof.
  revert b c. induction a as [|x a IH]; intros [|y b] [|z c]; simpl; try easy.
  destruct (Ascii.compare x y) eqn:Exy; try discriminate;
    destruct (Ascii.compare y z) eqn:Eyz; try discriminate; intros H1 H2.
  - apply Ascii.compare_eq_iff in Exy, Eyz. subst.
    replace (Ascii.compare z z) with Eq
      by (symmetry; unfold Ascii.compare; apply N.compare_refl).
    eauto.
  - apply Ascii.compare_eq_iff in Exy. subst. now rewrite Eyz.
  - apply Ascii.compare_eq_iff in Eyz. subst. now rewrite Exy.
  - now rewrite (ascii_compare_trans _ _ _ Exy Eyz).
Qed.

Lemma string_compare_refl (a : string) : String.compare a a = Eq.
Proof.
  induction a as [|x a IH]; simpl; [reflexivity|].
  replace (Ascii.compare x x) with Eq
    by (symmetry; unfold Ascii.compare; apply N.compare_refl).
  exact IH.
Qed.

Lemma item_eqb_eq (x y : item) : item_eqb x y = true <-> x = y.
Proof.
  destruct x, y; simpl; split; try discriminate; intros H.
  - apply Z.eqb_eq in H. now subst.
  - injection H as ->. apply Z.eqb_refl.
  - apply String.eqb_eq in H. now subst.
  - injection H as ->. apply String.eqb_refl.
Qed.

Lemma item_lt_not_eq (x y : item) : item_lt x y = Ok true -> item_eqb x y = false.
Proof.
  destruct x, y; simpl; try discriminate; intros [= H].
  - apply Z.ltb_lt in H. apply Z.eqb_neq. lia.
  - apply String.eqb_neq. intros ->. unfold String.ltb in H.
    now rewrite string_compare_refl in H.
Qed.

Lemma item_lt_trans (x y z : item) :
  item_lt x y = Ok true -> item_lt y z = Ok true -> item_lt x z = Ok true.
Proof.
  destruct x, y, z; simpl; try discriminate; intros [= H1] [= H2]; f_equal.
  - apply Z.ltb_lt in H1, H2. apply Z.ltb_lt. lia.
  - unfold String.ltb in *.
    destruct (String.compare s s0) eqn:E1; try discriminate.
    destruct (String.compare s0 s1) eqn:E2; try discriminate.
    now rewrite (string_compare_trans _ _ _ E1 E2).
Qed.

Lemma tuple_lt_irrefl (a : list item) : tuple_lt a a = Ok false.
Proof.
  induction a as [|x a IH]; simpl; [reflexivity|].
  now rewrite (proj2 (item_eqb_eq x x) eq_refl).
Qed.

Lemma tuple_lt_trans (a b c : list item) :
  tuple_lt a b = Ok true -> tuple_lt b c = Ok true -> tuple_lt a c = Ok true.
Proof.
  revert b c. induction a as [|x a IH]; intros [|y b] [|z c]; simpl; try easy.
  destruct (item_eqb x y) eqn:Exy; destruct (item_eqb y z) eqn:Eyz; intros H1 H2.
  - apply item_eqb_eq in Exy, Eyz. subst.
    rewrite (proj2 (item_eqb_eq z z) eq_refl). eauto.
  - apply item_eqb_eq in Exy. subst. now rewrite Eyz.
  - apply item_eqb_eq in Eyz. subst. now rewrite Exy.
  - pose proof (item_lt_trans _ _ _ H1 H2) as H3.
    now rewrite (item_lt_not_eq _ _ H3).
Qed.

End TupleFacts.

(** ** The negotiator *)

Module NegotiatorFacts.
Import Py.
Import Registry.
Import Negotiator.
Import PyFacts.

(** C1, evaluated.  With adapters 1.0 and 1.1 registered, a client that
    supports only 2.0 is not refused: no version matches and none is
    compatible, but the fallback takes the oldest registered version,
    1.0, because the key of 2.0 is not below the key of 1.0.  The same
    happens on the registry and the capabilities of the repository's
    [test_no_compatible_version], which expects a [ValueError]. *)
Theorem negotiate_newer_client_falls_back :
  forall (set_order : list string -> list string) (py_str : pyval -> string),
    negotiate_protocol set_order py_str Scenario.negotiator (Scenario.supports ["2.0"])
      = Ok "1.0"
    /\ negotiate_protocol set_order py_str (new_negotiator Scenario.test_registry)
         (PDict [ ("supportedVersions", PList [PStr "2.0"]);
                  ("features", PList [PStr "rag_search"]) ])
       = Ok "1.0".
Proof. intros set_order py_str. split; reflexivity. Qed.

Lemma negotiate_prerelease_unfolds (set_order : list string -> list string)
  (py_str : pyval -> string) :
  negotiate_protocol set_order py_str (new_negotiator Scenario.prerelease_registry)
    (Scenario.supports ["0.9"; "1.0-beta"])
  = _select_latest_version (set_order ["0.9"; "1.0-beta"]).
Proof. reflexivity. Qed.

(** C4, evaluated where it fails.  With versions 0.9 and 1.0-beta
    registered and a client that supports both, the exact matches are
    both versions; their sort keys are [(0, 9)] and [(0, "1.0-beta")],
    and comparing them raises [TypeError], in whichever order the set of
    matches is listed: [negotiate_protocol] returns no version. *)
Theorem negotiate_mixed_keys_raises :
  forall (set_order : list string -> list string) (py_str : pyval -> string),
    Permutation (set_order ["0.9"; "1.0-beta"]) ["0.9"; "1.0-beta"] ->
    exists msg,
      negotiate_protocol set_order py_str (new_negotiator Scenario.prerelease_registry)
        (Scenario.supports ["0.9"; "1.0-beta"])
      = Raise (TypeError msg).
Proof.
  intros set_order py_str Hperm.
  rewrite negotiate_prerelease_unfolds.
  apply Permutation_sym, Permutation_length_2_inv in Hperm.
  destruct Hperm as [-> | ->]; eexists; reflexivity.
Qed.

Lemma negotiate_mixed_keys_raises_witness :
  Permutation ((fun l : list string => l) ["0.9"; "1.0-beta"]) ["0.9"; "1.0-beta"]
  /\ exists msg,
      negotiate_protocol (fun l => l) (fun _ => "") (new_negotiator Scenario.prerelease_registry)
        (Scenario.supports ["0.9"; "1.0-beta"])
      = Raise (TypeError msg).
Proof.
  split; [apply Permutation_refl|].
  apply (negotiate_mixed_keys_raises (fun l => l) (fun _ => "")).
  apply Permutation_refl.
Defined.

End NegotiatorFacts.

(** ** Exact matches *)

Module ExactMatchFacts.
Import Py.
Import Registry.
Import Negotiator.
Import SortFacts.
Import TupleFacts.

Lemma str_in_iff (x : string) (l : list string) : str_in x l = true <-> In x l.
Proof.
  unfold str_in. rewrite existsb_exists. split.
  - intros (y & Hy & E). apply String.eqb_eq in E. now subst.
  - intros H. exists x. split; [exact H|apply String.eqb_refl].
Qed.

Lemma select_among_comparable :
  forall (set_order : list string -> list string) (py_str : pyval -> string)
         (n : MCPProtocolNegotiator) (capabilities client_versions : pyval)
         (client_features client_list : list pyval),
    (forall l, Permutation (set_order l) l) ->
    _extract_client_versions capabilities = Ok client_versions ->
    _extract_client_features capabilities = Ok client_features ->
    py_set_elements client_versions = Ok client_list ->
    (exists v, exact_match n client_list v) ->
    (forall x y, exact_match n client_list x -> exact_match n client_list y ->
                 exists b, tuple_lt (_version_sort_key x) (_version_sort_key y) = Ok b) ->
    exists v,
      negotiate_protocol set_order py_str n capabilities = Ok v
      /\ exact_match n client_list v
      /\ forall x, exact_match n client_list x ->
                   tuple_lt (_version_sort_key v) (_version_sort_key x) = Ok false.
Proof.
  intros set_order py_str n caps cv feats cl Hperm Hcv Hfeats Hcl [w Hw] Hcmp.
  unfold negotiate_protocol. rewrite Hcv, Hfeats. simpl. rewrite Hcl. simpl.
  set (E := nodup string_dec
              (filter (fun v => str_in v (get_supported_versions (_registry n))) (strs cl))).
  assert (HE : forall x, In x E <-> exact_match n cl x).
  { intros x. unfold E, exact_match. rewrite nodup_In, filter_In, str_in_iff. tauto. }
  assert (HS : forall x, In x (set_order E) <-> exact_match n cl x).
  { intros x. rewrite <- HE. split; apply Permutation_in; auto using Permutation_sym. }
  destruct (sorted_reverse_head _version_sort_key tuple_lt (exact_match n cl) Hcmp
              (fun x y z => tuple_lt_trans _ _ _) (fun x => tuple_lt_irrefl _)
              (set_order E)) as (v & rest & Hsort & Hv & Hmax).
  { intros Hnil. apply HS in Hw. rewrite Hnil in Hw. destruct Hw. }
  { apply Forall_forall. intros x. apply HS. }
  destruct E as [|e E'] eqn:EE.
  { apply HE in Hw. destruct Hw. }
  exists v. unfold _select_latest_version. rewrite Hsort. simpl.
  split; [reflexivity|]. split; [now apply HS|].
  intros x Hx. apply Hmax. now apply HS.
Qed.

(** When the keys of the exact matches compare with one another (as the
    keys of dotted-numeric versions do), [negotiate_protocol] returns an
    exact match that no exact match is above in version order. *)
Theorem exact_match_is_maximum :
  forall (set_order : list string -> list string) (py_str : pyval -> string)
         (n : MCPProtocolNegotiator) (capabilities client_versions : pyval)
         (client_features client_list : list pyval),
    (forall l, Permutation (set_order l) l) ->
    _extract_client_versions capabilities = Ok client_versions ->
    _extract_client_features capabilities = Ok client_features ->
    py_set_elements client_versions = Ok client_list ->
    (exists v, exact_match n client_list v) ->
    (forall x y, exact_match n client_list x -> exact_match n client_list y ->
                 exists b, tuple_lt (_version_sort_key x) (_version_sort_key y) = Ok b) ->
    exists v,
      negotiate_protocol set_order py_str n capabilities = Ok v
      /\ exact_match n client_list v
      /\ forall x, exact_match n client_list x ->
                   tuple_lt (_version_sort_key v) (_version_sort_key x) = Ok false.
Proof.
  intros set_order py_str n caps cv feats cl Hperm Hcv Hfeats Hcl Hex Hcmp.
  exact (select_among_comparable set_order py_str n caps cv feats cl
           Hperm Hcv Hfeats Hcl Hex Hcmp).
Qed.

Lemma int_tuples_compare (a b : list Z) :
  exists r, tuple_lt (map IInt a) (map IInt b) = Ok r.
Proof.
  revert b. induction a as [|x a IH]; intros [|y b]; simpl; eauto.
  destruct (x =? y); eauto.
Qed.

Lemma numeric_keys_compare (x y : string) :
  dotted_numeric x -> dotted_numeric y ->
  exists r, tuple_lt (_version_sort_key x) (_version_sort_key y) = Ok r.
Proof.
  unfold dotted_numeric, _version_sort_key. intros Hx Hy.
  destruct (ints_of (split "." x)); [|congruence].
  destruct (ints_of (split "." y)); [|congruence].
  apply int_tuples_compare.
Qed.

(** In particular, when every exact match is made of numbers and dots,
    [negotiate_protocol] returns the exact match with the greatest
    tuple of numbers. *)
Theorem numeric_exact_match_is_maximum :
  forall (set_order : list string -> list string) (py_str : pyval -> string)
         (n : MCPProtocolNegotiator) (capabilities client_versions : pyval)
         (client_features client_list : list pyval),
    (forall l, Permutation (set_order l) l) ->
    _extract_client_versions capabilities = Ok client_versions ->
    _extract_client_features capabilities = Ok client_features ->
    py_set_elements client_versions = Ok client_list ->
    (exists v, exact_match n client_list v) ->
    (forall x, exact_match n client_list x -> dotted_numeric x) ->
    exists v,
      negotiate_protocol set_order py_str n capabilities = Ok v
      /\ exact_match n client_list v
      /\ forall x, exact_match n client_list x ->
                   tuple_lt (_version_sort_key v) (_version_sort_key x) = Ok false.
Proof.
  intros set_order py_str n caps cv feats cl Hperm Hcv Hfeats Hcl Hex Hnum.
  apply (select_among_comparable set_order py_str n caps cv feats cl); auto.
  intros x y Hx Hy. apply numeric_keys_compare; auto.
Qed.

(** The scenario "newest first": a client that supports 1.0 and 1.1 is
    given 1.1. *)
Lemma numeric_exact_match_is_maximum_witness :
  negotiate_protocol (fun l => l) (fun _ => "") Scenario.negotiator
    (Scenario.supports ["1.0"; "1.1"]) = Ok "1.1"
  /\ exists v,
      negotiate_protocol (fun l => l) (fun _ => "") Scenario.negotiator
        (Scenario.supports ["1.0"; "1.1"]) = Ok v
      /\ exact_match Scenario.negotiator [PStr "1.0"; PStr "1.1"] v
      /\ forall x, exact_match Scenario.negotiator [PStr "1.0"; PStr "1.1"] x ->
                   tuple_lt (_version_sort_key v) (_version_sort_key x) = Ok false.
Proof.
  split; [reflexivity|].
  apply (numeric_exact_match_is_maximum (fun l => l) (fun _ => "") Scenario.negotiator
           (Scenario.supports ["1.0"; "1.1"]) (PList [PStr "1.0"; PStr "1.1"])
           [] [PStr "1.0"; PStr "1.1"]); try reflexivity.
  - exists "1.0". split; simpl; auto.
  - intros x [[<-|[<-|[]]] _]; discriminate.
Defined.

Lemma exact_match_is_maximum_witness :
  exists v,
    negotiate_protocol (fun l => rev l) (fun _ => "") Scenario.negotiator
      (PDict [("versions", PList [PStr "1.1"; PInt 3; PStr "1.0"; PStr "0.9"])]) = Ok v
    /\ exact_match Scenario.negotiator [PStr "1.1"; PInt 3; PStr "1.0"; PStr "0.9"] v
    /\ forall x, exact_match Scenario.negotiator [PStr "1.1"; PInt 3; PStr "1.0"; PStr "0.9"] x ->
                 tuple_lt (_version_sort_key v) (_version_sort_key x) = Ok false.
Proof.
  apply (exact_match_is_maximum (fun l => rev l) (fun _ => "") Scenario.negotiator
           (PDict [("versions", PList [PStr "1.1"; PInt 3; PStr "1.0"; PStr "0.9"])])
           (PList [PStr "1.1"; PInt 3; PStr "1.0"; PStr "0.9"])
           [] [PStr "1.1"; PInt 3; PStr "1.0"; PStr "0.9"]); try reflexivity.
  - intros l. apply Permutation_sym, Permutation_rev.
  - exists "1.0". split; simpl; auto.
  - intros x y [[<-|[<-|[<-|[]]]] _] [[<-|[<-|[<-|[]]]] _]; eexists; reflexivity.
Defined.

End ExactMatchFacts.

(** ** The server *)

Module ServerFacts.
Import Py.
Import Registry.
Import Negotiator.
Import Server.

Section WithRuntime.
Variable json_loads : string -> option pyval.
Variable json_error_text : string -> string.
Variable py_str : pyval -> string.
Variable isoformat : Z -> string.
Variable set_order : list string -> list string.

(** C10.  [receive_message] adds exactly one to the connection's
    [message_count] for a frame it takes from the transport, whether the
    frame parses or not: for a frame that is not JSON the [ValueError]
    is raised with the counter already incremented (and the frame
    consumed), so the counter counts frames received, not messages
    parsed. *)
Theorem receive_message_counts_every_frame :
  forall (s : state) (raw : string) (rest : list incoming),
    client_state (websocket s) = CONNECTED ->
    inbox (websocket s) = Frame raw :: rest ->
    message_count (connection (snd (receive_message json_loads json_error_text s)))
      = message_count (connection s) + 1
    /\ inbox (websocket (snd (receive_message json_loads json_error_text s))) = rest
    /\ (json_loads raw = None ->
        fst (receive_message json_loads json_error_text s)
        = Raise (ValueError ("Invalid JSON message: " ++ json_error_text raw)%string))
    /\ (forall message, json_loads raw = Some (PDict message) ->
        fst (receive_message json_loads json_error_text s) = Ok message).
Proof.
  intros [srv c [cs ib st cl] clk d ml] raw rest Hc Hi. simpl in Hc, Hi. subst cs ib.
  unfold receive_message, mbind, get, receive_text, modify. simpl.
  destruct (json_loads raw) as [[]|] eqn:E; simpl; repeat split; try congruence; discriminate.
Qed.

(** C2, as the code has it.  When the first frame of an accepted
    connection is a JSON object whose type is not "hello", the handshake
    raises, the server replies with one error message whose code is
    "SERVER_ERROR" (the code has no "PROTOCOL_VIOLATION"), closes the
    connection, dispatches no tool call, and tells the monitor only that
    the connection ended; the frames behind the first are not read. *)
Theorem first_message_not_hello :
  forall (v : MCPServer) (id raw : string) (rest : list incoming) (now : Z)
         (message : dict pyval),
    Z.of_nat (List.length (_connections v)) < _max_connections v ->
    json_loads raw = Some (PDict message) ->
    is_str (msg_get message "type") "hello" = false ->
    let final := handle_connection json_loads json_error_text py_str isoformat set_order
                   (arrival v id (Frame raw :: rest) now) in
    fst final = Ok tt
    /\ sent (websocket (snd final)) = [server_error_message (PStr (isoformat now))]
    /\ closed (websocket (snd final)) = Some (1000, "")
    /\ client_state (websocket (snd final)) = DISCONNECTED
    /\ dispatched (snd final) = []
    /\ monitor_log (snd final) = [track_connection_ended id]
    /\ inbox (websocket (snd final)) = rest
    /\ message_count (connection (snd final)) = 1.
Proof.
  intros v id raw rest now message Hroom Hloads Htype final. subst final.
  apply Z.leb_gt in Hroom.
  unfold handle_connection, mbind, get, arrival. simpl. rewrite Hroom.
  unfold try_finally, try_except, serve, mbind, register_connection, modify, accept. simpl.
  unfold _perform_handshake, mbind, receive_message, mbind, get, receive_text, modify. simpl.
  rewrite Hloads. simpl. rewrite Htype. simpl.
  repeat split.
Qed.


Lemma handle_tool_call_spec (adapter : ProtocolAdapter) (message : dict pyval) (s : state) :
  exists r s',
    _handle_tool_call py_str isoformat adapter message s = (r, s')
    /\ websocket s' = websocket s
    /\ connection s' = connection s
    /\ server s' = server s
    /\ forall reply, r = Ok reply ->
          dict_get reply "id" = Some (msg_get message "id") /\ reply <> [].
Proof.
  unfold _handle_tool_call.
  destruct (truthy (msg_get message "tool")); simpl.
  2:{ eexists _, _. split; [reflexivity|]. repeat split; discriminate. }
  destruct (msg_get message "tool") eqn:Et;
    try (eexists _, _; split; [reflexivity|]; repeat split; discriminate).
  destruct (str_in s0 (get_supported_tools adapter)).
  2:{ eexists _, _. split; [reflexivity|]. repeat split; discriminate. }
  unfold mbind, dispatch, timestamp, modify, get, monitor, ret. simpl.
  destruct (outcome (handle_tool_call adapter s0 _));
    (eexists _, _; split; [reflexivity|]; repeat split;
     injection H as <-; try reflexivity; discriminate).
Qed.

Lemma handle_message_spec (adapter : ProtocolAdapter) (message : dict pyval) (s : state) :
  exists reply s',
    _handle_message py_str isoformat adapter message s = (Ok reply, s')
    /\ websocket s' = websocket s
    /\ connection s' = connection s
    /\ server s' = server s
    /\ dict_get reply "id" = Some (msg_get message "id")
    /\ reply <> [].
Proof.
  unfold _handle_message, try_except.
  destruct (is_str (msg_get message "type") "tool_call").
  { destruct (handle_tool_call_spec adapter message s) as (r & s' & -> & Hw & Hc & Hs & Hr).
    destruct r as [reply|e].
    - exists reply, s'. destruct (Hr reply eq_refl). repeat split; auto.
    - eexists _, _. unfold mbind, timestamp, get, ret. simpl.
      split; [reflexivity|]. repeat split; auto. discriminate. }
  destruct (is_str (msg_get message "type") "ping").
  { eexists _, _. split; [reflexivity|]. repeat split. discriminate. }
  destruct (is_str (msg_get message "type") "get_capabilities").
  { eexists _, _. split; [reflexivity|]. repeat split. discriminate. }
  destruct (is_str (msg_get message "type") "get_protocol_info").
  { unfold _handle_get_protocol_info, mbind, get. simpl.
    destruct (chosen (negotiated_version (connection s))).
    - destruct (get_protocol_info (_negotiator (server s)) s0);
        (eexists _, _; split; [reflexivity|]; repeat split; discriminate).
    - eexists _, _. split; [reflexivity|]. repeat split. discriminate. }
  eexists _, _. split; [reflexivity|]. repeat split. discriminate.
Qed.


Lemma msg_get_serialisable (message : dict pyval) (k : string) :
  json_serialisable (PDict message) = true -> json_serialisable (msg_get message k) = true.
Proof.
  unfold msg_get, dict_get_default. simpl.
  induction message as [|[k' v] d IH]; simpl; [reflexivity|].
  intros H. apply andb_true_iff in H as [Hv Hd].
  destruct (String.eqb k' k); auto.
Qed.

Lemma send_message_connected (m : dict pyval) (s : state) :
  client_state (websocket s) = CONNECTED ->
  send_message m s =
  if json_serialisable (PDict m)
  then (Ok tt, with_sent m s)
  else (Raise (TypeError "Object is not JSON serializable"), s).
Proof.
  intros H. unfold send_message, mbind, get, send_text_json, modify, raise, with_sent.
  cbv beta iota. rewrite H. cbv beta iota delta [is_connected].
  destruct (json_serialisable (PDict m)); rewrite ?H; reflexivity.
Qed.

Lemma receive_message_frame (s : state) (raw : string) (rest : list incoming)
  (message : dict pyval) :
  client_state (websocket s) = CONNECTED ->
  inbox (websocket s) = Frame raw :: rest ->
  json_loads raw = Some (PDict message) ->
  exists s1,
    receive_message json_loads json_error_text s = (Ok message, s1)
    /\ client_state (websocket s1) = CONNECTED
    /\ sent (websocket s1) = sent (websocket s).
Proof.
  destruct s as [srv c [cs ib st cl] clk d ml]. simpl. intros -> -> Hloads.
  unfold receive_message, mbind, get, receive_text, modify. simpl.
  rewrite Hloads. eexists. split; [reflexivity|]. split; reflexivity.
Qed.

Lemma process_message_spec (adapter : ProtocolAdapter) (message : dict pyval) (s : state) :
  client_state (websocket s) = CONNECTED ->
  exists reply s3,
    dict_get reply "id" = Some (msg_get message "id")
    /\ websocket s3 = websocket s
    /\ process_message py_str isoformat adapter message s =
       if json_serialisable (PDict reply)
       then (Ok tt, with_sent reply s3)
       else (Raise (TypeError "Object is not JSON serializable"), s3).
Proof.
  intros Hc.
  unfold process_message, count_message, monitor, mbind, modify, get.
  cbv beta iota.
  match goal with
  | |- context [_handle_message _ _ ?a ?m ?s2] =>
      destruct (handle_message_spec a m s2) as (reply & s3 & Hh & Hw & _ & _ & Hid & Hne);
      rewrite Hh
  end.
  simpl in Hw.
  assert (Hconn : client_state (websocket s3) = CONNECTED) by now rewrite Hw.
  exists reply, s3. split; [exact Hid|]. split; [exact Hw|].
  destruct reply as [|kv reply']; [congruence|].
  apply (send_message_connected _ _ Hconn).
Qed.

(** One turn of the message loop on a frame that parses to a JSON
    object of a connected client sends exactly one message.  The
    handlers run once, on that message, after it has been counted and
    the monitor told; their reply (pong, tool_response, tool_error,
    capabilities, protocol_info, or an error with code
    UNKNOWN_MESSAGE_TYPE or HANDLER_ERROR) carries the request's id
    under "id" and is what is sent when it can be encoded; when it
    cannot, the loop's own error message is sent, with no "id" and the
    request's id under "request_id". *)
Theorem turn_reply_carries_request_id :
  forall (adapter : ProtocolAdapter) (previous : option (dict pyval)) (s : state)
         (raw : string) (rest : list incoming) (message : dict pyval),
    client_state (websocket s) = CONNECTED ->
    inbox (websocket s) = Frame raw :: rest ->
    json_loads raw = Some (PDict message) ->
    json_serialisable (PDict message) = true ->
    let handling :=
      {| server :=
           {| Server._registry := Server._registry (server s);
              Server._negotiator := Server._negotiator (server s);
              _max_connections := _max_connections (server s);
              _connections := _connections (server s);
              _total_connections := _total_connections (server s);
              _total_messages := _total_messages (server s) + 1 |};
         connection :=
           {| connection_id := connection_id (connection s);
              negotiated_version := negotiated_version (connection s);
              connected_at := connected_at (connection s);
              message_count := message_count (connection s) + 1;
              client_info := client_info (connection s);
              is_authenticated := is_authenticated (connection s) |};
         websocket :=
           {| client_state := CONNECTED; inbox := rest;
              sent := sent (websocket s); closed := closed (websocket s) |};
         clock := clock s;
         dispatched := dispatched s;
         monitor_log :=
           monitor_log s
           ++ [track_message (connection_id (connection s))
                             (dict_get_default message "type" (PStr "unknown"))
                             (Z.of_nat (String.length (py_str (PDict message))))
                             false] |} in
    let after := snd (message_loop_turn json_loads json_error_text py_str isoformat
                        adapter previous s) in
    exists reply,
      fst (_handle_message py_str isoformat adapter message handling) = Ok reply
      /\ dict_get reply "id" = Some (msg_get message "id")
      /\ (json_serialisable (PDict reply) = true ->
          sent (websocket after) = sent (websocket s) ++ [reply])
      /\ (json_serialisable (PDict reply) = false ->
          exists err,
            sent (websocket after) = sent (websocket s) ++ [err]
            /\ error_code err = Some (PStr "MESSAGE_PROCESSING_ERROR")
            /\ dict_get err "id" = None
            /\ dict_get err "request_id" = Some (msg_get message "id")).
Proof.
  intros adapter previous s raw rest message Hc Hi Hloads Hser handling after.
  destruct (handle_message_spec adapter message handling)
    as (reply & s3 & Hh & Hw & _ & _ & Hid & Hne).
  exists reply. split; [now rewrite Hh|]. split; [exact Hid|].
  assert (Hconn : client_state (websocket s3) = CONNECTED) by now rewrite Hw.
  assert (Hsent : sent (websocket s3) = sent (websocket s)) by now rewrite Hw.
  assert (Hturn : message_loop_turn json_loads json_error_text py_str isoformat
                    adapter previous s
                  = if json_serialisable (PDict reply)
                    then (Ok (Continue (Some message)), with_sent reply s3)
                    else message_processing_error isoformat
                           (TypeError "Object is not JSON serializable") (Some message) s3).
  { destruct (json_serialisable (PDict reply)) eqn:Eser;
      unfold message_loop_turn, receive_message, receive_text, mbind, get, modify, ret;
      destruct s as [srv c [cs ib st cl] clk d ml]; simpl in Hc, Hi; subst cs ib;
      cbn; rewrite Hloads; cbn;
      unfold process_message, count_message, monitor, mbind, get, modify; cbn;
      change (_handle_message py_str isoformat adapter message _)
        with (_handle_message py_str isoformat adapter message handling);
      rewrite Hh;
      (destruct reply as [|kv reply']; [congruence|]);
      rewrite (send_message_connected _ _ Hconn), Eser; reflexivity. }
  subst after. rewrite Hturn.
  destruct (json_serialisable (PDict reply)).
  - split; [|intros H; discriminate H]. intros _. simpl. now rewrite Hsent.
  - split; [intros H; discriminate H|]. intros _.
    unfold message_processing_error, try_except, timestamp, mbind, get, ret.
    cbv beta iota.
    rewrite (send_message_connected _ _ Hconn).
    match goal with
    | |- context [json_serialisable (PDict ?e)] =>
        assert (He : json_serialisable (PDict e) = true)
          by (simpl; now rewrite (msg_get_serialisable message "id" Hser));
        rewrite He; exists e
    end.
    simpl. rewrite Hsent. repeat split.
Qed.

End WithRuntime.

Import Scenario.

Lemma receive_message_counts_every_frame_witness :
  client_state (websocket (ready_state [Frame "not json"; Disconnect])) = CONNECTED
  /\ message_count (connection (ready_state [Frame "not json"; Disconnect])) = 2
  /\ message_count
       (connection (snd (receive_message demo_loads demo_error_text
                           (ready_state [Frame "not json"; Disconnect])))) = 3
  /\ fst (receive_message demo_loads demo_error_text
            (ready_state [Frame "not json"; Disconnect]))
     = Raise (ValueError "Invalid JSON message: Expecting value: line 1 column 1 (char 0)").
Proof.
  split; [reflexivity|]. split; [reflexivity|].
  destruct (receive_message_counts_every_frame demo_loads demo_error_text
              (ready_state [Frame "not json"; Disconnect]) "not json" [Disconnect]
              eq_refl eq_refl) as (Hcount & _ & Hbad & _).
  split; [exact Hcount|]. apply Hbad. reflexivity.
Defined.

Lemma first_message_not_hello_witness :
  Z.of_nat (List.length (_connections mcp_server)) < _max_connections mcp_server
  /\ demo_loads (demo_dumps search_call) = Some search_call
  /\ sent (websocket (snd (handle_connection demo_loads demo_error_text demo_dumps
                             demo_isoformat demo_set_order
                             (arrival mcp_server "c-1" [Frame (demo_dumps search_call)] 0))))
     = [server_error_message (PStr "epoch+0us")]
  /\ dispatched (snd (handle_connection demo_loads demo_error_text demo_dumps
                        demo_isoformat demo_set_order
                        (arrival mcp_server "c-1" [Frame (demo_dumps search_call)] 0)))
     = [].
Proof.
  split; [reflexivity|]. split; [reflexivity|].
  destruct (first_message_not_hello demo_loads demo_error_text demo_dumps demo_isoformat
              demo_set_order mcp_server "c-1" (demo_dumps search_call) [] 0
              [ ("type", PStr "tool_call"); ("tool", PStr "rag_search");
                ("parameters", PDict [("query", PStr "rocq")]); ("id", PInt 1) ])
    as (_ & Hsent & _ & _ & Hdisp & _); try reflexivity.
  split; [exact Hsent|exact Hdisp].
Defined.

(** C2 fails as stated: a first message of type "tool_call" is answered
    with the code "SERVER_ERROR", not "PROTOCOL_VIOLATION". *)
Lemma tool_call_first_gets_server_error :
  exists reply,
    sent (websocket (snd (handle_connection demo_loads demo_error_text demo_dumps
                            demo_isoformat demo_set_order
                            (arrival mcp_server "c-1" [Frame (demo_dumps search_call)] 0))))
    = [reply]
    /\ error_code reply = Some (PStr "SERVER_ERROR")
    /\ error_code reply <> Some (PStr "PROTOCOL_VIOLATION").
Proof.
  eexists. split; [reflexivity|]. split; [reflexivity|]. discriminate.
Qed.

(** C9, evaluated where it fails.  On a Ready connection a tool call
    with id 7 whose result [json.dumps] cannot encode makes the send of
    the tool_response raise inside [_message_loop]; the reply to that
    message is the loop's error message, which has no "id" field: the
    request's id is under "request_id". *)
Theorem loop_error_reply_has_no_id :
  msg_get [ ("type", PStr "tool_call"); ("tool", PStr "document_get");
            ("parameters", PDict [("document_id", PStr "doc-1")]); ("id", PInt 7) ] "id"
  = PInt 7
  /\ demo_loads (demo_dumps document_call) = Some document_call
  /\ exists reply,
      sent (websocket (snd (message_loop_turn demo_loads demo_error_text demo_dumps
                              demo_isoformat adapter_1_1 None
                              (ready_state [Frame (demo_dumps document_call)]))))
      = [reply]
      /\ error_code reply = Some (PStr "MESSAGE_PROCESSING_ERROR")
      /\ dict_get reply "id" = None
      /\ dict_get reply "request_id" = Some (PInt 7).
Proof.
  split; [reflexivity|]. split; [reflexivity|].
  eexists. repeat split.
Qed.

Lemma turn_reply_carries_request_id_witness :
  exists reply,
    dict_get reply "id" = Some (PStr "p-1")
    /\ sent (websocket (snd (message_loop_turn demo_loads demo_error_text demo_dumps
                               demo_isoformat adapter_1_1 None
                               (ready_state [Frame (demo_dumps ping_message)]))))
       = [reply].
Proof.
  destruct (turn_reply_carries_request_id demo_loads demo_error_text demo_dumps
              demo_isoformat adapter_1_1 None
              (ready_state [Frame (demo_dumps ping_message)])
              (demo_dumps ping_message) []
              [("type", PStr "ping"); ("id", PStr "p-1")]
              eq_refl eq_refl eq_refl eq_refl) as (reply & _ & Hid & Hok & Hbad).
  exists reply. split; [exact Hid|].
  destruct (json_serialisable (PDict reply)) eqn:E.
  - apply Hok. reflexivity.
  - exfalso. destruct (Hbad eq_refl) as (err & Hsent & Hcode & _).
    vm_compute in Hsent. injection Hsent as <-. vm_compute in Hcode. discriminate Hcode.
Defined.

End ServerFacts.

(** ** The monitor *)

Module HealthFacts.
Import Py.
Import Monitor.
Import MonitorSpec.

Lemma existsb_flat_map {X Y : Type} (p : Y -> bool) (f : X -> list Y) (l : list X) :
  existsb p (flat_map f l) = existsb (fun x => existsb p (f x)) l.
Proof.
  induction l as [|x l IH]; simpl; [reflexivity|].
  now rewrite existsb_app, IH.
Qed.

Lemma total_active_from (A : Arith) (protocols : dict (ProtocolMetrics.t A)) (a : Z) :
  fold_left Z.add (map (fun kv => ProtocolMetrics.active_connections (snd kv)) protocols) a
  = a + total_active A protocols.
Proof.
  revert a. induction protocols as [|[v pm] l IH]; intros a; simpl; [lia|].
  rewrite IH. lia.
Qed.

Lemma total_active_connections_spec (A : Arith) (m : MCPMonitor A) :
  total_active_connections A m = total_active A (_protocol_metrics m).
Proof. unfold total_active_connections. now rewrite total_active_from. Qed.

Section Health.
Variable A : Arith.
Variable timedelta_us : num A -> result Z.
Variable m : MCPMonitor A.

Lemma critical_iff :
  existsb (fun kv => existsb (is_critical A) (error_rate_issue A m kv)) (_tool_metrics m) = true
  <-> error_rate_exceeded A m.
Proof.
  rewrite existsb_exists. unfold error_rate_exceeded. split.
  - intros ([name t] & Hin & H). exists name, t. split; [exact Hin|].
    unfold error_rate_issue, true_div in H.
    destruct (0 <? ToolMetrics.total_calls t) eqn:E; [|discriminate].
    apply Z.ltb_lt in E. split; [exact E|].
    destruct (lt A _ _); [reflexivity|discriminate].
  - intros (name & t & Hin & Hpos & Hlt). exists (name, t). split; [exact Hin|].
    unfold error_rate_issue, true_div. apply Z.ltb_lt in Hpos. rewrite Hpos, Hlt. reflexivity.
Qed.

Lemma slow_iff :
  existsb (fun kv => existsb (is_warning A) (response_time_issue A m kv)) (_tool_metrics m) = true
  <-> exists name t,
        In (name, t) (_tool_metrics m)
        /\ lt A (max_response_time (_alert_thresholds m))
                (ToolMetrics.avg_execution_time t) = true.
Proof.
  rewrite existsb_exists. split.
  - intros ([name t] & Hin & H). exists name, t. split; [exact Hin|].
    unfold response_time_issue in H. destruct (lt A _ _); [reflexivity|discriminate].
  - intros (name & t & Hin & Hlt). exists (name, t). split; [exact Hin|].
    unfold response_time_issue. rewrite Hlt. reflexivity.
Qed.

Lemma no_critical_elsewhere (stale : list string) :
  existsb (is_critical A) (connection_issues A m (total_active_connections A m)) = false
  /\ existsb (fun kv => existsb (is_critical A) (response_time_issue A m kv)) (_tool_metrics m)
     = false
  /\ existsb (is_critical A) (stale_issues A stale) = false.
Proof.
  repeat split.
  - unfold connection_issues. now destruct (lt A _ _).
  - induction (_tool_metrics m) as [|[name t] l IH]; simpl; [reflexivity|].
    rewrite IH. unfold response_time_issue. now destruct (lt A _ _).
  - unfold stale_issues. now destruct stale.
Qed.

Lemma no_warning_elsewhere (stale : list string) :
  existsb (fun kv => existsb (is_warning A) (error_rate_issue A m kv)) (_tool_metrics m) = false
  /\ existsb (is_warning A) (stale_issues A stale) = false.
Proof.
  split.
  - induction (_tool_metrics m) as [|[name t] l IH]; simpl; [reflexivity|].
    rewrite IH. unfold error_rate_issue.
    destruct (0 <? _); [|reflexivity]. now destruct (lt A _ _).
  - unfold stale_issues. now destruct stale.
Qed.

Lemma connection_issue_type (i : issue A) (n : Z) :
  In i (connection_issues A m n) -> issue_type i = "high_connection_count".
Proof.
  unfold connection_issues. destruct (lt A _ _); simpl; [|tauto].
  intros [<-|[]]. reflexivity.
Qed.

Lemma error_rate_issue_type (i : issue A) (kv : string * ToolMetrics.t A) :
  In i (error_rate_issue A m kv) -> issue_type i = "high_error_rate".
Proof.
  unfold error_rate_issue. destruct kv as [n t].
  destruct (0 <? _); simpl; [|tauto].
  destruct (lt A _ _); simpl; [|tauto].
  intros [<-|[]]. reflexivity.
Qed.

Lemma response_time_issue_type (i : issue A) (kv : string * ToolMetrics.t A) :
  In i (response_time_issue A m kv) -> issue_type i = "slow_response".
Proof.
  unfold response_time_issue. destruct kv as [n t].
  destruct (lt A _ _); simpl; [|tauto].
  intros [<-|[]]. reflexivity.
Qed.

Lemma connection_warning :
  existsb (is_warning A) (connection_issues A m (total_active_connections A m))
  = lt A (max_connections (_alert_thresholds m))
         (of_int A (total_active A (_protocol_metrics m))).
Proof.
  unfold connection_issues. rewrite total_active_connections_spec.
  now destruct (lt A _ _).
Qed.

Lemma stale_cutoff_spec (now : Z) :
  stale_cutoff A timedelta_us m now = stale_before A timedelta_us m now.
Proof.
  unfold stale_cutoff, stale_before, bind, datetime_sub.
  now destruct (timedelta_us _).
Qed.

(** The report, when there is one. *)
Lemma health_returned (now : Z) (h : health A) :
  get_health_status A timedelta_us m now = Ok h ->
  exists cutoff,
    stale_before A timedelta_us m now = Ok cutoff
    /\ issues h
       = (connection_issues A m (total_active_connections A m)
          ++ flat_map (error_rate_issue A m) (_tool_metrics m)
          ++ flat_map (response_time_issue A m) (_tool_metrics m))
         ++ stale_issues A (stale_connection_ids A m cutoff)
    /\ active_connections h = total_active A (_protocol_metrics m)
    /\ status h =
       if existsb (fun kv => existsb (is_critical A) (error_rate_issue A m kv))
                  (_tool_metrics m)
       then "unhealthy"
       else if lt A (max_connections (_alert_thresholds m))
                    (of_int A (total_active A (_protocol_metrics m)))
               || existsb (fun kv => existsb (is_warning A) (response_time_issue A m kv))
                          (_tool_metrics m)
            then "degraded"
            else "healthy".
Proof.
  unfold get_health_status. rewrite stale_cutoff_spec.
  destruct (stale_before A timedelta_us m now) as [cutoff|e]; simpl; [|discriminate].
  intros [= <-]. exists cutoff. split; [reflexivity|]. simpl.
  split; [reflexivity|]. split; [apply total_active_connections_spec|].
  rewrite !existsb_app, !existsb_flat_map.
  destruct (no_critical_elsewhere (stale_connection_ids A m cutoff)) as (-> & -> & ->).
  destruct (no_warning_elsewhere (stale_connection_ids A m cutoff)) as (-> & ->).
  rewrite connection_warning. simpl. rewrite !orb_false_r. reflexivity.
Qed.

(** It raises what the cutoff raises, and only that. *)
Lemma health_raised (now : Z) (e : exn) :
  get_health_status A timedelta_us m now = Raise e
  <-> stale_before A timedelta_us m now = Raise e.
Proof.
  unfold get_health_status. rewrite stale_cutoff_spec.
  destruct (stale_before A timedelta_us m now) as [cutoff|e']; simpl.
  - split; discriminate.
  - split; intros [= ->]; reflexivity.
Qed.

End Health.

Lemma classify (c w : bool) (P Q : Prop) :
  (c = true <-> P) -> (w = true <-> Q) ->
  ((if c then "unhealthy" else if w then "degraded" else "healthy") = "unhealthy" <-> P)
  /\ ((if c then "unhealthy" else if w then "degraded" else "healthy") = "degraded"
        <-> ~ P /\ Q)
  /\ ((if c then "unhealthy" else if w then "degraded" else "healthy") = "healthy"
        <-> ~ P /\ ~ Q).
Proof.
  intros [Hc1 Hc2] [Hw1 Hw2].
  destruct c, w; repeat split; intros;
    repeat match goal with
           | H : _ /\ _ |- _ => destruct H
           end;
    try discriminate; try reflexivity; auto;
    try (exfalso; auto; fail);
    try (intros HP; specialize (Hc2 HP); discriminate);
    try (intros HQ; specialize (Hw2 HQ); discriminate);
    try (exfalso; match goal with H : P |- _ => specialize (Hc2 H); discriminate end).
Qed.

(** C8, as the code has it.  [get_health_status] returns a report
    exactly when the instant before which a connection is stale, [now]
    minus [connection_timeout], can be computed, and raises what that
    computation raises otherwise.  A report that is returned has the
    status "unhealthy" exactly when some tool with at least one call has
    [failed_calls / total_calls] above [max_error_rate]; otherwise
    "degraded" exactly when the active connections, added up over the
    versions, exceed [max_connections] or some tool's average execution
    time exceeds [max_response_time]; otherwise "healthy".  A
    stale-connections issue is listed, with severity "info", exactly
    when some connection was last active before that instant, and the
    status of a report does not depend on the connections at all. *)
Theorem health_status_classification :
  forall (A : Arith) (timedelta_us : num A -> result Z) (m : MCPMonitor A) (now : Z),
    (forall e, get_health_status A timedelta_us m now = Raise e
               <-> stale_before A timedelta_us m now = Raise e)
    /\ ((exists h, get_health_status A timedelta_us m now = Ok h)
        <-> exists cutoff, stale_before A timedelta_us m now = Ok cutoff)
    /\ (forall h,
          get_health_status A timedelta_us m now = Ok h ->
          (status h = "unhealthy" <-> error_rate_exceeded A m)
          /\ (status h = "degraded"
                <-> ~ error_rate_exceeded A m /\ overloaded_or_slow A m)
          /\ (status h = "healthy"
                <-> ~ error_rate_exceeded A m /\ ~ overloaded_or_slow A m)
          /\ (forall i, In i (issues h) ->
                        issue_type i = "stale_connections" -> severity i = "info")
          /\ ((exists i, In i (issues h) /\ issue_type i = "stale_connections")
                <-> some_connection_stale A timedelta_us m now)
          /\ (forall connections now' h',
                get_health_status A timedelta_us (with_connections A m connections) now'
                = Ok h' ->
                status h' = status h)).
Proof.
  intros A td m now.
  split; [intros e; apply health_raised|]. split.
  { split.
    - intros [h Hh]. destruct (health_returned A td m now h Hh) as (cutoff & Hc & _).
      now exists cutoff.
    - intros [cutoff Hc]. unfold get_health_status. rewrite stale_cutoff_spec, Hc. simpl.
      eexists. reflexivity. }
  intros h Hh.
  destruct (health_returned A td m now h Hh) as (cutoff & Hcut & Hissues & _ & Hstatus).
  pose proof (critical_iff A m) as Hc.
  pose proof (slow_iff A m) as Hs.
  assert (Hw : lt A (max_connections (_alert_thresholds m))
                    (of_int A (total_active A (_protocol_metrics m)))
               || existsb (fun kv => existsb (is_warning A) (response_time_issue A m kv))
                          (_tool_metrics m) = true
               <-> overloaded_or_slow A m).
  { unfold overloaded_or_slow. rewrite orb_true_iff, Hs. tauto. }
  destruct (classify _ _ _ _ Hc Hw) as (H1 & H2 & H3).
  rewrite <- Hstatus in H1, H2, H3.
  split; [exact H1|]. split; [exact H2|]. split; [exact H3|].
  assert (Hstale : forall i, In i (issues h) -> issue_type i = "stale_connections" ->
                     In i (stale_issues A (stale_connection_ids A m cutoff))).
  { intros i Hin Htype. rewrite Hissues in Hin.
    rewrite !in_app_iff, !in_flat_map in Hin.
    destruct Hin as [[Hin|[([n t] & _ & Hin)|([n t] & _ & Hin)]]|Hin]; [| | |exact Hin].
    - apply (connection_issue_type A m) in Hin. congruence.
    - apply (error_rate_issue_type A m) in Hin. congruence.
    - apply (response_time_issue_type A m) in Hin. congruence. }
  split; [|split; [split|]].
  - intros i Hin Htype. specialize (Hstale i Hin Htype).
    unfold stale_issues in Hstale.
    destruct (stale_connection_ids A m cutoff); [destruct Hstale|].
    destruct Hstale as [<-|[]]. reflexivity.
  - intros (i & Hin & Htype). specialize (Hstale i Hin Htype).
    unfold stale_issues in Hstale.
    destruct (stale_connection_ids A m cutoff) as [|id ids] eqn:E; [destruct Hstale|].
    assert (Hid : In id (stale_connection_ids A m cutoff)) by (rewrite E; now left).
    unfold stale_connection_ids in Hid. apply in_map_iff in Hid as ([id' c] & <- & Hf).
    apply filter_In in Hf as [Hf Hlt]. apply Z.ltb_lt in Hlt.
    exists id', c, cutoff. split; [exact Hf|]. split; [exact Hcut|exact Hlt].
  - intros (id & c & cutoff' & Hin & Hcut' & Hlt).
    assert (cutoff' = cutoff) by congruence. subst cutoff'.
    assert (Hid : In id (stale_connection_ids A m cutoff)).
    { unfold stale_connection_ids. apply in_map_iff. exists (id, c). split; [reflexivity|].
      apply filter_In. split; [exact Hin|]. now apply Z.ltb_lt. }
    destruct (stale_issues A (stale_connection_ids A m cutoff)) as [|i l] eqn:E.
    + unfold stale_issues in E. destruct (stale_connection_ids A m cutoff); [destruct Hid|].
      discriminate E.
    + exists i. split.
      * rewrite Hissues, in_app_iff. right. now left.
      * unfold stale_issues in E. destruct (stale_connection_ids A m cutoff); [discriminate|].
        injection E as <- _. reflexivity.
  - intros conns now' h' Hh'.
    destruct (health_returned A td (with_connections A m conns) now' h' Hh')
      as (_ & _ & _ & _ & Hstatus').
    rewrite Hstatus, Hstatus'. reflexivity.
Qed.

(** A report is returned, and classified, for the monitor as it
    starts. *)
Lemma health_status_classification_witness :
  exists h,
    get_health_status Exact.arith Exact.timedelta_us (new_monitor Exact.arith 24) 0 = Ok h
    /\ (status h = "healthy"
        <-> ~ error_rate_exceeded Exact.arith (new_monitor Exact.arith 24)
            /\ ~ overloaded_or_slow Exact.arith (new_monitor Exact.arith 24)).
Proof.
  eexists. split; [reflexivity|].
  apply (health_status_classification Exact.arith Exact.timedelta_us
           (new_monitor Exact.arith 24) 0).
  reflexivity.
Defined.

(** C8 fails as stated: not every monitor state has a health report.
    Once the threshold "connection_timeout" has been set to infinity,
    or to a number of seconds that is more than 999999999 days,
    [get_health_status] raises [OverflowError]. *)
Lemma health_status_raises :
  get_health_status Exact.arith Exact.timedelta_us
    (set_alert_threshold Exact.arith (new_monitor Exact.arith 24)
                         "connection_timeout" Exact.PInf) 0
  = Raise (OtherError "OverflowError" "cannot convert float infinity to integer")
  /\ get_health_status Exact.arith Exact.timedelta_us
       (set_alert_threshold Exact.arith (new_monitor Exact.arith 24)
                            "connection_timeout" (Exact.Fin (inject_Z (10 ^ 14)))) 0
     = Raise (OtherError "OverflowError"
                         "days=1157407407; must have magnitude <= 999999999").
Proof. split; reflexivity. Qed.

End HealthFacts.

Module MetricsFacts.
Import Py.
Import Monitor.
Import MonitorSpec.
Import PyFacts.

Section Account.
Variable A : Arith.

Lemma deque_append_length {X : Type} (d : list X) (x : X) :
  Z.of_nat (List.length d) <= 100 ->
  deque_append 100 d x <> []
  /\ Z.of_nat (List.length (deque_append 100 d x)) <= 100
  /\ Z.of_nat (List.length (deque_append 100 d x)) <= Z.of_nat (List.length d) + 1.
Proof.
  intros H. unfold deque_append.
  destruct (100 <=? Z.of_nat (List.length d)) eqn:E.
  - apply Z.leb_le in E. destruct d as [|y d]; [simpl in E; lia|].
    simpl tl. split; [now destruct d|].
    rewrite length_app. simpl List.length in *. lia.
  - apply Z.leb_gt in E. split; [now destruct d|].
    rewrite length_app. simpl. lia.
Qed.

Lemma new_countable (name : string) : countable A (ToolMetrics.new A name).
Proof. unfold countable. simpl. lia. Qed.

Lemma account_countable (t : ToolMetrics.t A) : metrics_account A t -> countable A t.
Proof. unfold metrics_account, countable. tauto. Qed.

Lemma update_account (t : ToolMetrics.t A) (x : num A) (success : bool)
  (error_type : option string) :
  countable A t -> metrics_account A (update_tool_metrics A t x success error_type).
Proof.
  intros (Hsum & Hs & Hf & Hlen & Hle).
  destruct (deque_append_length (ToolMetrics.recent_response_times t) x Hlen)
    as (Hne & Hlen' & Hstep).
  unfold metrics_account, update_tool_metrics. simpl.
  repeat split; try (destruct success; lia); auto.
  destruct (deque_append 100 (ToolMetrics.recent_response_times t) x); [congruence|reflexivity].
Qed.

Lemma tool_metrics_unchanged (m : MCPMonitor A) (e : monitor_event A) :
  match e with ToolCall _ _ _ _ _ _ => True | _ => _tool_metrics (apply_event A m e) = _tool_metrics m end.
Proof.
  destruct e; simpl; auto.
  - unfold track_connection_ended. now destruct (dict_get (_connections m) connection_id).
  - unfold track_message. now destruct (dict_get (_connections m) connection_id).
  - unfold set_alert_threshold. repeat (destruct (String.eqb _ _); [reflexivity|]). reflexivity.
Qed.

Lemma apply_event_account (m : MCPMonitor A) (e : monitor_event A) :
  all_account A m -> all_account A (apply_event A m e).
Proof.
  intros H. pose proof (tool_metrics_unchanged m e) as Hun.
  destruct e; try (unfold all_account; rewrite Hun; exact H).
  clear Hun. intros name t. simpl. unfold track_tool_call. simpl.
  destruct (String.eqb_spec tool_name name) as [->|Hne].
  - rewrite dict_get_set_same. intros [= <-]. apply update_account.
    unfold dict_get_default. destruct (dict_get (_tool_metrics m) name) eqn:E.
    + apply account_countable. now apply (H name).
    + apply new_countable.
  - rewrite dict_get_set_other by exact Hne. apply H.
Qed.

Lemma run_events_account (retention_hours : Z) (events : list (monitor_event A)) :
  all_account A (run_events A retention_hours events).
Proof.
  unfold run_events.
  assert (H0 : all_account A (new_monitor A retention_hours)).
  { intros name t. simpl. discriminate. }
  revert H0. generalize (new_monitor A retention_hours).
  induction events as [|e es IH]; intros m Hm; simpl; [exact Hm|].
  apply IH. now apply apply_event_account.
Qed.

End Account.

(** *** Exact arithmetic *)

Section ExactBounds.
Import Exact.

Lemma xle_refl (a : xq) : xle a a = true.
Proof. destruct a; simpl; [|reflexivity]. apply Qle_bool_iff. apply Qle_refl. Qed.

Lemma xle_trans (a b c : xq) : xle a b = true -> xle b c = true -> xle a c = true.
Proof.
  destruct a, b, c; simpl; try discriminate; auto.
  rewrite !Qle_bool_iff. apply Qle_trans.
Qed.

Lemma xle_total (a b : xq) : xle a b = false -> xle b a = true.
Proof.
  destruct a, b; simpl; try discriminate; auto.
  intros H. apply Qle_bool_iff. destruct (Qlt_le_dec q0 q) as [Hlt|Hle].
  - now apply Qlt_le_weak.
  - apply Qle_bool_iff in Hle. congruence.
Qed.

Lemma py_min_le (a x : xq) :
  xle (py_min arith a x) a = true /\ xle (py_min arith a x) x = true.
Proof.
  unfold py_min. simpl. unfold xlt.
  destruct (xle a x) eqn:E; simpl.
  - split; [apply xle_refl|exact E].
  - split; [now apply xle_total|apply xle_refl].
Qed.

Lemma py_max_ge (a x : xq) :
  xle a (py_max arith a x) = true /\ xle x (py_max arith a x) = true.
Proof.
  unfold py_max. simpl. unfold xlt.
  destruct (xle x a) eqn:E; simpl.
  - split; [apply xle_refl|exact E].
  - split; [now apply xle_total|apply xle_refl].
Qed.

Lemma in_deque_append {X : Type} (d : list X) (x y : X) :
  In y (deque_append 100 d x) -> In y d \/ y = x.
Proof.
  unfold deque_append. destruct (100 <=? _); rewrite in_app_iff; simpl.
  - intros [H|[H|[]]]; auto. left. destruct d; [destruct H|now right].
  - intros [H|[H|[]]]; auto.
Qed.

Lemma update_bounded (t : ToolMetrics.t arith) (x : xq) (success : bool)
  (error_type : option string) :
  window_bounded t -> window_bounded (update_tool_metrics arith t x success error_type).
Proof.
  intros H y Hy. unfold update_tool_metrics in *. simpl in *.
  destruct (py_min_le (ToolMetrics.min_execution_time t) x) as [Hm1 Hm2].
  destruct (py_max_ge (ToolMetrics.max_execution_time t) x) as [HM1 HM2].
  apply in_deque_append in Hy as [Hy| ->].
  - destruct (H y Hy) as [Hlo Hhi]. split.
    + exact (xle_trans _ _ _ Hm1 Hlo).
    + exact (xle_trans _ _ _ Hhi HM1).
  - split; assumption.
Qed.

Lemma fold_xadd_inf (w : list xq) : fold_left xadd w PInf = PInf.
Proof. induction w as [|y w IH]; simpl; [reflexivity|exact IH]. Qed.

Lemma fold_xadd (w : list xq) (a : Q) :
  fold_left xadd w (Fin a) =
  match finite_part w with
  | Some qs => Fin (fold_left Qplus qs a)
  | None => PInf
  end.
Proof.
  revert a. induction w as [|[q|] w IH]; intros a; simpl.
  - reflexivity.
  - rewrite IH. now destruct (finite_part w).
  - apply fold_xadd_inf.
Qed.

Lemma finite_part_none (w : list xq) : finite_part w = None -> In PInf w.
Proof.
  induction w as [|[q|] w IH]; simpl; try discriminate; auto.
  destruct (finite_part w); [discriminate|]. auto.
Qed.

Lemma finite_part_some (w : list xq) (qs : list Q) :
  finite_part w = Some qs -> w = map Fin qs.
Proof.
  revert qs. induction w as [|[q|] w IH]; intros qs; simpl; try discriminate.
  - now intros [= <-].
  - destruct (finite_part w) as [qs'|]; [|discriminate].
    intros [= <-]. simpl. now rewrite (IH qs' eq_refl).
Qed.

Lemma sum_lower (lo : Q) (qs : list Q) (a : Q) :
  (forall q, In q qs -> lo <= q)%Q ->
  (a + lo * inject_Z (Z.of_nat (List.length qs)) <= fold_left Qplus qs a)%Q.
Proof.
  revert a. induction qs as [|q qs IH]; intros a H.
  - change (fold_left Qplus [] a) with a.
    change (inject_Z (Z.of_nat (@List.length Q []))) with 0%Q. lra.
  - simpl fold_left. eapply Qle_trans; [|apply IH; intros; apply H; now right].
    assert (Hq : (lo <= q)%Q) by (apply H; now left).
    replace (Z.of_nat (List.length (q :: qs))) with (Z.of_nat (List.length qs) + 1)%Z
      by (simpl List.length; lia).
    rewrite inject_Z_plus. change (inject_Z 1) with 1%Q.
    set (n := inject_Z (Z.of_nat (List.length qs))).
    setoid_replace (lo * (n + 1))%Q with (lo * n + lo)%Q by ring.
    generalize (lo * n)%Q. intros p. lra.
Qed.

Lemma sum_upper (hi : Q) (qs : list Q) (a : Q) :
  (forall q, In q qs -> q <= hi)%Q ->
  (fold_left Qplus qs a <= a + hi * inject_Z (Z.of_nat (List.length qs)))%Q.
Proof.
  revert a. induction qs as [|q qs IH]; intros a H.
  - change (fold_left Qplus [] a) with a.
    change (inject_Z (Z.of_nat (@List.length Q []))) with 0%Q. lra.
  - simpl fold_left. eapply Qle_trans; [apply IH; intros; apply H; now right|].
    assert (Hq : (q <= hi)%Q) by (apply H; now left).
    replace (Z.of_nat (List.length (q :: qs))) with (Z.of_nat (List.length qs) + 1)%Z
      by (simpl List.length; lia).
    rewrite inject_Z_plus. change (inject_Z 1) with 1%Q.
    set (n := inject_Z (Z.of_nat (List.length qs))).
    setoid_replace (hi * (n + 1))%Q with (hi * n + hi)%Q by ring.
    generalize (hi * n)%Q. intros p. lra.
Qed.

Lemma positive_length (qs : list Q) :
  qs <> [] -> (0 < inject_Z (Z.of_nat (List.length qs)))%Q.
Proof.
  intros H. destruct qs; [congruence|].
  change 0%Q with (inject_Z 0). rewrite <- Zlt_Qlt. simpl List.length. lia.
Qed.

(** In exact arithmetic the mean of a window lies between any bounds of
    its elements. *)
Lemma mean_between (lo hi : xq) (w : list xq) :
  w <> [] ->
  (forall y, In y w -> xle lo y = true /\ xle y hi = true) ->
  xle lo (xdiv (xsum w) (Fin (inject_Z (Z.of_nat (List.length w))))) = true
  /\ xle (xdiv (xsum w) (Fin (inject_Z (Z.of_nat (List.length w))))) hi = true.
Proof.
  intros Hne H. unfold xsum. rewrite fold_xadd.
  destruct (finite_part w) as [qs|] eqn:E.
  - apply finite_part_some in E. subst w. rewrite length_map.
    assert (Hqs : qs <> []) by (destruct qs; [simpl in Hne|]; congruence).
    pose proof (positive_length qs Hqs) as Hpos.
    simpl xdiv. split.
    + destruct lo as [a|].
      * simpl. apply Qle_bool_iff. apply Qle_shift_div_l; [exact Hpos|].
        eapply Qle_trans; [|apply (sum_lower a qs 0)].
        { lra. }
        intros q Hq. apply Qle_bool_iff.
        exact (proj1 (H (Fin q) (in_map Fin qs q Hq))).
      * destruct qs as [|q qs]; [congruence|].
        destruct (H (Fin q) (or_introl eq_refl)) as [Hlo _]. discriminate Hlo.
    + destruct hi as [b|]; [|reflexivity].
      simpl. apply Qle_bool_iff. apply Qle_shift_div_r; [exact Hpos|].
      eapply Qle_trans; [apply (sum_upper b qs 0)|lra].
      intros q Hq. apply Qle_bool_iff.
      exact (proj2 (H (Fin q) (in_map Fin qs q Hq))).
  - apply finite_part_none in E. destruct (H PInf E) as [_ Hhi].
    destruct hi; [discriminate Hhi|]. simpl. split; [now destruct lo|reflexivity].
Qed.

Lemma apply_event_bounded (m : MCPMonitor arith) (e : monitor_event arith) :
  all_bounded m -> all_bounded (apply_event arith m e).
Proof.
  intros H. pose proof (tool_metrics_unchanged arith m e) as Hun.
  destruct e; try (unfold all_bounded; rewrite Hun; exact H).
  clear Hun. intros name t. simpl. unfold track_tool_call. simpl.
  destruct (String.eqb_spec tool_name name) as [->|Hne].
  - rewrite dict_get_set_same. intros [= <-]. apply update_bounded.
    unfold dict_get_default. destruct (dict_get (_tool_metrics m) name) eqn:E.
    + now apply (H name).
    + intros y [].
  - rewrite dict_get_set_other by exact Hne. apply H.
Qed.

Lemma run_events_bounded (retention_hours : Z) (events : list (monitor_event arith)) :
  all_bounded (run_events arith retention_hours events).
Proof.
  unfold run_events.
  assert (H0 : all_bounded (new_monitor arith retention_hours)).
  { intros name t. simpl. discriminate. }
  revert H0. generalize (new_monitor arith retention_hours).
  induction events as [|e es IH]; intros m Hm; simpl; [exact Hm|].
  apply IH. now apply apply_event_bounded.
Qed.

End ExactBounds.

(** C7, as the code has it.  After every sequence of monitor events, in
    whatever arithmetic the latencies are computed, each tool's metrics
    have [total_calls = successful_calls + failed_calls], at least one
    call, a window of at least one and at most a hundred latencies, and
    an average that is the window's sum divided by its length, as that
    arithmetic computes them.  When the latencies are exact rationals,
    with no rounding and no NaN, every latency of the window lies
    between the all-time minimum and maximum, and so does the average:
    [min <= avg <= max]; of the program's binary64 floats the ordering
    is not claimed. *)
Theorem tool_metrics_invariant :
  (forall (A : Arith) (retention_hours : Z) (events : list (monitor_event A))
          (name : string) (t : ToolMetrics.t A),
      dict_get (_tool_metrics (run_events A retention_hours events)) name = Some t ->
      metrics_account A t)
  /\ (forall (retention_hours : Z) (events : list (monitor_event Exact.arith))
             (name : string) (t : ToolMetrics.t Exact.arith),
        dict_get (_tool_metrics (run_events Exact.arith retention_hours events)) name
          = Some t ->
        Exact.window_bounded t /\ metrics_invariant Exact.arith t).
Proof.
  split.
  - intros A rh events name t H. exact (run_events_account A rh events name t H).
  - intros rh events name t H.
    pose proof (run_events_account Exact.arith rh events name t H)
      as (Hsum & _ & _ & _ & Hne & _ & _ & Havg).
    pose proof (run_events_bounded rh events name t H) as Hb.
    split; [exact Hb|]. split; [exact Hsum|]. intros _.
    rewrite Havg. apply mean_between; assumption.
Qed.

Lemma tool_metrics_invariant_witness :
  exists t,
    dict_get (_tool_metrics
                (run_events Exact.arith 24
                   (Scenario.three_calls Exact.arith (Exact.Fin (1 # 10)))))
             "rag_search" = Some t
    /\ metrics_account Exact.arith t
    /\ metrics_invariant Exact.arith t.
Proof.
  eexists. split; [reflexivity|].
  destruct tool_metrics_invariant as [Hany Hexact]. split.
  - apply (Hany Exact.arith 24
             (Scenario.three_calls Exact.arith (Exact.Fin (1 # 10))) "rag_search").
    reflexivity.
  - apply (Hexact 24 (Scenario.three_calls Exact.arith (Exact.Fin (1 # 10))) "rag_search").
    reflexivity.
Defined.

(** C7 fails as stated: in binary64, after three calls that took 0.1 s
    each, the average of the window is 0.10000000000000002, above the
    maximum 0.1; so it is whether [sum] adds from left to right or with
    compensation. *)
Lemma float_average_exceeds_maximum :
  (exists t,
      dict_get (_tool_metrics
                  (run_events Binary64.arith 24
                     (Scenario.three_calls Binary64.arith Binary64.tenth)))
               "rag_search" = Some t
      /\ ToolMetrics.total_calls t = 3
      /\ PrimFloat.ltb (ToolMetrics.max_execution_time t)
                       (ToolMetrics.avg_execution_time t) = true
      /\ ~ metrics_invariant Binary64.arith t)
  /\ (exists t,
        dict_get (_tool_metrics
                    (run_events Binary64.arith_compensated 24
                       (Scenario.three_calls Binary64.arith_compensated Binary64.tenth)))
                 "rag_search" = Some t
        /\ ToolMetrics.total_calls t = 3
        /\ PrimFloat.ltb (ToolMetrics.max_execution_time t)
                         (ToolMetrics.avg_execution_time t) = true
        /\ ~ metrics_invariant Binary64.arith_compensated t).
Proof.
  split; (eexists; split; [reflexivity|]; split; [reflexivity|]; split; [reflexivity|];
          intros [_ H]; destruct H as [_ H]; [simpl; lia|]; vm_compute in H; discriminate H).
Qed.

End MetricsFacts.

(** ** More on dictionaries *)

Module DictFacts.
Import Py.

Lemma dict_contains_keys {V : Type} (d : dict V) (k : string) :
  dict_contains d k = true <-> In k (dict_keys d).
Proof.
  unfold dict_contains, dict_keys.
  induction d as [|[k' v] d IH]; simpl.
  - split; [discriminate|tauto].
  - destruct (String.eqb_spec k' k) as [->|Hne].
    + split; auto.
    + rewrite IH. split; [auto|]. intros [H|H]; [congruence|exact H].
Qed.

Lemma dict_get_keys {V : Type} (d : dict V) (k : string) :
  In k (dict_keys d) <-> dict_get d k <> None.
Proof.
  rewrite <- dict_contains_keys. unfold dict_contains.
  destruct (dict_get d k); split; congruence.
Qed.

Lemma dict_get_in {V : Type} (d : dict V) (k : string) (v : V) :
  dict_get d k = Some v -> In (k, v) d.
Proof.
  induction d as [|[k' v'] d IH]; simpl; [discriminate|].
  destruct (String.eqb_spec k' k) as [->|Hne].
  - intros [= ->]. now left.
  - intros H. right. now apply IH.
Qed.

Lemma in_dict_get {V : Type} (d : dict V) (k : string) (v : V) :
  NoDup (dict_keys d) -> In (k, v) d -> dict_get d k = Some v.
Proof.
  unfold dict_keys.
  induction d as [|[k' v'] d IH]; simpl; [tauto|].
  intros Hnd [H|H].
  - injection H as -> ->. now rewrite String.eqb_refl.
  - inversion Hnd as [|? ? Hk Hnd']; subst.
    destruct (String.eqb_spec k' k) as [->|Hne]; [|now apply IH].
    exfalso. apply Hk. now apply (in_map fst d (k, v)).
Qed.

Lemma in_dict_set {V : Type} (d : dict V) (k : string) (v : V) (kv : string * V) :
  In kv (dict_set d k v) -> kv = (k, v) \/ In kv d.
Proof.
  induction d as [|[k' v'] d IH]; simpl.
  - intros [<-|[]]. now left.
  - destruct (String.eqb_spec k' k) as [->|Hne]; simpl.
    + intros [<-|H]; auto.
    + intros [<-|H]; auto. destruct (IH H); auto.
Qed.

Lemma dict_keys_set_nodup {V : Type} (d : dict V) (k : string) (v : V) :
  NoDup (dict_keys d) -> NoDup (dict_keys (dict_set d k v)).
Proof.
  intros H. destruct (dict_contains d k) eqn:E.
  - now rewrite PyFacts.dict_keys_set_present.
  - rewrite PyFacts.dict_keys_set_absent by exact E.
    apply NoDup_app; [exact H|repeat constructor; simpl; tauto|].
    intros x Hx [<-|[]]. apply dict_contains_keys in Hx. congruence.
Qed.

Lemma dict_keys_set_in {V : Type} (d : dict V) (k : string) (v : V) (x : string) :
  In x (dict_keys (dict_set d k v)) <-> x = k \/ In x (dict_keys d).
Proof.
  destruct (dict_contains d k) eqn:E.
  - rewrite PyFacts.dict_keys_set_present by exact E.
    apply dict_contains_keys in E. split; [auto|]. intros [->|H]; auto.
  - rewrite PyFacts.dict_keys_set_absent by exact E.
    rewrite in_app_iff. simpl. split; [intros [H|[H|[]]]|intros [H|H]]; auto.
Qed.

End DictFacts.

(** ** The registry as a run of operations builds it *)

Module RegistryInvariants.
Import Py.
Import Registry.
Import RegistryInv.
Import PyFacts.
Import DictFacts.

Lemma apply_op_well_keyed (r : ProtocolVersionRegistry) (op : registry_op) :
  well_keyed r -> well_keyed (apply_op r op).
Proof.
  intros [Hnd Hv]. destruct op as [a|v1 v2 c]; simpl; [|split; assumption].
  split; simpl.
  - now apply dict_keys_set_nodup.
  - intros v a' Hin. apply in_dict_set in Hin as [[= -> ->]|Hin]; auto.
Qed.

Lemma fold_well_keyed (ops : list registry_op) (r : ProtocolVersionRegistry) :
  well_keyed r -> well_keyed (fold_left apply_op ops r).
Proof.
  revert r. induction ops as [|op ops IH]; intros r H; simpl; [exact H|].
  apply IH. now apply apply_op_well_keyed.
Qed.

Lemma fold_versions (ops : list registry_op) (r : ProtocolVersionRegistry) (v : string) :
  In v (get_supported_versions (fold_left apply_op ops r)) <->
  In v (get_supported_versions r)
  \/ exists a, In (Register a) ops /\ get_supported_version a = v.
Proof.
  revert r. induction ops as [|op ops IH]; intros r; simpl.
  - split; [auto|]. intros [H|(a & [] & _)]. exact H.
  - rewrite IH. destruct op as [a|v1 v2 c]; simpl.
    + unfold get_supported_versions at 1. simpl. rewrite dict_keys_set_in.
      split.
      * intros [[->|H]|(a' & Hin & E)]; eauto.
      * intros [H|(a' & [[= <-]|Hin] & E)]; eauto.
    + split.
      * intros [H|(a' & Hin & E)]; eauto.
      * intros [H|(a' & [[=]|Hin] & E)]; eauto.
Qed.

(** X4.  However adapters are registered and re-registered,
    [get_supported_versions] lists no version twice, lists exactly the
    versions some registered adapter names, and [get_adapter] answers for
    exactly the listed versions, with an adapter of that very version. *)
Theorem supported_versions_are_distinct :
  forall ops : list registry_op,
    NoDup (get_supported_versions (run_ops ops))
    /\ (forall v a, get_adapter (run_ops ops) v = Some a -> get_supported_version a = v)
    /\ (forall v, In v (get_supported_versions (run_ops ops))
                  <-> get_adapter (run_ops ops) v <> None)
    /\ (forall v, In v (get_supported_versions (run_ops ops))
                  <-> exists a, In (Register a) ops /\ get_supported_version a = v).
Proof.
  intros ops. unfold run_ops.
  assert (H0 : well_keyed new_registry).
  { split; [constructor|intros v a []]. }
  destruct (fold_well_keyed ops new_registry H0) as [Hnd Hv].
  split; [exact Hnd|]. split; [|split].
  - intros v a H. apply Hv. now apply dict_get_in.
  - intros v. apply dict_get_keys.
  - intros v. rewrite fold_versions. simpl. tauto.
Qed.

End RegistryInvariants.

(** ** What [sorted] returns *)

Module SortMembership.
Import Py.

Section Membership.
Context {A K : Type}.
Variable key : A -> K.
Variable lt : K -> K -> result bool.

Lemma insert_sorted_in (x : A) (s s' : list A) :
  insert_sorted key lt x s = Ok s' -> forall y, In y s' <-> y = x \/ In y s.
Proof.
  revert s'. induction s as [|z s IH]; simpl; intros s'.
  - intros [= <-] y. simpl. intuition.
  - destruct (lt (key x) (key z)) as [[|]|e]; simpl; try discriminate.
    + intros [= <-] y. simpl. intuition.
    + destruct (insert_sorted key lt x s) as [r|e]; simpl; try discriminate.
      intros [= <-] y. simpl. rewrite (IH r eq_refl). intuition.
Qed.

Lemma sort_ascending_in (l done s : list A) :
  sort_ascending key lt l done = Ok s -> forall y, In y s <-> In y l \/ In y done.
Proof.
  revert done. induction l as [|x l IH]; simpl; intros done.
  - intros [= <-] y. intuition.
  - destruct (insert_sorted key lt x done) as [r|e] eqn:E; simpl; try discriminate.
    intros H y. rewrite (IH r H), (insert_sorted_in x done r E). intuition.
Qed.

(** [sorted] returns the elements it was given. *)
Lemma py_sorted_in (reverse : bool) (l s : list A) :
  py_sorted key lt reverse l = Ok s -> forall y, In y s <-> In y l.
Proof.
  unfold py_sorted. destruct reverse.
  - destruct (sort_ascending key lt (rev l) []) as [r|e] eqn:E; simpl; try discriminate.
    intros [= <-] y. rewrite <- in_rev, (sort_ascending_in _ _ _ E), <- in_rev.
    simpl. tauto.
  - intros H y. rewrite (sort_ascending_in _ _ _ H). simpl. tauto.
Qed.

End Membership.

End SortMembership.

(** ** What a negotiation can return *)

Module NegotiationResult.
Import Py.
Import Registry.
Import Negotiator.
Import PyFacts.
Import DictFacts.
Import SortMembership.

Lemma chosen_some (o : option string) (v : string) : chosen o = Some v -> o = Some v.
Proof.
  destruct o as [w|]; simpl; [|discriminate].
  destruct (String.eqb w ""); [discriminate|]. now intros [= ->].
Qed.

Lemma select_latest_in (versions : list string) (v : string) :
  _select_latest_version versions = Ok v -> In v versions.
Proof.
  unfold _select_latest_version.
  destruct (py_sorted _version_sort_key tuple_lt true versions) as [s|e] eqn:E;
    simpl; try discriminate.
  destruct s as [|w s]; [discriminate|]. intros [= <-].
  apply (py_sorted_in _ _ _ _ _ E). now left.
Qed.

Lemma find_compatible_in (n : MCPProtocolNegotiator) (client_versions : list pyval)
  (server_versions : list string) (client_features : list pyval) (v : string) :
  _find_compatible_version n client_versions server_versions client_features = Ok (Some v) ->
  In v server_versions.
Proof.
  unfold _find_compatible_version.
  destruct (py_sorted (fun v => v) string_lt true server_versions) as [s|e] eqn:E;
    simpl; try discriminate.
  intros [= H]. apply find_some in H as [H _].
  now apply (py_sorted_in _ _ _ _ _ E).
Qed.

Lemma fallback_in (server_versions : list string) (v : string) :
  _get_fallback_version server_versions = Ok (Some v) -> In v server_versions.
Proof.
  unfold _get_fallback_version. destruct server_versions as [|w l]; [discriminate|].
  destruct (py_sorted _version_sort_key tuple_lt false (w :: l)) as [s|e] eqn:E;
    simpl; try discriminate.
  destruct s as [|u s]; [discriminate|]. intros [= <-].
  apply (py_sorted_in _ _ _ _ _ E). now left.
Qed.

Lemma negotiated_in_registry :
  forall (set_order : list string -> list string) (py_str : pyval -> string)
         (n : MCPProtocolNegotiator) (capabilities : pyval) (v : string),
    (forall l x, In x (set_order l) -> In x l) ->
    negotiate_protocol set_order py_str n capabilities = Ok v ->
    In v (get_supported_versions (_registry n)).
Proof.
  intros set_order py_str n caps v Hset. unfold negotiate_protocol.
  destruct (_extract_client_versions caps) as [cv|e]; simpl; try discriminate.
  destruct (_extract_client_features caps) as [feats|e]; simpl; try discriminate.
  destruct (py_set_elements cv) as [cl|e]; simpl; try discriminate.
  destruct (nodup string_dec _) as [|e0 E'] eqn:EE.
  - destruct (_find_compatible_version n cl _ feats) as [cmp|e] eqn:Ec; simpl;
      try discriminate.
    destruct (chosen cmp) as [w|] eqn:Ew.
    + intros [= <-]. apply chosen_some in Ew. subst cmp.
      now apply (find_compatible_in _ _ _ _ _ Ec).
    + destruct (_get_fallback_version _) as [basic|e] eqn:Ef; simpl; try discriminate.
      destruct (chosen basic) as [w|] eqn:Eb; [|discriminate].
      apply chosen_some in Eb. subst basic.
      destruct (_can_client_handle_fallback w caps) as [[|]|e]; simpl; try discriminate.
      intros [= <-]. now apply fallback_in.
  - intros H. apply select_latest_in, Hset in H. rewrite <- EE in H.
    apply nodup_In, filter_In in H as [_ H].
    now apply ExactMatchFacts.str_in_iff.
Qed.

(** X5.  Whatever the client declares, a version that [negotiate_protocol]
    returns is one of the registered versions, so the registry has an
    adapter for it: the handshake's "No adapter found" error cannot
    follow a successful negotiation. *)
Theorem negotiated_version_is_registered :
  forall (set_order : list string -> list string) (py_str : pyval -> string)
         (n : MCPProtocolNegotiator) (capabilities : pyval) (v : string),
    (forall l x, In x (set_order l) -> In x l) ->
    negotiate_protocol set_order py_str n capabilities = Ok v ->
    In v (get_supported_versions (_registry n))
    /\ exists adapter, get_adapter (_registry n) v = Some adapter.
Proof.
  intros set_order py_str n caps v Hset H.
  pose proof (negotiated_in_registry set_order py_str n caps v Hset H) as Hin.
  split; [exact Hin|].
  apply dict_get_keys in Hin. unfold get_adapter.
  destruct (dict_get _ v) as [a|]; [now exists a|congruence].
Qed.

Lemma negotiated_version_is_registered_witness :
  (forall l x, In x ((fun l : list string => l) l) -> In x l)
  /\ negotiate_protocol (fun l => l) (fun _ => "") Scenario.negotiator
       (Scenario.supports ["0.9"]) = Ok "1.0"
  /\ In "1.0" (get_supported_versions (_registry Scenario.negotiator))
  /\ exists adapter, get_adapter (_registry Scenario.negotiator) "1.0" = Some adapter.
Proof.
  split; [auto|]. split; [reflexivity|].
  apply (negotiated_version_is_registered (fun l => l) (fun _ => "") Scenario.negotiator
           (Scenario.supports ["0.9"]) "1.0"); [auto|reflexivity].
Defined.

(** X6.  The negotiator reads the registry's adapters and a matrix of its
    own, never the registry's matrix: [set_compatibility] on the
    registry changes the answer of [are_compatible] and leaves every
    negotiation, every [get_protocol_info] and every
    [validate_client_request] as it was. *)
Theorem negotiation_ignores_registry_matrix :
  forall (set_order : list string -> list string) (py_str : pyval -> string)
         (r : ProtocolVersionRegistry) (version1 version2 : string) (compatible : bool),
    are_compatible (set_compatibility r version1 version2 compatible) version1 version2
    = compatible
    /\ (forall capabilities,
          negotiate_protocol set_order py_str
            (new_negotiator (set_compatibility r version1 version2 compatible)) capabilities
          = negotiate_protocol set_order py_str (new_negotiator r) capabilities)
    /\ (forall version,
          get_protocol_info
            (new_negotiator (set_compatibility r version1 version2 compatible)) version
          = get_protocol_info (new_negotiator r) version)
    /\ (forall version tool parameters,
          validate_client_request
            (new_negotiator (set_compatibility r version1 version2 compatible))
            version tool parameters
          = validate_client_request (new_negotiator r) version tool parameters).
Proof.
  intros set_order py_str r v1 v2 c. split.
  - rewrite RegistryFacts.are_compatible_set. now rewrite !String.eqb_refl.
  - repeat split.
Qed.

(** X7.  [add_compatibility_rule] and [_are_versions_compatible]: a rule is
    read back as written, replaces an earlier rule for the same pair,
    and leaves every other pair, the other direction included, and the
    registry as they were. *)
Theorem compatibility_rule_round_trip :
  forall (n : MCPProtocolNegotiator) (server_version client_version : string)
         (compatible : bool),
    _are_versions_compatible
      (add_compatibility_rule n server_version client_version compatible)
      server_version client_version = compatible
    /\ (forall s c, (s, c) <> (server_version, client_version) ->
          _are_versions_compatible
            (add_compatibility_rule n server_version client_version compatible) s c
          = _are_versions_compatible n s c)
    /\ (forall b s c,
          _are_versions_compatible
            (add_compatibility_rule
               (add_compatibility_rule n server_version client_version b)
               server_version client_version compatible) s c
          = _are_versions_compatible
              (add_compatibility_rule n server_version client_version compatible) s c)
    /\ _registry (add_compatibility_rule n server_version client_version compatible)
       = _registry n.
Proof.
  intros n sv cv b.
  assert (H : forall n b s c,
             _are_versions_compatible (add_compatibility_rule n sv cv b) s c
             = if String.eqb sv s && String.eqb cv c then b
               else _are_versions_compatible n s c).
  { clear. intros n b s c.
    unfold _are_versions_compatible, add_compatibility_rule, dict_get_default; simpl.
    destruct (String.eqb_spec sv s) as [->|Hs]; simpl.
    - rewrite dict_get_set_same.
      destruct (String.eqb_spec cv c) as [->|Hc].
      + now rewrite dict_get_set_same.
      + now rewrite dict_get_set_other.
    - now rewrite dict_get_set_other. }
  split; [|split; [|split]].
  - rewrite H. now rewrite !String.eqb_refl.
  - intros s c Hne. rewrite H.
    destruct (String.eqb_spec sv s) as [->|Hs]; [|reflexivity].
    destruct (String.eqb_spec cv c) as [->|Hc]; [congruence|reflexivity].
  - intros b' s c. rewrite !H. now destruct (String.eqb sv s && String.eqb cv c).
  - reflexivity.
Qed.

(** X8.  [get_protocol_info] answers for exactly the registered versions.
    When the clients of the version's row of the matrix are distinct,
    "compatible_with" lists exactly the client versions that
    [_are_versions_compatible] accepts for it, and
    "backward_compatible" says no more than that this list is not
    empty: a version compatible with itself alone is reported as
    backward compatible. *)
Theorem protocol_info_lists_compatible_clients :
  forall (n : MCPProtocolNegotiator) (version : string),
    NoDup (dict_keys (dict_get_default (_compatibility_matrix n) version [])) ->
    (get_adapter (_registry n) version = None ->
       get_protocol_info n version
       = Raise (ValueError ("Unknown protocol version: " ++ version)%string))
    /\ (forall adapter, get_adapter (_registry n) version = Some adapter ->
          exists clients,
            get_protocol_info n version
            = Ok (PDict
                [ ("version", PStr version);
                  ("supported_tools", PList (map PStr (get_supported_tools adapter)));
                  ("compatible_with", PList (map PStr clients));
                  ("features", PDict
                     [ ("tool_count",
                        PInt (Z.of_nat (List.length (get_supported_tools adapter))));
                       ("backward_compatible",
                        PBool (match clients with [] => false | _ => true end)) ]) ])
            /\ forall c, In c clients <-> _are_versions_compatible n version c = true).
Proof.
  intros n version Hnd. unfold get_protocol_info. split.
  - intros ->. reflexivity.
  - intros adapter ->.
    set (row := dict_get_default (_compatibility_matrix n) version []) in *.
    exists (map fst (filter (fun kv : string * bool => snd kv) row)).
    split.
    + rewrite map_map. do 5 f_equal.
      induction row as [|[k [|]] row IH]; simpl; try reflexivity.
      apply IH. now inversion Hnd.
    + intros c. unfold _are_versions_compatible. fold row.
      unfold dict_get_default. rewrite in_map_iff. split.
      * intros ([k b] & <- & Hin). apply filter_In in Hin as [Hin Hb].
        simpl in Hb. subst b. simpl. now rewrite (in_dict_get row k true Hnd Hin).
      * destruct (dict_get row c) as [b|] eqn:E; [|discriminate].
        intros ->. exists (c, true). split; [reflexivity|].
        apply filter_In. split; [now apply dict_get_in|reflexivity].
Qed.

Lemma protocol_info_lists_compatible_clients_witness :
  exists clients,
    get_protocol_info Scenario.negotiator "1.1"
    = Ok (PDict
        [ ("version", PStr "1.1");
          ("supported_tools", PList (map PStr Scenario.v1_tools));
          ("compatible_with", PList (map PStr clients));
          ("features", PDict
             [ ("tool_count", PInt 6);
               ("backward_compatible",
                PBool (match clients with [] => false | _ => true end)) ]) ])
    /\ forall c, In c clients <-> _are_versions_compatible Scenario.negotiator "1.1" c = true.
Proof.
  assert (Hnd : NoDup (dict_keys (dict_get_default
                                    (_compatibility_matrix Scenario.negotiator) "1.1" []))).
  { repeat constructor; simpl; intuition discriminate. }
  destruct (protocol_info_lists_compatible_clients Scenario.negotiator "1.1" Hnd)
    as [_ H].
  exact (H Scenario.adapter_1_1 eq_refl).
Defined.

End NegotiationResult.

(** ** Negotiation: defaults and the fallback *)

Module FallbackFacts.
Import Py.
Import Registry.
Import Negotiator.
Import PyFacts.
Import DictFacts.
Import SortMembership.
Import Orders.

Lemma tuple_lt_lex (a b : list Z) :
  tuple_lt (map IInt a) (map IInt b)
  = Ok (match lex a b with Lt => true | _ => false end).
Proof.
  revert b. induction a as [|x a IH]; intros [|y b]; simpl; try reflexivity.
  destruct (Z.compare_spec x y) as [->|H|H].
  - rewrite Z.eqb_refl. apply IH.
  - replace (x =? y) with false by (symmetry; apply Z.eqb_neq; lia).
    f_equal. apply Z.ltb_lt. exact H.
  - replace (x =? y) with false by (symmetry; apply Z.eqb_neq; lia).
    f_equal. apply Z.ltb_ge. lia.
Qed.

Lemma tuple_ge_lex (a b : list Z) :
  tuple_ge (map IInt a) (map IInt b)
  = Ok (match lex a b with Lt => false | _ => true end).
Proof.
  revert b. induction a as [|x a IH]; intros [|y b]; simpl; try reflexivity.
  destruct (Z.compare_spec x y) as [->|H|H].
  - rewrite Z.eqb_refl. apply IH.
  - replace (x =? y) with false by (symmetry; apply Z.eqb_neq; lia).
    f_equal. apply Z.leb_gt. exact H.
  - replace (x =? y) with false by (symmetry; apply Z.eqb_neq; lia).
    f_equal. apply Z.leb_le. lia.
Qed.

(** Below something that is not above a third. *)
Lemma lex_lt_le (c v s : list Z) : lex c v = Lt -> lex s v <> Lt -> lex c s = Lt.
Proof.
  revert v s. induction c as [|x c IH]; intros [|y v] [|z s]; simpl; try congruence.
  destruct (Z.compare_spec x y), (Z.compare_spec z y), (Z.compare_spec x z);
    subst; try lia; try congruence; eauto.
Qed.

Lemma numeric_key (x : string) :
  dotted_numeric x -> exists zs, _version_sort_key x = map IInt zs.
Proof.
  unfold dotted_numeric, _version_sort_key.
  destruct (ints_of (split "." x)) as [zs|]; [|congruence]. now exists zs.
Qed.

Lemma numeric_not_empty (x : string) : dotted_numeric x -> x <> "".
Proof. intros H ->. apply H. reflexivity. Qed.

Lemma chosen_numeric (x : string) : dotted_numeric x -> chosen (Some x) = Some x.
Proof.
  intros H. simpl. destruct (String.eqb_spec x ""); [|reflexivity].
  now apply numeric_not_empty in H.
Qed.

(** A comparison that never raises lets [sorted] finish. *)
Section Total.
Context {A K : Type}.
Variable key : A -> K.
Variable lt : K -> K -> result bool.
Hypothesis total : forall a b, exists r, lt a b = Ok r.

Lemma insert_sorted_total (x : A) (s : list A) : exists r, insert_sorted key lt x s = Ok r.
Proof.
  induction s as [|y s [r IH]]; simpl; [eauto|].
  destruct (total (key x) (key y)) as [[|] ->]; simpl; [eauto|].
  rewrite IH. simpl. eauto.
Qed.

Lemma sort_ascending_total (l done : list A) : exists r, sort_ascending key lt l done = Ok r.
Proof.
  revert done. induction l as [|x l IH]; intros done; simpl; [eauto|].
  destruct (insert_sorted_total x done) as [r ->]. simpl. apply IH.
Qed.

Lemma py_sorted_total (reverse : bool) (l : list A) : exists r, py_sorted key lt reverse l = Ok r.
Proof.
  unfold py_sorted. destruct reverse; [|apply sort_ascending_total].
  destruct (sort_ascending_total (rev l) []) as [r ->]. simpl. eauto.
Qed.

End Total.

(** The oldest version: [sorted(versions, key=...)[0]] of versions made
    of numbers is a version that none of them is below. *)
Lemma fallback_is_minimum (server_versions : list string) :
  server_versions <> [] ->
  (forall x, In x server_versions -> dotted_numeric x) ->
  exists v,
    _get_fallback_version server_versions = Ok (Some v)
    /\ In v server_versions
    /\ forall x, In x server_versions ->
                 tuple_lt (_version_sort_key x) (_version_sort_key v) = Ok false.
Proof.
  intros Hne Hnum. unfold _get_fallback_version.
  destruct server_versions as [|w l] eqn:El; [congruence|]. rewrite <- El in *. clear Hne.
  unfold py_sorted.
  destruct (SortFacts.sort_ascending_ok _version_sort_key tuple_lt dotted_numeric
              (fun x y Hx Hy => ExactMatchFacts.numeric_keys_compare x y Hx Hy)
              (fun x y z => TupleFacts.tuple_lt_trans _ _ _)
              (fun x => TupleFacts.tuple_lt_irrefl _)
              server_versions [])
    as (r & Hr & Hperm & Hasc).
  { now apply Forall_forall. }
  { constructor. }
  { constructor. }
  rewrite Hr. simpl. rewrite app_nil_r in Hperm.
  destruct r as [|v r].
  { apply Permutation_sym, Permutation_nil in Hperm. rewrite El in Hperm. discriminate. }
  exists v. split; [reflexivity|]. split.
  - apply (Permutation_in _ (Permutation_sym Hperm)). now left.
  - intros x Hx. apply (Permutation_in _ Hperm) in Hx.
    inversion Hasc as [|? ? _ Hall]; subst.
    destruct Hx as [<-|Hx]; [apply TupleFacts.tuple_lt_irrefl|].
    rewrite Forall_forall in Hall. now apply Hall.
Qed.

Lemma extracted_default (d : dict pyval) :
  dict_contains d "protocolVersion" = false ->
  dict_contains d "supportedVersions" = false ->
  dict_contains d "versions" = false ->
  dict_contains d "version" = false ->
  _extract_client_versions (PDict d) = Ok (PList [PStr "1.0"]).
Proof.
  intros H1 H2 H3 H4. unfold _extract_client_versions. simpl.
  rewrite H1. simpl. rewrite H2. simpl. rewrite H3. simpl. rewrite H4. reflexivity.
Qed.

(** X9.  A capabilities document that names no version under any of the four
    keys is read as a client of version 1.0: when 1.0 is registered, it
    is the version negotiated. *)
Theorem no_version_key_negotiates_1_0 :
  forall (set_order : list string -> list string) (py_str : pyval -> string)
         (n : MCPProtocolNegotiator) (d : dict pyval) (client_features : list pyval),
    (forall l, Permutation (set_order l) l) ->
    dict_contains d "protocolVersion" = false ->
    dict_contains d "supportedVersions" = false ->
    dict_contains d "versions" = false ->
    dict_contains d "version" = false ->
    _extract_client_features (PDict d) = Ok client_features ->
    In "1.0" (get_supported_versions (_registry n)) ->
    _extract_client_versions (PDict d) = Ok (PList [PStr "1.0"])
    /\ negotiate_protocol set_order py_str n (PDict d) = Ok "1.0".
Proof.
  intros set_order py_str n d feats Hperm H1 H2 H3 H4 Hf Hin.
  pose proof (extracted_default d H1 H2 H3 H4) as Hcv.
  split; [exact Hcv|].
  unfold negotiate_protocol. rewrite Hcv, Hf. simpl.
  apply ExactMatchFacts.str_in_iff in Hin. rewrite Hin. simpl.
  rewrite (Permutation_length_1_inv (Permutation_sym (Hperm ["1.0"]))).
  reflexivity.
Qed.

Lemma no_version_key_negotiates_1_0_witness :
  _extract_client_versions (PDict [("features", PList [PStr "rag_search"])])
  = Ok (PList [PStr "1.0"])
  /\ negotiate_protocol (fun l => l) (fun _ => "") Scenario.negotiator
       (PDict [("features", PList [PStr "rag_search"])]) = Ok "1.0".
Proof.
  apply (no_version_key_negotiates_1_0 (fun l => l) (fun _ => "") Scenario.negotiator
           [("features", PList [PStr "rag_search"])] [PStr "rag_search"]);
    try reflexivity.
  simpl. auto.
Defined.

Lemma set_elements_iter (v : pyval) (l : list pyval) :
  py_set_elements v = Ok l -> py_iter v = Ok l.
Proof.
  unfold py_set_elements. destruct (py_iter v) as [l'|e]; simpl; [|discriminate].
  destruct (forallb hashable l'); [|discriminate]. now intros [= ->].
Qed.

(** X10.  The fallback makes negotiation succeed for every client that is not
    older than all of the server: when the registered versions are made
    of numbers and the client lists a version, made of numbers, whose
    key is at least the key of some registered version, then
    [negotiate_protocol] returns a registered version and never the
    "No compatible MCP protocol version" error, whether or not any
    version matches or is compatible. *)
Theorem newer_client_is_never_refused :
  forall (set_order : list string -> list string) (py_str : pyval -> string)
         (n : MCPProtocolNegotiator) (capabilities client_versions : pyval)
         (client_features client_list : list pyval) (c s : string),
    (forall l, Permutation (set_order l) l) ->
    _extract_client_versions capabilities = Ok client_versions ->
    _extract_client_features capabilities = Ok client_features ->
    py_set_elements client_versions = Ok client_list ->
    (forall x, In x (get_supported_versions (_registry n)) -> dotted_numeric x) ->
    In (PStr c) client_list ->
    dotted_numeric c ->
    In s (get_supported_versions (_registry n)) ->
    tuple_ge (_version_sort_key c) (_version_sort_key s) = Ok true ->
    exists v,
      negotiate_protocol set_order py_str n capabilities = Ok v
      /\ In v (get_supported_versions (_registry n)).
Proof.
  intros set_order py_str n caps cv feats cl c s Hperm Hcv Hf Hcl Hnum Hc Hcnum Hs Hge.
  assert (Hincl : forall l x, In x (set_order l) -> In x l).
  { intros l x. apply Permutation_in, Hperm. }
  enough (exists v, negotiate_protocol set_order py_str n caps = Ok v) as [v Hv].
  { exists v. split; [exact Hv|].
    exact (NegotiationResult.negotiated_in_registry set_order py_str n caps v Hincl Hv). }
  unfold negotiate_protocol. rewrite Hcv, Hf. simpl. rewrite Hcl. simpl.
  set (servers := get_supported_versions (_registry n)) in *.
  destruct (nodup string_dec (filter (fun v => str_in v servers) (strs cl)))
    as [|e0 E'] eqn:EE.
  - (* no exact match *)
    destruct (py_sorted_total (fun v : string => v) string_lt
                (fun a b => ex_intro _ _ eq_refl) true servers) as [sorted Hsorted].
    unfold _find_compatible_version. rewrite Hsorted. simpl.
    destruct (find _ sorted) as [w|] eqn:Efind.
    + apply find_some in Efind as [Hw _].
      apply (py_sorted_in _ _ _ _ _ Hsorted) in Hw.
      rewrite (chosen_numeric w (Hnum w Hw)). eauto.
    + simpl chosen. cbv iota.
      destruct (fallback_is_minimum servers) as (v & Hfb & Hv & Hmin).
      { intros E. rewrite E in Hs. destruct Hs. }
      { exact Hnum. }
      rewrite Hfb. unfold bind at 1. cbv beta. rewrite (chosen_numeric v (Hnum v Hv)).
      unfold _can_client_handle_fallback. rewrite Hcv. simpl.
      rewrite (set_elements_iter _ _ Hcl). simpl.
      assert (Hreach : existsb (client_reaches v) cl = true).
      { apply existsb_exists. exists (PStr c). split; [exact Hc|].
        unfold client_reaches.
        destruct (numeric_key c Hcnum) as [zc Ec].
        destruct (numeric_key s (Hnum s Hs)) as [zs Es].
        destruct (numeric_key v (Hnum v Hv)) as [zv Ev].
        specialize (Hmin s Hs). rewrite Ec, Es in Hge. rewrite Es, Ev in Hmin.
        rewrite Ec, Ev. rewrite tuple_ge_lex in *. rewrite tuple_lt_lex in Hmin.
        destruct (lex zc zv) eqn:Ecv; try reflexivity.
        assert (Hsv : lex zs zv <> Lt).
        { intros E. rewrite E in Hmin. discriminate. }
        rewrite (lex_lt_le zc zv zs Ecv Hsv) in Hge. discriminate Hge. }
      rewrite Hreach. eauto.
  - (* some exact match *)
    rewrite <- EE.
    set (E := nodup string_dec (filter (fun v => str_in v servers) (strs cl))) in *.
    assert (HE : forall x, In x (set_order E) -> dotted_numeric x).
    { intros x Hx. apply Hincl in Hx. unfold E in Hx.
      apply nodup_In, filter_In in Hx as [_ Hx].
      apply Hnum. now apply ExactMatchFacts.str_in_iff. }
    destruct (SortFacts.sorted_reverse_head _version_sort_key tuple_lt dotted_numeric
                (fun x y Hx Hy => ExactMatchFacts.numeric_keys_compare x y Hx Hy)
                (fun x y z => TupleFacts.tuple_lt_trans _ _ _)
                (fun x => TupleFacts.tuple_lt_irrefl _)
                (set_order E)) as (v & rest & Hsort & _).
    { intros Hnil. pose proof (Hperm E) as HP. rewrite Hnil in HP.
      apply Permutation_nil in HP. rewrite EE in HP. discriminate. }
    { now apply Forall_forall. }
    unfold _select_latest_version. rewrite Hsort. simpl. eauto.
Qed.

Lemma newer_client_is_never_refused_witness :
  exists v,
    negotiate_protocol (fun l => l) (fun _ => "") Scenario.negotiator
      (Scenario.supports ["3.2"; "7"]) = Ok v
    /\ In v (get_supported_versions (_registry Scenario.negotiator)).
Proof.
  apply (newer_client_is_never_refused (fun l => l) (fun _ => "") Scenario.negotiator
           (Scenario.supports ["3.2"; "7"]) (PList [PStr "3.2"; PStr "7"]) []
           [PStr "3.2"; PStr "7"] "7" "1.1"); try reflexivity.
  - intros x [<-|[<-|[]]]; discriminate.
  - simpl. auto.
  - discriminate.
  - simpl. auto.
Defined.

End FallbackFacts.

(** ** The monitor's counters *)

Module CounterFacts.
Import Py.
Import Monitor.
Import MonitorInv.
Import PyFacts.
Import DictFacts.

Lemma int_sum_from (l : list Z) (a : Z) : fold_left Z.add l a = a + int_sum l.
Proof.
  unfold int_sum. revert a. induction l as [|x l IH]; intros a; simpl; [lia|].
  rewrite (IH (a + x)), (IH x). lia.
Qed.

Lemma total_of_cons {V : Type} (f : V -> Z) (k : string) (v : V) (d : dict V) :
  total_of f ((k, v) :: d) = f v + total_of f d.
Proof. unfold total_of, int_sum. simpl. now rewrite int_sum_from. Qed.

Lemma total_of_set {V : Type} (f : V -> Z) (d : dict V) (k : string) (v : V) :
  total_of f (dict_set d k v)
  = total_of f d - match dict_get d k with Some old => f old | None => 0 end + f v.
Proof.
  induction d as [|[k' v'] d IH]; simpl.
  - rewrite total_of_cons. unfold total_of, int_sum. simpl. lia.
  - destruct (String.eqb k' k); rewrite !total_of_cons; [lia|]. rewrite IH. lia.
Qed.

Lemma total_of_map {V : Type} (f : V -> Z) (g : V -> V) (d : dict V) :
  (forall v, f (g v) = f v) ->
  total_of f (map (fun kv => (fst kv, g (snd kv))) d) = total_of f d.
Proof.
  intros H. induction d as [|[k v] d IH]; simpl; [reflexivity|].
  rewrite !total_of_cons, IH, H. reflexivity.
Qed.

Lemma total_of_le {V : Type} (f g : V -> Z) (d : dict V) :
  (forall k v, In (k, v) d -> f v <= g v) -> total_of f d <= total_of g d.
Proof.
  induction d as [|[k v] d IH]; intros H; [reflexivity|].
  rewrite !total_of_cons.
  assert (f v <= g v) by (apply (H k); now left).
  assert (total_of f d <= total_of g d) by (apply IH; intros; apply (H k0); now right).
  lia.
Qed.

Lemma length_dict_set {V : Type} (d : dict V) (k : string) (v : V) :
  List.length (dict_set d k v)
  = if dict_contains d k then List.length d else S (List.length d).
Proof.
  unfold dict_contains. induction d as [|[k' v'] d IH]; simpl; [reflexivity|].
  destruct (String.eqb k' k); simpl; [reflexivity|].
  rewrite IH. now destruct (dict_get d k).
Qed.

Lemma length_dict_remove {V : Type} (d : dict V) (k : string) :
  dict_contains d k = true -> S (List.length (dict_remove d k)) = List.length d.
Proof.
  unfold dict_contains. induction d as [|[k' v'] d IH]; simpl; [discriminate|].
  destruct (String.eqb k' k); simpl; [reflexivity|].
  intros H. now rewrite IH.
Qed.

Lemma in_dict_remove {V : Type} (d : dict V) (k : string) (kv : string * V) :
  In kv (dict_remove d k) -> In kv d.
Proof.
  induction d as [|[k' v'] d IH]; simpl; [tauto|].
  destruct (String.eqb k' k); simpl; [auto|]. intros [H|H]; auto.
Qed.

Lemma dict_keys_remove_nodup {V : Type} (d : dict V) (k : string) :
  NoDup (dict_keys d) ->
  NoDup (dict_keys (dict_remove d k)) /\ ~ In k (dict_keys (dict_remove d k)).
Proof.
  unfold dict_keys. induction d as [|[k' v'] d IH]; simpl; intros Hnd.
  - split; [constructor|tauto].
  - inversion Hnd as [|? ? Hk Hnd']; subst.
    destruct (String.eqb_spec k' k) as [->|Hne]; [now split|].
    destruct (IH Hnd') as [IH1 IH2]. simpl. split.
    + constructor; [|exact IH1]. intros Hin. apply Hk.
      apply in_map_iff in Hin as (kv & <- & Hin). apply in_map.
      now apply in_dict_remove in Hin.
    + intros [H|H]; [congruence|now apply IH2].
Qed.

Lemma dict_get_remove_same {V : Type} (d : dict V) (k : string) :
  NoDup (dict_keys d) -> dict_get (dict_remove d k) k = None.
Proof.
  intros H. destruct (dict_keys_remove_nodup d k H) as [_ Hk].
  destruct (dict_get (dict_remove d k) k) eqn:E; [|reflexivity].
  exfalso. apply Hk. apply dict_get_keys. congruence.
Qed.

Lemma dict_get_remove_other {V : Type} (d : dict V) (k k' : string) :
  k <> k' -> dict_get (dict_remove d k) k' = dict_get d k'.
Proof.
  intros Hne. induction d as [|[k0 v0] d IH]; simpl; [reflexivity|].
  destruct (String.eqb_spec k0 k) as [->|Hk]; simpl.
  - destruct (String.eqb_spec k k'); [congruence|reflexivity].
  - destruct (String.eqb k0 k'); auto.
Qed.

Lemma dict_get_map {V : Type} (g : V -> V) (d : dict V) (k : string) :
  dict_get (map (fun kv => (fst kv, g (snd kv))) d) k = option_map g (dict_get d k).
Proof.
  induction d as [|[k' v] d IH]; simpl; [reflexivity|].
  destruct (String.eqb k' k); [reflexivity|exact IH].
Qed.

Lemma deque_append_bound {X : Type} (n : Z) (d : list X) (x : X) :
  1 <= n -> Z.of_nat (List.length d) <= n ->
  Z.of_nat (List.length (deque_append n d x)) <= n.
Proof.
  intros Hn H. unfold deque_append.
  destruct (n <=? Z.of_nat (List.length d)) eqn:E.
  - apply Z.leb_le in E. destruct d as [|y d]; [simpl; lia|].
    simpl tl. rewrite length_app. simpl List.length in *. lia.
  - apply Z.leb_gt in E. rewrite length_app. simpl. lia.
Qed.

Section Counted.
Variable A : Arith.

Lemma new_counted (retention_hours : Z) : counted A (new_monitor A retention_hours).
Proof.
  unfold counted. simpl.
  split; [intros ? ? []|]. split; [intros ? ? []|].
  split; [unfold total_of, int_sum; simpl; lia|].
  split; [constructor|lia].
Qed.

Lemma started_counted (m : MCPMonitor A) (now later : Z) (id v : string) (info : pyval) :
  counted A m -> counted A (track_connection_started A m now later id v info).
Proof.
  intros (Hacc & Hpm & Hlen & Hnd & Hhist).
  unfold track_connection_started, counted. simpl.
  set (old := dict_get_default (_protocol_metrics m) v (ProtocolMetrics.new A v)).
  assert (Hold : 0 <= ProtocolMetrics.active_connections old
                      <= ProtocolMetrics.total_connections old).
  { unfold old, dict_get_default.
    destruct (dict_get (_protocol_metrics m) v) as [pm|] eqn:E.
    - apply (Hpm v). now apply dict_get_in.
    - simpl. lia. }
  split; [|split; [|split; [|split]]].
  - intros id' c Hin. apply in_dict_set in Hin as [[= -> ->]|Hin]; simpl.
    + rewrite dict_get_set_same. eexists. split; [reflexivity|]. simpl. lia.
    + destruct (Hacc id' c Hin) as (pm & Hget & Hone).
      destruct (String.eqb_spec v (ConnectionMetrics.protocol_version c)) as [<-|Hne].
      * rewrite dict_get_set_same. eexists. split; [reflexivity|]. simpl. lia.
      * rewrite dict_get_set_other by exact Hne. eauto.
  - intros v' pm Hin. apply in_dict_set in Hin as [[= -> ->]|Hin]; simpl; [lia|].
    now apply (Hpm v').
  - rewrite total_of_set. simpl. rewrite length_dict_set.
    assert (Hsame : match dict_get (_protocol_metrics m) v with
                    | Some o => ProtocolMetrics.active_connections o
                    | None => 0
                    end = ProtocolMetrics.active_connections old).
    { unfold old, dict_get_default. now destruct (dict_get (_protocol_metrics m) v). }
    rewrite Hsame. destruct (dict_contains (_connections m) id); lia.
  - now apply dict_keys_set_nodup.
  - exact Hhist.
Qed.

Lemma ended_counted (m : MCPMonitor A) (now later : Z) (id : string) :
  counted A m -> counted A (track_connection_ended A m now later id).
Proof.
  intros H. pose proof H as (Hacc & Hpm & Hlen & Hnd & Hhist).
  unfold track_connection_ended.
  destruct (dict_get (_connections m) id) as [c0|] eqn:Eid; [|exact H].
  assert (Hin0 : In (id, c0) (_connections m)) by now apply dict_get_in.
  destruct (Hacc id c0 Hin0) as (pm0 & Hget0 & Hone0).
  rewrite Hget0. unfold counted. simpl.
  assert (Hpm0 := Hpm _ _ (dict_get_in _ _ _ Hget0)).
  split; [|split; [|split; [|split]]].
  - intros id' c Hin. apply in_dict_remove in Hin.
    destruct (Hacc id' c Hin) as (pm & Hget & Hone).
    destruct (String.eqb_spec (ConnectionMetrics.protocol_version c0)
                              (ConnectionMetrics.protocol_version c)) as [E|Hne].
    + rewrite E, dict_get_set_same. eexists. split; [reflexivity|]. simpl.
      rewrite E in Hget0. congruence.
    + rewrite dict_get_set_other by exact Hne. eauto.
  - intros v' pm Hin. apply in_dict_set in Hin as [[= -> ->]|Hin]; simpl; [lia|].
    now apply (Hpm v').
  - rewrite total_of_set, Hget0. simpl.
    assert (Hc : dict_contains (_connections m) id = true)
      by (unfold dict_contains; now rewrite Eid).
    pose proof (length_dict_remove _ _ Hc). lia.
  - now apply dict_keys_remove_nodup.
  - apply deque_append_bound; [lia|exact Hhist].
Qed.

Lemma message_counted (m : MCPMonitor A) (now : Z) (id type : string) (size : Z)
  (outbound : bool) :
  counted A m -> counted A (track_message A m now id type size outbound).
Proof.
  intros H. pose proof H as (Hacc & Hpm & Hlen & Hnd & Hhist).
  unfold track_message.
  destruct (dict_get (_connections m) id) as [c0|] eqn:Eid; [|exact H].
  assert (Hin0 : In (id, c0) (_connections m)) by now apply dict_get_in.
  destruct (Hacc id c0 Hin0) as (pm0 & Hget0 & Hone0).
  rewrite Hget0. unfold counted. simpl.
  assert (Hpm0 := Hpm _ _ (dict_get_in _ _ _ Hget0)).
  split; [|split; [|split; [|split]]].
  - intros id' c Hin.
    assert (Hold : exists c', In (id', c') (_connections m)
                              /\ ConnectionMetrics.protocol_version c'
                                 = ConnectionMetrics.protocol_version c).
    { apply in_dict_set in Hin as [[= -> ->]|Hin]; [exists c0; now split|eauto]. }
    destruct Hold as (c' & Hin' & <-).
    destruct (Hacc id' c' Hin') as (pm & Hget & Hone).
    destruct (String.eqb_spec (ConnectionMetrics.protocol_version c0)
                              (ConnectionMetrics.protocol_version c')) as [E|Hne].
    + rewrite E, dict_get_set_same. eexists. split; [reflexivity|]. simpl.
      rewrite E in Hget0. congruence.
    + rewrite dict_get_set_other by exact Hne. eauto.
  - intros v' pm Hin. apply in_dict_set in Hin as [[= -> ->]|Hin]; simpl; [lia|].
    now apply (Hpm v').
  - rewrite total_of_set, Hget0. simpl. rewrite length_dict_set.
    unfold dict_contains. rewrite Eid. lia.
  - now apply dict_keys_set_nodup.
  - exact Hhist.
Qed.

Lemma tool_call_counted (m : MCPMonitor A) (id tool : string) (x : num A) (success : bool)
  (error_type : option string) :
  counted A m -> counted A (track_tool_call A m id tool x success error_type).
Proof.
  intros H. pose proof H as (Hacc & Hpm & Hlen & Hnd & Hhist).
  unfold track_tool_call, counted. simpl.
  destruct (dict_get (_connections m) id) as [c0|] eqn:Eid; [|exact H].
  assert (Hin0 : In (id, c0) (_connections m)) by now apply dict_get_in.
  split; [|split; [|split; [|split]]]; try assumption.
  - intros id' c Hin.
    apply in_dict_set in Hin as [[= -> ->]|Hin]; [|eauto].
    exact (Hacc id c0 Hin0).
  - rewrite length_dict_set. unfold dict_contains. now rewrite Eid.
  - now apply dict_keys_set_nodup.
Qed.

Lemma handshake_failure_counted (m : MCPMonitor A) (v reason : string) :
  counted A m -> counted A (track_handshake_failure A m v reason).
Proof.
  intros (Hacc & Hpm & Hlen & Hnd & Hhist).
  unfold track_handshake_failure, counted. simpl.
  set (old := dict_get_default (_protocol_metrics m) v (ProtocolMetrics.new A v)).
  split; [|split; [|split; [|split]]]; try assumption.
  - intros id c Hin. destruct (Hacc id c Hin) as (pm & Hget & Hone).
    destruct (String.eqb_spec v (ConnectionMetrics.protocol_version c)) as [E|Hne].
    + rewrite <- E in *. rewrite dict_get_set_same. eexists. split; [reflexivity|].
      unfold old, dict_get_default. rewrite Hget. exact Hone.
    + rewrite dict_get_set_other by exact Hne. eauto.
  - intros v' pm Hin. apply in_dict_set in Hin as [[= -> ->]|Hin]; [|now apply (Hpm v')].
    unfold old, dict_get_default.
    destruct (dict_get (_protocol_metrics m) v) as [pm|] eqn:E; simpl; [|lia].
    apply (Hpm v). now apply dict_get_in.
  - rewrite total_of_set. simpl.
    replace (ProtocolMetrics.active_connections old)
      with (match dict_get (_protocol_metrics m) v with
            | Some o => ProtocolMetrics.active_connections o
            | None => 0
            end); [lia|].
    unfold old, dict_get_default. now destruct (dict_get (_protocol_metrics m) v).
Qed.

Lemma negotiation_failure_counted (m : MCPMonitor A) (cv : pyval) (reason : string) :
  counted A m -> counted A (track_negotiation_failure A m cv reason).
Proof.
  intros (Hacc & Hpm & Hlen & Hnd & Hhist).
  unfold track_negotiation_failure, counted. simpl.
  split; [|split; [|split; [|split]]]; try assumption.
  - intros id c Hin. destruct (Hacc id c Hin) as (pm & Hget & Hone).
    rewrite (dict_get_map (bump_negotiation_failures A)), Hget. simpl.
    eexists. split; [reflexivity|exact Hone].
  - intros v' pm Hin. apply in_map_iff in Hin as ([k pm'] & [= <- <-] & Hin).
    simpl. now apply (Hpm k).
  - rewrite (total_of_map _ (bump_negotiation_failures A)); [exact Hlen|reflexivity].
Qed.

Lemma threshold_counted (m : MCPMonitor A) (name : string) (value : num A) :
  counted A m -> counted A (set_alert_threshold A m name value).
Proof.
  intros H. unfold set_alert_threshold.
  repeat (destruct (String.eqb name _); [exact H|]). exact H.
Qed.

Lemma apply_event_counted (m : MCPMonitor A) (e : monitor_event A) :
  counted A m -> counted A (apply_event A m e).
Proof.
  intros H. destruct e; simpl.
  - now apply started_counted.
  - now apply ended_counted.
  - now apply message_counted.
  - now apply tool_call_counted.
  - now apply handshake_failure_counted.
  - now apply negotiation_failure_counted.
  - now apply threshold_counted.
Qed.

Lemma run_events_counted (retention_hours : Z) (events : list (monitor_event A)) :
  counted A (run_events A retention_hours events).
Proof.
  unfold run_events. generalize (new_counted retention_hours).
  generalize (new_monitor A retention_hours).
  induction events as [|e es IH]; intros m Hm; simpl; [exact Hm|].
  apply IH. now apply apply_event_counted.
Qed.

End Counted.

End CounterFacts.

(** ** The monitor's reports *)

Module ReportFacts.
Import Py.
Import Monitor.
Import MonitorSpec.
Import MonitorInv.
Import PyFacts.
Import DictFacts.
Import CounterFacts.

(** X11.  After any run of events the connection counters fit together.  A
    tracked connection's version has protocol metrics with at least one
    connection in total, so [track_connection_ended] never divides by
    zero; a version never has fewer than no active connections, or more
    than it had connections; and the three counts of the two reports are
    in order: the tracked connections ("active" of the summary) are at
    most the sum of the versions' active connections
    ("active_connections" of every health status that is returned),
    which is at most the connections since the start. *)
Theorem connection_counters_fit :
  forall (A : Arith) (timedelta_us : num A -> result Z) (retention_hours : Z)
         (events : list (monitor_event A)) (now later : Z),
    let m := run_events A retention_hours events in
    (forall id c, dict_get (_connections m) id = Some c ->
       exists pm,
         dict_get (_protocol_metrics m) (ConnectionMetrics.protocol_version c) = Some pm
         /\ 1 <= ProtocolMetrics.total_connections pm)
    /\ (forall v pm, dict_get (_protocol_metrics m) v = Some pm ->
          0 <= ProtocolMetrics.active_connections pm
            <= ProtocolMetrics.total_connections pm)
    /\ ms_active (get_metrics_summary A m now later) <= total_active_connections A m
    /\ total_active_connections A m
       <= ms_total_since_start (get_metrics_summary A m now later)
    /\ (forall report,
          get_health_status A timedelta_us m now = Ok report ->
          ms_active (get_metrics_summary A m now later) <= active_connections report
          /\ active_connections report
             <= ms_total_since_start (get_metrics_summary A m now later)).
Proof.
  intros A td rh events now later m.
  destruct (run_events_counted A rh events) as (Hacc & Hpm & Hlen & _ & _).
  fold m in Hacc, Hpm, Hlen.
  assert (Hle : total_active_connections A m
                <= ms_total_since_start (get_metrics_summary A m now later)).
  { simpl. apply (total_of_le ProtocolMetrics.active_connections
                              ProtocolMetrics.total_connections).
    intros k v Hin. now apply (Hpm k). }
  split; [|split; [|split; [|split]]].
  - intros id c H. apply (Hacc id). now apply dict_get_in.
  - intros v pm H. apply (Hpm v). now apply dict_get_in.
  - exact Hlen.
  - exact Hle.
  - intros report Hr. unfold get_health_status in Hr.
    destruct (stale_cutoff A td m now); simpl in Hr; [|discriminate].
    injection Hr as <-. simpl active_connections. split; [exact Hlen|exact Hle].
Qed.

Lemma deque_of_short {X : Type} (n : Z) (l acc : list X) :
  Z.of_nat (List.length acc) + Z.of_nat (List.length l) <= n ->
  fold_left (deque_append n) l acc = acc ++ l.
Proof.
  revert acc. induction l as [|x l IH]; intros acc H; simpl.
  - now rewrite app_nil_r.
  - unfold deque_append at 2.
    destruct (n <=? Z.of_nat (List.length acc)) eqn:E.
    + apply Z.leb_le in E. simpl List.length in H. lia.
    + rewrite IH.
      * now rewrite <- app_assoc.
      * rewrite length_app. simpl List.length in *. lia.
Qed.

Lemma filter_length_le {X : Type} (f : X -> bool) (l : list X) :
  (List.length (filter f l) <= List.length l)%nat.
Proof.
  induction l as [|x l IH]; simpl; [lia|]. destruct (f x); simpl; lia.
Qed.

Lemma filter_idem {X : Type} (f : X -> bool) (l : list X) :
  filter f (filter f l) = filter f l.
Proof.
  induction l as [|x l IH]; simpl; [reflexivity|].
  destruct (f x) eqn:E; simpl; [rewrite E|]; now rewrite ?IH.
Qed.

(** X12.  [cleanup_old_data], when it returns, keeps exactly the entries of
    the history that ended after [now] minus the retention time, in
    their order, and nothing else of the monitor changes; cleaning up
    again at the same time changes nothing more.  The history never
    holds more than 10000 entries. *)
Theorem cleanup_keeps_recent_history :
  forall (A : Arith) (retention_hours : Z) (events : list (monitor_event A)) (now : Z)
         (m' : MCPMonitor A),
    let m := run_events A retention_hours events in
    cleanup_old_data A m now = Ok m' ->
    _connection_history m'
    = filter (fun entry => now - _retention_hours m * 3600000000 <? h_ended_at A entry)
             (_connection_history m)
    /\ Z.of_nat (List.length (_connection_history m)) <= 10000
    /\ _connections m' = _connections m
    /\ _tool_metrics m' = _tool_metrics m
    /\ _protocol_metrics m' = _protocol_metrics m
    /\ _alert_thresholds m' = _alert_thresholds m
    /\ cleanup_old_data A m' now = Ok m'.
Proof.
  intros A h events now m' m.
  destruct (run_events_counted A h events) as (_ & _ & _ & _ & Hhist). fold m in Hhist.
  unfold cleanup_old_data.
  destruct (timedelta_hours (_retention_hours m)) as [retention|e] eqn:Er;
    simpl; [|discriminate].
  destruct (datetime_sub now retention) as [cutoff|e] eqn:Ec; simpl; [|discriminate].
  assert (Hret : retention = _retention_hours m * 3600000000).
  { unfold timedelta_hours in Er.
    destruct (_ || _); [discriminate|]. destruct (_ || _); [discriminate|].
    now injection Er as <-. }
  assert (Hcut : cutoff = now - retention).
  { unfold datetime_sub in Ec. destruct (_ || _); [discriminate|]. now injection Ec as <-. }
  set (f := fun entry => cutoff <? h_ended_at A entry).
  assert (Hshort : deque_of 10000 (filter f (_connection_history m))
                   = filter f (_connection_history m)).
  { unfold deque_of. rewrite deque_of_short; [reflexivity|].
    pose proof (filter_length_le f (_connection_history m)). simpl List.length. lia. }
  intros [= <-]. simpl. rewrite Er. simpl. rewrite Ec. simpl.
  fold f. rewrite Hshort. subst cutoff retention.
  repeat split; try assumption.
  rewrite filter_idem, Hshort. reflexivity.
Qed.

Lemma cleanup_keeps_recent_history_witness :
  exists m',
    cleanup_old_data Exact.arith
      (run_events Exact.arith 1
         [ ConnectionStarted Exact.arith 0 1 "a" "1.0" (PDict []);
           ConnectionStarted Exact.arith 10 11 "b" "1.0" (PDict []);
           ConnectionEnded Exact.arith 1000000 1000001 "a";
           ConnectionEnded Exact.arith 5000000000 5000000001 "b" ])
      7000000000 = Ok m'
    /\ map (h_connection_id Exact.arith) (_connection_history m') = ["b"].
Proof.
  eexists. split; [reflexivity|].
  match goal with
  | |- map _ (_connection_history ?m') = _ =>
      destruct (cleanup_keeps_recent_history Exact.arith 1
                  [ ConnectionStarted Exact.arith 0 1 "a" "1.0" (PDict []);
                    ConnectionStarted Exact.arith 10 11 "b" "1.0" (PDict []);
                    ConnectionEnded Exact.arith 1000000 1000001 "a";
                    ConnectionEnded Exact.arith 5000000000 5000000001 "b" ]
                  7000000000 m' eq_refl) as (H & _)
  end.
  rewrite H. reflexivity.
Defined.

(** X13.  A connection's details are what was tracked for it.  The
    clock is read twice when a connection starts and twice when it ends.
    Right after [track_connection_started] the details show the version
    and client given, no messages, bytes or errors, the first reading as
    the time of the start and the second as the last activity; after
    [track_connection_ended] there are none, and the history ends with
    the connection's entry, whose duration runs to the first reading
    and whose end is the second; the details of every other connection
    are what they were. *)
Theorem connection_details_round_trip :
  forall (A : Arith) (retention_hours : Z) (events : list (monitor_event A))
         (started active ended stored later : Z) (id version : string)
         (client_info : pyval),
    let m := run_events A retention_hours events in
    get_connection_details A
      (track_connection_started A m started active id version client_info) later id
    = Some {| cd_connection_id := id;
              cd_protocol_version := version;
              cd_client_info := client_info;
              cd_connected_at := started;
              cd_duration_seconds := total_seconds A (later - started);
              cd_message_count := 0;
              cd_bytes_sent := 0;
              cd_bytes_received := 0;
              cd_errors := 0;
              cd_last_activity := active;
              cd_tool_calls := [];
              cd_avg_response_time := zero A |}
    /\ get_connection_details A (track_connection_ended A m ended stored id) later id = None
    /\ (forall d, get_connection_details A m later id = Some d ->
          exists earlier entry,
            _connection_history (track_connection_ended A m ended stored id)
            = earlier ++ [entry]
            /\ h_connection_id A entry = id
            /\ h_protocol_version A entry = cd_protocol_version d
            /\ h_message_count A entry = cd_message_count d
            /\ h_errors A entry = cd_errors d
            /\ h_duration A entry = total_seconds A (ended - cd_connected_at d)
            /\ h_ended_at A entry = stored)
    /\ (forall other, other <> id ->
          get_connection_details A
            (track_connection_started A m started active id version client_info) later other
          = get_connection_details A m later other
          /\ get_connection_details A (track_connection_ended A m ended stored id) later other
             = get_connection_details A m later other).
Proof.
  intros A h events started active ended stored later id version info m.
  destruct (run_events_counted A h events) as (_ & _ & _ & Hnd & _). fold m in Hnd.
  split; [|split; [|split]].
  - unfold get_connection_details, track_connection_started. simpl.
    now rewrite dict_get_set_same.
  - unfold get_connection_details, track_connection_ended.
    destruct (dict_get (_connections m) id) as [c|] eqn:E; simpl.
    + now rewrite dict_get_remove_same.
    + now rewrite E.
  - unfold get_connection_details, track_connection_ended.
    destruct (dict_get (_connections m) id) as [c|] eqn:E; [|discriminate].
    intros d [= <-]. simpl.
    unfold deque_append. destruct (10000 <=? _); eexists _, _; (split; [reflexivity|]);
      simpl; repeat split.
  - intros other Hne. split.
    + unfold get_connection_details, track_connection_started. simpl.
      rewrite dict_get_set_other by congruence. reflexivity.
    + unfold get_connection_details, track_connection_ended.
      destruct (dict_get (_connections m) id) as [c|] eqn:E; [|reflexivity].
      simpl. rewrite dict_get_remove_other by congruence. reflexivity.
Qed.

(** *** The overall error rate *)

Lemma tools_distinct (A : Arith) (retention_hours : Z) (events : list (monitor_event A)) :
  NoDup (dict_keys (_tool_metrics (run_events A retention_hours events))).
Proof.
  unfold run_events.
  assert (H0 : NoDup (dict_keys (_tool_metrics (new_monitor A retention_hours))))
    by constructor.
  revert H0. generalize (new_monitor A retention_hours).
  induction events as [|e es IH]; intros m Hm; simpl; [exact Hm|].
  apply IH. pose proof (MetricsFacts.tool_metrics_unchanged A m e) as Hun.
  destruct e; try (rewrite Hun; exact Hm).
  simpl. unfold track_tool_call. simpl. now apply dict_keys_set_nodup.
Qed.

Lemma tools_account (A : Arith) (retention_hours : Z) (events : list (monitor_event A)) :
  forall name t, In (name, t) (_tool_metrics (run_events A retention_hours events)) ->
                 metrics_account A t.
Proof.
  intros name t Hin.
  apply (MetricsFacts.run_events_account A retention_hours events name).
  apply in_dict_get; [apply tools_distinct|exact Hin].
Qed.

Section ErrorRate.
Variable A : Arith.

(** The tool calls among some events, and the failed ones. *)
Lemma totals_from (events : list (monitor_event A)) (m : MCPMonitor A) :
  total_of ToolMetrics.total_calls (_tool_metrics (fold_left (apply_event A) events m))
  = total_of ToolMetrics.total_calls (_tool_metrics m)
    + Z.of_nat (List.length
                  (filter (fun e => match e with
                                    | ToolCall _ _ _ _ _ _ => true
                                    | _ => false
                                    end) events))
  /\ total_of ToolMetrics.failed_calls (_tool_metrics (fold_left (apply_event A) events m))
     = total_of ToolMetrics.failed_calls (_tool_metrics m)
       + Z.of_nat (List.length
                     (filter (fun e => match e with
                                       | ToolCall _ _ _ _ success _ => negb success
                                       | _ => false
                                       end) events)).
Proof.
  revert m. induction events as [|e es IH]; intros m; [simpl; lia|].
  cbn [fold_left]. destruct (IH (apply_event A m e)) as [IH1 IH2].
  rewrite IH1, IH2. clear IH IH1 IH2.
  pose proof (MetricsFacts.tool_metrics_unchanged A m e) as Hun.
  destruct e as [| | |c tool x success error_type| | |]; cbn [filter];
    try (rewrite Hun; lia).
  clear Hun. cbn [apply_event]. unfold track_tool_call. cbn [_tool_metrics with_tool_metrics].
  rewrite !total_of_set. unfold dict_get_default.
  destruct (dict_get (_tool_metrics m) tool) as [t|]; destruct success;
    cbn [update_tool_metrics ToolMetrics.total_calls ToolMetrics.failed_calls
         ToolMetrics.new negb List.length];
    lia.
Qed.

(** X14.  The overall error rate of the summary is taken over every
    tool call ever tracked, not over the window.  After any run of
    events, in whatever arithmetic, [_calculate_overall_error_rate] is
    [0.0] when no tool call has been tracked and otherwise the quotient
    [failures / calls] of two ints: the number of tracked tool calls
    that failed and the number of all tracked tool calls, so that
    [0 <= failures <= calls]; the summary's "error_rate" is that
    number. *)
Theorem overall_error_rate_counts_every_call :
  forall (retention_hours : Z) (events : list (monitor_event A)) (now later : Z),
    let m := run_events A retention_hours events in
    let calls :=
      Z.of_nat (List.length
                  (filter (fun e => match e with
                                    | ToolCall _ _ _ _ _ _ => true
                                    | _ => false
                                    end) events)) in
    let failures :=
      Z.of_nat (List.length
                  (filter (fun e => match e with
                                    | ToolCall _ _ _ _ success _ => negb success
                                    | _ => false
                                    end) events)) in
    0 <= failures <= calls
    /\ _calculate_overall_error_rate A m
       = (if calls =? 0 then zero A else div A (of_int A failures) (of_int A calls))
    /\ ms_error_rate (get_metrics_summary A m now later)
       = _calculate_overall_error_rate A m.
Proof.
  intros rh events now later m calls failures.
  destruct (totals_from events (new_monitor A rh)) as [Hc Hf].
  change (fold_left (apply_event A) events (new_monitor A rh)) with m in Hc, Hf.
  change (total_of ToolMetrics.total_calls (_tool_metrics (new_monitor A rh))) with 0 in Hc.
  change (total_of ToolMetrics.failed_calls (_tool_metrics (new_monitor A rh))) with 0 in Hf.
  fold calls in Hc. fold failures in Hf.
  split; [|split; [|reflexivity]].
  - split; [subst failures; lia|]. subst calls failures.
    clear. induction events as [|e es IH]; simpl; [lia|].
    destruct e as [| | |c tool x [|] error_type| | |]; simpl; lia.
  - unfold _calculate_overall_error_rate.
    fold (total_of ToolMetrics.total_calls (_tool_metrics m)).
    fold (total_of ToolMetrics.failed_calls (_tool_metrics m)).
    rewrite Hc, Hf. reflexivity.
Qed.

End ErrorRate.

End ReportFacts.

(** ** What the server's coroutines change *)

Module StepFacts.
Import Py.
Import Registry.
Import Negotiator.
Import Server.
Import ServerInv.

Local Open Scope server_scope.

Lemma step_refl (r d : bool) (s : state) : step r d s s.
Proof.
  constructor; try reflexivity; try lia; try (exists []; now rewrite ?app_nil_r); auto.
Qed.

Lemma step_trans (r d : bool) (s1 s2 s3 : state) :
  step r d s1 s2 -> step r d s2 s3 -> step r d s1 s3.
Proof.
  intros [a1 a2 a3 a4 a5 a6 a7 a8 a0 [x9 a9] [x10 a10] [x11 a11] [x12 a12] a13 a14 a15]
         [b1 b2 b3 b4 b5 b6 b7 b8 b0 [y9 b9] [y10 b10] [y11 b11] [y12 b12] b13 b14 b15].
  constructor; try congruence; try lia.
  - destruct b0 as [b0|b0]; [|now right]. rewrite b0. exact a0.
  - exists (x9 ++ y9). rewrite b9, a9. now rewrite app_assoc.
  - exists (x10 ++ y10). rewrite b10, a10. now rewrite app_assoc.
  - exists (x11 ++ y11). rewrite a11, b11. now rewrite app_assoc.
  - exists (x12 ++ y12). rewrite b12, a12. now rewrite app_assoc.
  - intros H. destruct (a14 H) as (? & ? & ?), (b14 H) as (? & ? & ?).
    repeat split; congruence.
  - intros H. destruct (a15 H), (b15 H). split; congruence.
Qed.

Lemma step_weaken (r d r' d' : bool) (s s' : state) :
  (r' = false -> r = false) -> (d' = false -> d = false) ->
  step r d s s' -> step r' d' s s'.
Proof.
  intros Hr Hd [a1 a2 a3 a4 a5 a6 a7 a8 a0 a9 a10 a11 a12 a13 a14 a15].
  constructor; auto.
Qed.

Lemma step_quietest (r d : bool) (s s' : state) : step false false s s' -> step r d s s'.
Proof. apply step_weaken; auto. Qed.

Section Combinators.
Context {X Y : Type}.
Variables r d : bool.

Lemma runs_ret (x : X) : runs r d (ret x).
Proof. intros s. apply step_refl. Qed.

Lemma runs_raise (e : exn) : runs r d (@raise X e).
Proof. intros s. apply step_refl. Qed.

Lemma runs_bind (m : M X) (k : X -> M Y) :
  runs r d m -> (forall x, runs r d (k x)) -> runs r d (mbind m k).
Proof.
  intros Hm Hk s. unfold mbind. specialize (Hm s).
  destruct (m s) as [[x|e] s1]; simpl in *; [|exact Hm].
  exact (step_trans _ _ _ _ _ Hm (Hk x s1)).
Qed.

Lemma runs_try_except (m : M X) (h : exn -> M X) :
  runs r d m -> (forall e, runs r d (h e)) -> runs r d (try_except m h).
Proof.
  intros Hm Hh s. unfold try_except. specialize (Hm s).
  destruct (m s) as [[x|e] s1]; simpl in *; [exact Hm|].
  exact (step_trans _ _ _ _ _ Hm (Hh e s1)).
Qed.

End Combinators.

Lemma runs_get (r d : bool) : runs r d get.
Proof. intros s. apply step_refl. Qed.

Ltac quiet_step :=
  apply step_quietest; constructor; simpl;
  try reflexivity; try lia;
  try (left; reflexivity);
  try (exists []; now rewrite ?app_nil_r);
  try (eexists; reflexivity);
  try (intros _; repeat split; reflexivity).

Lemma runs_monitor (r d : bool) (call : monitor_call) : runs r d (monitor call).
Proof. intros s. unfold monitor, modify. quiet_step. Qed.

Lemma runs_send_message (r d : bool) (message : dict pyval) : runs r d (send_message message).
Proof.
  intros s. unfold send_message, mbind, get, send_text_json, modify, raise.
  destruct (is_connected (client_state (websocket s))); [|apply step_refl].
  destruct (json_serialisable (PDict message)); [|apply step_refl].
  unfold with_sent. quiet_step.
Qed.

Lemma runs_set_negotiated (r d : bool) (version : string) : runs r d (set_negotiated version).
Proof. intros s. unfold set_negotiated, modify. quiet_step. Qed.

Lemma runs_set_client_info (r d : bool) (info : pyval) : runs r d (set_client_info info).
Proof. intros s. unfold set_client_info, modify. quiet_step. Qed.

Lemma runs_count_message (r d : bool) : runs r d count_message.
Proof. intros s. unfold count_message, modify. quiet_step. Qed.

Section WithRuntime.
Variable json_loads : string -> option pyval.
Variable json_error_text : string -> string.
Variable py_str : pyval -> string.
Variable isoformat : Z -> string.
Variable set_order : list string -> list string.

Lemma runs_timestamp (r d : bool) : runs r d (timestamp isoformat).
Proof. intros s. apply step_refl. Qed.

Lemma runs_receive_message (d : bool) :
  runs true d (receive_message json_loads json_error_text).
Proof.
  intros s. unfold receive_message, mbind, get, receive_text, modify, raise, ret.
  destruct (is_connected (client_state (websocket s))); [|apply step_refl].
  apply (step_weaken true false); auto.
  destruct (inbox (websocket s)) as [|[raw|] rest] eqn:Ei; simpl;
    [|destruct (json_loads raw) as [[]|]; simpl|];
    (constructor; simpl; try reflexivity; try lia;
     try (left; reflexivity); try (right; reflexivity);
     try (exists []; now rewrite ?app_nil_r); try discriminate; auto;
     first [ exists []; now rewrite Ei
           | exists [Frame raw]; now rewrite Ei
           | exists [Disconnect]; now rewrite Ei ]).
Qed.

Lemma runs_dispatch (r : bool) (adapter : ProtocolAdapter) (tool : string)
  (parameters : pyval) : runs r true (dispatch adapter tool parameters).
Proof.
  intros s. unfold dispatch, mbind, modify, ret. simpl.
  apply (step_weaken false true); auto.
  constructor; simpl; try reflexivity; try lia; try (exists []; now rewrite ?app_nil_r);
    try discriminate; auto.
  eexists. reflexivity.
Qed.

Ltac run :=
  repeat first
    [ apply runs_ret
    | apply runs_raise
    | apply runs_get
    | apply runs_monitor
    | apply runs_send_message
    | apply runs_timestamp
    | apply runs_set_negotiated
    | apply runs_set_client_info
    | apply runs_count_message
    | apply runs_dispatch
    | apply runs_receive_message
    | apply runs_bind; [|intros ?]
    | apply runs_try_except; [|intros ?]
    | match goal with
      | |- runs _ _ (if ?c then _ else _) => destruct c
      | |- runs _ _ (match ?x with _ => _ end) => destruct x
      end ].

Lemma runs_handle_tool_call (r : bool) (adapter : ProtocolAdapter) (message : dict pyval) :
  runs r true (_handle_tool_call py_str isoformat adapter message).
Proof. unfold _handle_tool_call. run. Qed.

Lemma runs_handle_get_capabilities (r d : bool) (adapter : ProtocolAdapter)
  (message : dict pyval) : runs r d (_handle_get_capabilities adapter message).
Proof. unfold _handle_get_capabilities. run. Qed.

Lemma runs_handle_get_protocol_info (r d : bool) (message : dict pyval) :
  runs r d (_handle_get_protocol_info message).
Proof. unfold _handle_get_protocol_info. run. Qed.

Lemma runs_handle_message (r : bool) (adapter : ProtocolAdapter) (message : dict pyval) :
  runs r true (_handle_message py_str isoformat adapter message).
Proof.
  unfold _handle_message. apply runs_try_except; [|intros e; run].
  destruct (is_str _ "tool_call"); [apply runs_handle_tool_call|].
  destruct (is_str _ "ping"); [run|].
  destruct (is_str _ "get_capabilities"); [apply runs_handle_get_capabilities|].
  destruct (is_str _ "get_protocol_info"); [apply runs_handle_get_protocol_info|].
  run.
Qed.

Lemma runs_process_message (r : bool) (adapter : ProtocolAdapter) (message : dict pyval) :
  runs r true (process_message py_str isoformat adapter message).
Proof.
  unfold process_message.
  apply runs_bind; [run|intros _].
  apply runs_bind; [run|intros s0].
  apply runs_bind; [run|intros _].
  apply runs_bind; [apply runs_handle_message|intros response].
  destruct response; run.
Qed.

Lemma runs_message_processing_error (r d : bool) (e : exn) (message : option (dict pyval)) :
  runs r d (message_processing_error isoformat e message).
Proof. unfold message_processing_error. run. Qed.

Lemma runs_message_loop_turn (adapter : ProtocolAdapter) (message : option (dict pyval)) :
  runs true true (message_loop_turn json_loads json_error_text py_str isoformat
                                    adapter message).
Proof.
  intros s. unfold message_loop_turn.
  pose proof (runs_receive_message true s) as H1.
  destruct (receive_message json_loads json_error_text s) as [[received|e] s1]; simpl in *.
  - pose proof (runs_process_message true adapter received s1) as H2.
    destruct (process_message py_str isoformat adapter received s1) as [[u|e] s2];
      simpl in *.
    + exact (step_trans _ _ _ _ _ H1 H2).
    + pose proof (runs_message_processing_error true true e (Some received) s2) as H3.
      destruct e; simpl; try exact (step_trans _ _ _ _ _ H1 (step_trans _ _ _ _ _ H2 H3)).
      exact (step_trans _ _ _ _ _ H1 H2).
  - pose proof (runs_message_processing_error true true e message s1) as H3.
    destruct e; simpl; try exact (step_trans _ _ _ _ _ H1 H3).
    exact H1.
Qed.

Lemma runs_message_loop_turns (turns : nat) (adapter : ProtocolAdapter)
  (message : option (dict pyval)) :
  runs true true (message_loop_turns json_loads json_error_text py_str isoformat
                                     turns adapter message).
Proof.
  revert message. induction turns as [|n IH]; intros message; simpl; [run|].
  apply runs_bind; [apply runs_message_loop_turn|intros [m'|]]; [apply IH|run].
Qed.

Lemma runs_message_loop :
  runs true true (_message_loop json_loads json_error_text py_str isoformat).
Proof.
  unfold _message_loop. apply runs_bind; [run|intros s0].
  destruct (match negotiated_version (connection s0) with
            | Some v => get_adapter (Server._registry (server s0)) v
            | None => None
            end); [apply runs_message_loop_turns|run].
Qed.

Lemma runs_perform_handshake (d : bool) :
  runs true d (_perform_handshake json_loads json_error_text py_str set_order).
Proof.
  unfold _perform_handshake.
  apply runs_bind; [run|intros message].
  destruct (negb _); [run|].
  apply runs_bind; [run|intros _].
  apply runs_bind; [run|intros s0].
  apply runs_bind.
  - destruct (negotiate_protocol _ _ _ _) as [version|[]]; run.
  - intros version. destruct (get_adapter _ version); run.
Qed.

Lemma runs_on_error (r d : bool) (e : exn) : runs r d (on_error isoformat e).
Proof. unfold on_error. destruct e; unfold swallow; run. Qed.

End WithRuntime.

End StepFacts.

(** ** The life of a connection *)

Module LifecycleFacts.
Import Py.
Import Registry.
Import Negotiator.
Import Server.
Import ServerInv.
Import StepFacts.

Local Open Scope server_scope.

Section WithRuntime.
Variable json_loads : string -> option pyval.
Variable json_error_text : string -> string.
Variable py_str : pyval -> string.
Variable isoformat : Z -> string.
Variable set_order : list string -> list string.

(** From the registration of the connection to the end of the [try]
    and its [except] clauses. *)
Lemma served (s : state) :
  exists u s3,
    try_except (serve json_loads json_error_text py_str isoformat set_order)
               (on_error isoformat) s = (Ok u, s3)
    /\ step true true (snd (register_connection s)) s3.
Proof.
  unfold try_except, serve.
  match goal with
  | |- context [mbind register_connection ?K s] =>
      change (mbind register_connection K s) with (K tt (snd (register_connection s)));
      cbv beta;
      assert (H : runs true true (K tt))
        by (apply runs_bind; [apply runs_perform_handshake|intros _];
            apply runs_bind; [apply runs_get|intros s0];
            apply runs_bind; [apply runs_monitor|intros _];
            apply runs_bind; [apply runs_message_loop|intros _];
            apply runs_ret);
      specialize (H (snd (register_connection s)));
      destruct (K tt (snd (register_connection s))) as [[u|e] s3]
  end; simpl in H.
  - exists u, s3. now split.
  - pose proof (runs_on_error isoformat true true e s3) as H'.
    destruct (on_error isoformat e s3) as [r s4] eqn:E. simpl in H'.
    assert (Hr : r = Ok tt).
    { destruct e; unfold on_error, swallow, try_except, ret in E;
        try (injection E as <- _; reflexivity);
        destruct (mbind _ _ s3) as [[[]|e'] s5]; injection E as <- _; reflexivity. }
    subst r. exists tt, s4. split; [reflexivity|].
    exact (step_trans _ _ _ _ _ H H').
Qed.

Lemma cleanup_spec (s : state) :
  exists s',
    cleanup s = (Ok tt, s')
    /\ monitor_log s' = monitor_log s ++ [track_connection_ended (connection_id (connection s))]
    /\ _connections (server s')
       = filter (fun c => negb (String.eqb c (connection_id (connection s))))
                (_connections (server s))
    /\ Server._registry (server s') = Server._registry (server s)
    /\ _negotiator (server s') = _negotiator (server s)
    /\ _max_connections (server s') = _max_connections (server s)
    /\ _total_connections (server s') = _total_connections (server s)
    /\ _total_messages (server s') = _total_messages (server s)
    /\ connection s' = connection s
    /\ sent (websocket s') = sent (websocket s)
    /\ inbox (websocket s') = inbox (websocket s)
    /\ dispatched s' = dispatched s
    /\ (client_state (websocket s) = CONNECTED ->
        client_state (websocket s') = DISCONNECTED
        /\ closed (websocket s') = Some (1000, ""))
    /\ (client_state (websocket s) <> CONNECTED -> websocket s' = websocket s).
Proof.
  unfold cleanup, mbind, get, monitor, forget_connection, modify, swallow, try_except,
    close, ret.
  simpl. destruct s as [srv c [cs ib st cl] clk d ml]. simpl.
  destruct cs; simpl; eexists; (split; [reflexivity|]); simpl;
    repeat split; try discriminate; try congruence.
Qed.

Lemma filter_out_last (id : string) (l : list string) :
  filter (fun c => negb (String.eqb c id)) (l ++ [id])
  = filter (fun c => negb (String.eqb c id)) l.
Proof. rewrite filter_app. simpl. rewrite String.eqb_refl. simpl. apply app_nil_r. Qed.

(** X15.  [handle_connection] never lets an exception out, whatever the
    client sends.  When the server is full it closes the transport with
    code 1013 and touches nothing else.  Otherwise the connection is
    registered, counted once, and, at the end, taken out of the table
    again; the transport is no longer connected; the last thing the
    monitor is told is that the connection ended; and the registry, the
    negotiator, the limit and the other connections of the table are
    what they were. *)
Theorem connection_is_always_cleaned_up :
  forall (v : MCPServer) (id : string) (frames : list incoming) (now : Z),
    let final := handle_connection json_loads json_error_text py_str isoformat set_order
                   (arrival v id frames now) in
    fst final = Ok tt
    /\ client_state (websocket (snd final)) = DISCONNECTED
    /\ Server._registry (server (snd final)) = Server._registry v
    /\ _negotiator (server (snd final)) = _negotiator v
    /\ _max_connections (server (snd final)) = _max_connections v
    /\ (_max_connections v <= Z.of_nat (List.length (_connections v)) ->
        server (snd final) = v
        /\ closed (websocket (snd final)) = Some (1013, "Server overloaded")
        /\ sent (websocket (snd final)) = []
        /\ inbox (websocket (snd final)) = frames
        /\ monitor_log (snd final) = []
        /\ dispatched (snd final) = [])
    /\ (Z.of_nat (List.length (_connections v)) < _max_connections v ->
        _connections (server (snd final))
        = filter (fun c => negb (String.eqb c id)) (_connections v)
        /\ _total_connections (server (snd final)) = _total_connections v + 1
        /\ (closed (websocket (snd final)) = None
            \/ closed (websocket (snd final)) = Some (1000, ""))
        /\ exists log,
             monitor_log (snd final) = log ++ [track_connection_ended id]).
Proof.
  intros v id frames now final. subst final.
  unfold handle_connection, mbind, get. cbv beta iota.
  change (_max_connections (server (arrival v id frames now))) with (_max_connections v).
  change (_connections (server (arrival v id frames now))) with (_connections v).
  destruct (_max_connections v <=? Z.of_nat (List.length (_connections v))) eqn:Efull.
  - apply Z.leb_le in Efull. unfold close, modify. simpl.
    repeat split; try reflexivity; exfalso; lia.
  - apply Z.leb_gt in Efull.
    change (accept (arrival v id frames now))
      with (Ok tt, snd (accept (arrival v id frames now))).
    cbv beta iota.
    set (s1 := snd (accept (arrival v id frames now))).
    unfold try_finally.
    destruct (served s1) as (u & s3 & -> & Hstep).
    destruct (cleanup_spec s3)
      as (s4 & -> & Hlog & Hconns & Hreg & Hneg & Hlim & Htot & _ & _ & _ & _ & _
          & Hopen & Hshut).
    simpl.
    destruct Hstep as [a1 a2 a3 a4 a5 a6 a7 a8 a0 _ [more Hmore] _ _ _ _ _].
    simpl in *.
    split; [now destruct u|].
    split.
    { destruct (client_state (websocket s3)) eqn:Ecs.
      - destruct a0; discriminate.
      - now apply Hopen.
      - rewrite Hshut by discriminate. exact Ecs. }
    split; [congruence|]. split; [congruence|]. split; [congruence|].
    split; [intros; lia|]. intros _.
    split; [rewrite Hconns, a4, a7; apply filter_out_last|].
    split; [congruence|].
    split.
    { destruct (client_state (websocket s3)) eqn:Ecs.
      - destruct a0; discriminate.
      - right. now apply Hopen.
      - left. rewrite Hshut by discriminate. exact a8. }
    exists more. rewrite Hlog, Hmore, a7. reflexivity.
Qed.

(** *** The message loop *)


Lemma error_reply_when_closed (e : exn) (message : option (dict pyval)) (s : state) :
  client_state (websocket s) <> CONNECTED ->
  message_processing_error isoformat e message s = (Ok Break, s).
Proof.
  intros H. unfold message_processing_error. destruct message as [m|]; [|reflexivity].
  unfold try_except, timestamp, send_message. unfold mbind, get, ret, raise.
  cbv beta iota.
  destruct (client_state (websocket s)) eqn:E; simpl; try reflexivity. congruence.
Qed.

Lemma error_reply_returns (e : exn) (message : option (dict pyval)) (s : state) :
  exists c, fst (message_processing_error isoformat e message s) = Ok c.
Proof.
  unfold message_processing_error. destruct message as [m|]; [|now exists Break].
  unfold try_except.
  match goal with |- context [mbind ?a ?b s] => destruct (mbind a b s) as [[c|e'] s'] end;
    simpl; eauto.
Qed.

(** A turn ends with the client's disconnect or goes on to decide
    between the next turn and [break]. *)
Lemma turn_returns (adapter : ProtocolAdapter) (message : option (dict pyval)) (s : state) :
  fst (message_loop_turn json_loads json_error_text py_str isoformat adapter message s) = Raise WebSocketDisconnect
  \/ exists c, fst (message_loop_turn json_loads json_error_text py_str isoformat adapter message s) = Ok c.
Proof.
  unfold message_loop_turn.
  destruct (receive_message json_loads json_error_text s) as [[received|e] s1].
  - destruct (process_message py_str isoformat adapter received s1) as [[u|e] s2].
    + right. simpl. eauto.
    + destruct e; cbv beta iota; auto; right; apply error_reply_returns.
  - destruct e; cbv beta iota; auto; right; apply error_reply_returns.
Qed.

(** A turn that goes on to the next has taken a frame. *)
Lemma turn_takes_frame (adapter : ProtocolAdapter) (message message' : option (dict pyval))
  (s s' : state) :
  message_loop_turn json_loads json_error_text py_str isoformat adapter message s = (Ok (Continue message'), s') ->
  (List.length (inbox (websocket s')) < List.length (inbox (websocket s)))%nat.
Proof.
  unfold message_loop_turn.
  assert (Hrecv : forall r s1,
            receive_message json_loads json_error_text s = (r, s1) ->
            (s1 = s /\ client_state (websocket s) <> CONNECTED /\ exists e, r = Raise e)
            \/ r = Raise WebSocketDisconnect
            \/ (List.length (inbox (websocket s1)) < List.length (inbox (websocket s)))%nat).
  { intros r s1. unfold receive_message, mbind, get, receive_text, modify, raise, ret.
    destruct (client_state (websocket s)) eqn:Ecs; simpl;
      try (intros [= <- <-]; left; repeat split; try discriminate; eauto; fail).
    destruct (inbox (websocket s)) as [|[raw|] rest]; simpl.
    - intros [= <- <-]. auto.
    - destruct (json_loads raw) as [[]|]; intros [= <- <-]; right; right; simpl; lia.
    - intros [= <- <-]. auto. }
  destruct (receive_message json_loads json_error_text s) as [[received|e] s1] eqn:E.
  - destruct (Hrecv _ _ eq_refl) as [(_ & _ & e & He)|[He|Hlt]]; try discriminate.
    pose proof (runs_process_message py_str isoformat false adapter received s1) as H2.
    destruct (process_message py_str isoformat adapter received s1) as [[u|e] s2];
      simpl in H2.
    + intros [= _ <-]. destruct (step_quiet _ _ _ _ H2 eq_refl) as (-> & _). exact Hlt.
    + pose proof (runs_message_processing_error isoformat false false e (Some received) s2)
        as H3.
      destruct (step_quiet _ _ _ _ H2 eq_refl) as (E2 & _).
      destruct e; cbv beta iota; try discriminate; intros H; rewrite H in H3; simpl in H3;
        destruct (step_quiet _ _ _ _ H3 eq_refl) as (-> & _); now rewrite E2.
  - destruct (Hrecv _ _ eq_refl) as [(-> & Hcs & _)|[He|Hlt]].
    + destruct e; cbv beta iota; try discriminate;
        rewrite error_reply_when_closed by exact Hcs; discriminate.
    + injection He as ->. discriminate.
    + pose proof (runs_message_processing_error isoformat false false e message s1) as H3.
      destruct e; cbv beta iota; try discriminate; intros H; rewrite H in H3; simpl in H3;
        destruct (step_quiet _ _ _ _ H3 eq_refl) as (-> & _); exact Hlt.
Qed.

Lemma turns_end (turns : nat) (adapter : ProtocolAdapter) (message : option (dict pyval))
  (s : state) :
  (List.length (inbox (websocket s)) < turns)%nat ->
  fst (message_loop_turns json_loads json_error_text py_str isoformat turns adapter message s) = Ok true
  \/ fst (message_loop_turns json_loads json_error_text py_str isoformat turns adapter message s) = Raise WebSocketDisconnect.
Proof.
  revert message s. induction turns as [|n IH]; intros message s Hlen; [lia|].
  simpl. unfold mbind.
  destruct (turn_returns adapter message s) as [H|[c H]];
    destruct (message_loop_turn json_loads json_error_text py_str isoformat adapter message s) as [[c'|e] s1] eqn:E; simpl in H;
    try discriminate.
  - injection H as ->. now right.
  - destruct c' as [message'|]; [|now left].
    apply IH. apply turn_takes_frame in E. lia.
Qed.

(** X16.  The message loop comes to an end on every finite run of frames, and
    in one of three ways only: the client's disconnect goes up to
    [handle_connection], or the loop breaks because an error reply could
    not be sent, or, before a frame is read, "No adapter available for
    connection" is raised, which takes a connection without a negotiated
    version or a version without an adapter.  One turn more than there
    are frames is always enough. *)
Theorem message_loop_ends :
  forall (s : state),
    let r := fst (_message_loop json_loads json_error_text py_str isoformat s) in
    r = Raise WebSocketDisconnect
    \/ r = Ok true
    \/ (r = Raise (RuntimeError "No adapter available for connection")
        /\ match negotiated_version (connection s) with
           | Some v => get_adapter (Server._registry (server s)) v = None
           | None => True
           end).
Proof.
  intros s r. subst r. unfold _message_loop, mbind, get. cbv beta iota.
  destruct (negotiated_version (connection s)) as [v|]; [|right; right; now split].
  destruct (get_adapter (Server._registry (server s)) v) as [adapter|];
    [|right; right; now split].
  destruct (turns_end (S (List.length (inbox (websocket s)))) adapter None s) as [H|H];
    [lia| |]; auto.
Qed.

End WithRuntime.

End LifecycleFacts.

(** ** The handshake *)

Module HandshakeFacts.
Import Py.
Import Registry.
Import Negotiator.
Import Server.
Import ServerInv.
Import StepFacts.

Local Open Scope server_scope.

Lemma strings_serialisable (l : list string) :
  forallb json_serialisable (map PStr l) = true.
Proof. induction l as [|x l IH]; simpl; auto. Qed.

Section WithRuntime.
Variable json_loads : string -> option pyval.
Variable json_error_text : string -> string.
Variable py_str : pyval -> string.
Variable isoformat : Z -> string.
Variable set_order : list string -> list string.

(** What a handshake that returns has done. *)
Lemma handshake_returned (s s' : state) (u : unit) :
  _perform_handshake json_loads json_error_text py_str set_order s = (Ok u, s') ->
  exists raw1 raw2 rest hello confirm version adapter reply,
    client_state (websocket s) = CONNECTED
    /\ inbox (websocket s) = Frame raw1 :: Frame raw2 :: rest
    /\ json_loads raw1 = Some (PDict hello)
    /\ is_str (msg_get hello "type") "hello" = true
    /\ negotiate_protocol set_order py_str (_negotiator (server s))
         (dict_get_default hello "capabilities" (PDict [])) = Ok version
    /\ get_adapter (Server._registry (server s)) version = Some adapter
    /\ json_loads raw2 = Some (PDict confirm)
    /\ sent (websocket s') = sent (websocket s) ++ [reply]
    /\ dict_get reply "type" = Some (PStr "hello")
    /\ dict_get reply "protocol_version" = Some (PStr version)
    /\ dict_get reply "capabilities"
       = Some (PDict [ ("tools", PList (map PStr (get_supported_tools adapter)));
                       ("features", server_features);
                       ("max_message_size", max_message_size) ])
    /\ negotiated_version (connection s') = Some version
    /\ client_info (connection s') = dict_get_default hello "client_info" (PDict [])
    /\ inbox (websocket s') = rest
    /\ client_state (websocket s') = CONNECTED
    /\ message_count (connection s') = message_count (connection s) + 2
    /\ connection_id (connection s') = connection_id (connection s)
    /\ server s' = server s
    /\ dispatched s' = dispatched s
    /\ monitor_log s' = monitor_log s
    /\ clock s' = clock s.
Proof.
  destruct s as [srv c [cs ib st cl] clk d ml].
  unfold _perform_handshake, receive_message, set_client_info, set_negotiated,
    send_message, send_text_json, monitor, receive_text.
  unfold mbind, get, modify, ret, raise. simpl.
  destruct cs; simpl; try discriminate.
  destruct ib as [|[raw1|] ib]; simpl; try discriminate.
  destruct (json_loads raw1) as [[| | | | | |hello|]|] eqn:E1; simpl; try discriminate.
  destruct (is_str (msg_get hello "type") "hello") eqn:Et; simpl; try discriminate.
  destruct (negotiate_protocol set_order py_str (_negotiator srv)
              (dict_get_default hello "capabilities" (PDict []))) as [version|e] eqn:En;
    simpl.
  2:{ destruct e; simpl; try discriminate.
      destruct (_extract_client_versions _); simpl; try discriminate.
      rewrite strings_serialisable. simpl. discriminate. }
  destruct (get_adapter (Server._registry srv) version) as [adapter|] eqn:Ea; simpl;
    try discriminate.
  rewrite strings_serialisable. simpl.
  destruct ib as [|[raw2|] ib]; simpl; try discriminate.
  destruct (json_loads raw2) as [[| | | | | |confirm|]|] eqn:E2; simpl; try discriminate.
  intros [= _ <-]. simpl.
  exists raw1, raw2, ib, hello, confirm, version, adapter. eexists.
  repeat split; try reflexivity; try assumption. lia.
Qed.

(** X17.  The handshake asks for one thing of the second frame: that it is a
    JSON object.  When the first frame is a hello whose capabilities
    negotiate to a version the registry has an adapter for, the server
    answers with its hello for that version, naming the adapter's tools,
    and the next frame ends the handshake whatever its type: it is
    taken from the transport, counted, and neither answered nor
    dispatched. *)
Theorem handshake_accepts_any_confirmation :
  forall (s : state) (raw1 raw2 : string) (rest : list incoming)
         (hello confirm : dict pyval) (version : string) (adapter : ProtocolAdapter),
    client_state (websocket s) = CONNECTED ->
    inbox (websocket s) = Frame raw1 :: Frame raw2 :: rest ->
    json_loads raw1 = Some (PDict hello) ->
    is_str (msg_get hello "type") "hello" = true ->
    negotiate_protocol set_order py_str (_negotiator (server s))
      (dict_get_default hello "capabilities" (PDict [])) = Ok version ->
    get_adapter (Server._registry (server s)) version = Some adapter ->
    json_loads raw2 = Some (PDict confirm) ->
    exists reply s',
      _perform_handshake json_loads json_error_text py_str set_order s = (Ok tt, s')
      /\ sent (websocket s') = sent (websocket s) ++ [reply]
      /\ dict_get reply "type" = Some (PStr "hello")
      /\ dict_get reply "protocol_version" = Some (PStr version)
      /\ dict_get reply "capabilities"
         = Some (PDict [ ("tools", PList (map PStr (get_supported_tools adapter)));
                         ("features", server_features);
                         ("max_message_size", max_message_size) ])
      /\ negotiated_version (connection s') = Some version
      /\ client_info (connection s') = dict_get_default hello "client_info" (PDict [])
      /\ inbox (websocket s') = rest
      /\ message_count (connection s') = message_count (connection s) + 2
      /\ dispatched s' = dispatched s
      /\ monitor_log s' = monitor_log s.
Proof.
  intros [srv c [cs ib st cl] clk d ml] raw1 raw2 rest hello confirm version adapter.
  simpl. intros -> -> E1 Et En Ea E2.
  unfold _perform_handshake, receive_message, set_client_info, set_negotiated,
    send_message, send_text_json, monitor, receive_text.
  unfold mbind, get, modify, ret, raise. simpl.
  rewrite E1. simpl. rewrite Et. simpl. rewrite En. simpl. rewrite Ea. simpl.
  rewrite strings_serialisable. simpl. rewrite E2. simpl.
  eexists _, _. split; [reflexivity|]. simpl.
  repeat split; try reflexivity. lia.
Qed.

Lemma extract_raises_no_value_error (capabilities : pyval) (msg : string) :
  _extract_client_versions capabilities <> Raise (ValueError msg).
Proof.
  unfold _extract_client_versions, py_in, py_getitem, bind.
  destruct capabilities; simpl; try discriminate;
    repeat match goal with
           | |- context [if ?c then _ else _] => destruct c; simpl; try discriminate
           | |- context [match dict_get ?d ?k with _ => _ end] =>
               destruct (dict_get d k); simpl; try discriminate
           end.
Qed.

Lemma refused_after_extraction (n : MCPProtocolNegotiator) (capabilities : pyval)
  (msg : string) :
  negotiate_protocol set_order py_str n capabilities = Raise (ValueError msg) ->
  exists client_versions, _extract_client_versions capabilities = Ok client_versions.
Proof.
  unfold negotiate_protocol.
  destruct (_extract_client_versions capabilities) as [cv|e] eqn:E; [eauto|].
  simpl. intros [= ->]. now apply extract_raises_no_value_error in E.
Qed.

(** From the registration of the connection to the end of the [try] and
    its [except] clauses, by the way the handshake ends. *)
Lemma handled (s : state) :
  exists u s4,
    try_except (serve json_loads json_error_text py_str isoformat set_order)
               (on_error isoformat) s = (Ok u, s4)
    /\ match _perform_handshake json_loads json_error_text py_str set_order
               (snd (register_connection s)) with
       | (Raise e, s3) => step false false s3 s4
       | (Ok _, s3) =>
           step true true
                (snd (monitor (track_connection_started
                                 (connection_id (connection s3))
                                 (negotiated_version (connection s3))
                                 (client_info (connection s3))) s3))
                s4
       end.
Proof.
  assert (Hhandler : forall e s3, exists s4,
             on_error isoformat e s3 = (Ok tt, s4) /\ step false false s3 s4).
  { intros e s3. pose proof (runs_on_error isoformat false false e s3) as H'.
    destruct (on_error isoformat e s3) as [r s4] eqn:E. simpl in H'.
    exists s4. split; [|exact H'].
    destruct e; unfold on_error, swallow, try_except, ret in E;
      try (injection E as <- <-; reflexivity);
      destruct (mbind _ _ s3) as [[[]|e'] s5]; injection E as <- <-; reflexivity. }
  unfold try_except, serve.
  match goal with
  | |- context [mbind register_connection ?K s] =>
      change (mbind register_connection K s) with (K tt (snd (register_connection s)));
      cbv beta
  end.
  unfold mbind at 1.
  destruct (_perform_handshake json_loads json_error_text py_str set_order
              (snd (register_connection s))) as [[u|e] s3].
  - unfold mbind at 1. unfold get at 1. cbv beta iota.
    unfold mbind at 1.
    match goal with
    | |- context [monitor ?c s3] =>
        change (monitor c s3) with (Ok tt, snd (monitor c s3)); cbv beta iota;
        set (s3m := snd (monitor c s3))
    end.
    match goal with
    | |- context [mbind ?m ?k s3m] =>
        assert (H : runs true true (mbind m k))
          by (apply runs_bind; [apply runs_message_loop|intros _]; apply runs_ret);
        specialize (H s3m); destruct (mbind m k s3m) as [[u'|e] s4]
    end; simpl in H.
    + exists u', s4. now split.
    + destruct (Hhandler e s4) as (s5 & -> & H').
      exists tt, s5. split; [reflexivity|].
      exact (step_trans _ _ _ _ _ H (step_quietest _ _ _ _ H')).
  - destruct (Hhandler e s3) as (s4 & -> & H'). exists tt, s4. now split.
Qed.

(** X18.  No tool is run for a client that has not said hello: when
    [handle_connection] has dispatched a tool call, the first two frames
    were a hello that negotiated to a version and a JSON object, the
    first message the server sent was its hello for that version, and
    the first thing the monitor was told is that the connection
    started. *)
Theorem tools_run_only_after_handshake :
  forall (v : MCPServer) (id : string) (frames : list incoming) (now : Z),
    let final := handle_connection json_loads json_error_text py_str isoformat set_order
                   (arrival v id frames now) in
    dispatched (snd final) <> [] ->
    exists raw1 raw2 rest hello confirm version reply more log,
      frames = Frame raw1 :: Frame raw2 :: rest
      /\ json_loads raw1 = Some (PDict hello)
      /\ is_str (msg_get hello "type") "hello" = true
      /\ json_loads raw2 = Some (PDict confirm)
      /\ negotiate_protocol set_order py_str (_negotiator v)
           (dict_get_default hello "capabilities" (PDict [])) = Ok version
      /\ sent (websocket (snd final)) = reply :: more
      /\ dict_get reply "type" = Some (PStr "hello")
      /\ dict_get reply "protocol_version" = Some (PStr version)
      /\ monitor_log (snd final)
         = track_connection_started id (Some version)
             (dict_get_default hello "client_info" (PDict [])) :: log.
Proof.
  intros v id frames now final. subst final.
  unfold handle_connection, mbind, get. cbv beta iota.
  destruct (_max_connections (server (arrival v id frames now))
            <=? Z.of_nat (List.length (_connections (server (arrival v id frames now))))).
  { simpl. congruence. }
  change (accept (arrival v id frames now))
    with (Ok tt, snd (accept (arrival v id frames now))).
  cbv beta iota.
  set (s1 := snd (accept (arrival v id frames now))).
  unfold try_finally.
  destruct (handled s1) as (u & s4 & -> & Hcases).
  destruct (LifecycleFacts.cleanup_spec s4)
    as (s5 & -> & Hlog & _ & _ & _ & _ & _ & _ & _ & Hsent & _ & Hdisp & _).
  simpl. rewrite Hdisp, Hsent, Hlog.
  pose proof (runs_perform_handshake json_loads json_error_text py_str set_order false
                (snd (register_connection s1))) as Hh.
  destruct (_perform_handshake json_loads json_error_text py_str set_order
              (snd (register_connection s1))) as [[u'|e] s3] eqn:E; simpl in Hh.
  - intros _.
    apply handshake_returned in E
      as (raw1 & raw2 & rest & hello & confirm & version & adapter & reply
          & _ & Hi & E1 & Et & En & _ & E2 & Hs & Hty & Hpv & _ & Hnv & Hci & _ & _ & _
          & Hid & _ & _ & Hml & _).
    destruct Hcases as [_ _ _ _ _ _ _ _ _ [more Hmore] [log Hlog'] _ _ _ _ _].
    simpl in Hmore, Hlog', Hi, Hs, Hml, En, Hid.
    exists raw1, raw2, rest, hello, confirm, version, reply, more.
    exists (log ++ [track_connection_ended (connection_id (connection s4))]).
    repeat split; try assumption.
    + rewrite Hmore, Hs. reflexivity.
    + rewrite Hlog', Hml, Hnv, Hci, Hid. reflexivity.
  - intros Hne. exfalso. apply Hne.
    destruct (step_idle _ _ _ _ Hcases eq_refl) as [-> _].
    destruct (step_idle _ _ _ _ Hh eq_refl) as [-> _]. reflexivity.
Qed.

(** X19.  A negotiation that is refused is reported twice.  When the first
    frame is a hello whose capabilities no version fits, the monitor is
    told of the failure, the client is sent an error with the code
    PROTOCOL_NEGOTIATION_FAILED, the refusal's text and the server's
    versions, and then, because the error is raised again, the error
    with the code SERVER_ERROR that every failure ends with; the
    connection is closed without a version, and no frame behind the
    hello is read. *)
Theorem refused_negotiation_is_reported_twice :
  forall (v : MCPServer) (id raw : string) (rest : list incoming) (now : Z)
         (hello : dict pyval) (msg : string),
    Z.of_nat (List.length (_connections v)) < _max_connections v ->
    json_loads raw = Some (PDict hello) ->
    is_str (msg_get hello "type") "hello" = true ->
    negotiate_protocol set_order py_str (_negotiator v)
      (dict_get_default hello "capabilities" (PDict [])) = Raise (ValueError msg) ->
    let final := handle_connection json_loads json_error_text py_str isoformat set_order
                   (arrival v id (Frame raw :: rest) now) in
    exists client_versions,
      _extract_client_versions (dict_get_default hello "capabilities" (PDict []))
      = Ok client_versions
      /\ fst final = Ok tt
      /\ sent (websocket (snd final))
         = [ [ ("type", PStr "error");
               ("error", PDict
                  [ ("code", PStr "PROTOCOL_NEGOTIATION_FAILED");
                    ("message", PStr msg);
                    ("supported_versions",
                     PList (map PStr (get_supported_versions (Server._registry v)))) ]) ];
             server_error_message (PStr (isoformat now)) ]
      /\ monitor_log (snd final)
         = [ track_negotiation_failure client_versions msg; track_connection_ended id ]
      /\ closed (websocket (snd final)) = Some (1000, "")
      /\ negotiated_version (connection (snd final)) = None
      /\ dispatched (snd final) = []
      /\ inbox (websocket (snd final)) = rest.
Proof.
  intros v id raw rest now hello msg Hroom E1 Et En final. subst final.
  destruct (refused_after_extraction _ _ _ En) as [cv Hcv]. exists cv.
  split; [exact Hcv|].
  apply Z.leb_gt in Hroom.
  unfold handle_connection, mbind, get, arrival. simpl. rewrite Hroom.
  unfold try_finally, try_except, serve, mbind, register_connection, modify, accept. simpl.
  unfold _perform_handshake, receive_message, set_client_info, set_negotiated,
    send_message, send_text_json, monitor, receive_text.
  unfold mbind, get, modify, ret, raise. simpl.
  rewrite E1. simpl. rewrite Et. simpl. rewrite En. simpl. rewrite Hcv. simpl.
  rewrite strings_serialisable. simpl.
  repeat split.
Qed.

End WithRuntime.

Import Scenario.

Lemma handshake_accepts_any_confirmation_witness :
  exists reply s',
    _perform_handshake demo_loads demo_error_text demo_dumps demo_set_order
      (snd (accept (arrival mcp_server "c-1"
                      [Frame (demo_dumps hello_message); Frame (demo_dumps search_call)] 0)))
    = (Ok tt, s')
    /\ dict_get reply "protocol_version" = Some (PStr "1.1")
    /\ sent (websocket s') = [reply]
    /\ inbox (websocket s') = []
    /\ dispatched s' = [].
Proof.
  destruct (handshake_accepts_any_confirmation demo_loads demo_error_text demo_dumps
              demo_set_order
              (snd (accept (arrival mcp_server "c-1"
                              [Frame (demo_dumps hello_message);
                               Frame (demo_dumps search_call)] 0)))
              (demo_dumps hello_message) (demo_dumps search_call) []
              [ ("type", PStr "hello");
                ("capabilities", PDict [("protocolVersion", PStr "1.1");
                                        ("features", PList [])]);
                ("client_info", PDict [("name", PStr "demo")]) ]
              [ ("type", PStr "tool_call"); ("tool", PStr "rag_search");
                ("parameters", PDict [("query", PStr "rocq")]); ("id", PInt 1) ]
              "1.1" adapter_1_1
              eq_refl eq_refl eq_refl eq_refl eq_refl eq_refl eq_refl)
    as (reply & s' & Hrun & Hsent & _ & Hversion & _ & _ & _ & Hinbox & _ & Hdisp & _).
  exists reply, s'. repeat split; assumption.
Defined.

Lemma tools_run_only_after_handshake_witness :
  exists raw1 raw2 hello version,
    demo_loads raw1 = Some (PDict hello)
    /\ is_str (msg_get hello "type") "hello" = true
    /\ negotiate_protocol demo_set_order demo_dumps (_negotiator mcp_server)
         (dict_get_default hello "capabilities" (PDict [])) = Ok version
    /\ exists rest,
        [ Frame (demo_dumps hello_message); Frame (demo_dumps ready_message);
          Frame (demo_dumps search_call) ]
        = Frame raw1 :: Frame raw2 :: rest.
Proof.
  destruct (tools_run_only_after_handshake demo_loads demo_error_text demo_dumps
              demo_isoformat demo_set_order mcp_server "c-1"
              [ Frame (demo_dumps hello_message); Frame (demo_dumps ready_message);
                Frame (demo_dumps search_call) ] 0)
    as (raw1 & raw2 & rest & hello & confirm & version & reply & more & log
        & Hframes & E1 & Et & _ & En & _).
  - vm_compute. discriminate.
  - exists raw1, raw2, hello, version.
    split; [exact E1|]. split; [exact Et|]. split; [exact En|].
    exists rest. exact Hframes.
Defined.

Lemma refused_negotiation_is_reported_twice_witness :
  exists msg first,
    negotiate_protocol demo_set_order demo_dumps (_negotiator mcp_server)
      (PDict [("supportedVersions", PList [PStr "0.5"])]) = Raise (ValueError msg)
    /\ sent (websocket (snd (handle_connection old_client_loads demo_error_text demo_dumps
                               demo_isoformat demo_set_order
                               (arrival mcp_server "c-1"
                                        [Frame "hello from 0.5"; Frame "more"] 0))))
       = [first; server_error_message (PStr (demo_isoformat 0))]
    /\ error_code first = Some (PStr "PROTOCOL_NEGOTIATION_FAILED")
    /\ inbox (websocket (snd (handle_connection old_client_loads demo_error_text
                                demo_dumps demo_isoformat demo_set_order
                                (arrival mcp_server "c-1"
                                         [Frame "hello from 0.5"; Frame "more"] 0))))
       = [Frame "more"].
Proof.
  destruct (negotiate_protocol demo_set_order demo_dumps (_negotiator mcp_server)
              (PDict [("supportedVersions", PList [PStr "0.5"])])) as [version|e] eqn:En;
    [vm_compute in En; discriminate En|].
  destruct e as [msg| | | | | |]; try (vm_compute in En; discriminate En).
  destruct (refused_negotiation_is_reported_twice old_client_loads demo_error_text
              demo_dumps demo_isoformat demo_set_order mcp_server "c-1" "hello from 0.5"
              [Frame "more"] 0
              [ ("type", PStr "hello");
                ("capabilities", PDict [("supportedVersions", PList [PStr "0.5"])]) ]
              msg)
    as (cv & _ & _ & Hsent & _ & _ & _ & _ & Hinbox);
    [vm_compute; reflexivity|reflexivity|reflexivity|exact En|].
  exists msg. eexists. split; [reflexivity|]. split; [exact Hsent|].
  split; [reflexivity|exact Hinbox].
Defined.

End HandshakeFacts.

(** ** Requests, reports and broadcasts *)

Module AdminFacts.
Import Py.
Import Registry.
Import Negotiator.
Import Server.
Import ServerAdmin.
Import MonitorInv.
Import PyFacts.
Import DictFacts.
Import CounterFacts.

Local Open Scope server_scope.

(** X20.  [validate_client_request] and the server's own check of a tool call
    agree.  For the adapter of a registered version and a message that
    names a tool, the request is valid exactly when [_handle_tool_call]
    hands the call to the adapter, and invalid exactly when it raises
    "Unsupported tool" without touching anything; for a version that is
    not registered no request is valid. *)
Theorem validation_agrees_with_dispatch :
  forall (py_str : pyval -> string) (isoformat : Z -> string)
         (n : MCPProtocolNegotiator) (version tool : string) (adapter : ProtocolAdapter)
         (message : dict pyval) (s : state),
    get_adapter (Negotiator._registry n) version = Some adapter ->
    msg_get message "tool" = PStr tool ->
    tool <> "" ->
    let parameters := dict_get_default message "parameters" (PDict []) in
    (validate_client_request n version tool parameters = true ->
       exists reply s',
         _handle_tool_call py_str isoformat adapter message s = (Ok reply, s')
         /\ dispatched s' = dispatched s ++ [(tool, parameters)])
    /\ (validate_client_request n version tool parameters = false ->
          _handle_tool_call py_str isoformat adapter message s
          = (Raise (ValueError ("Unsupported tool: " ++ tool)%string), s))
    /\ (forall other,
          get_adapter (Negotiator._registry n) other = None ->
          validate_client_request n other tool parameters = false).
Proof.
  intros py_str isoformat n version tool adapter message s Ha Ht Hne parameters.
  unfold validate_client_request. rewrite Ha.
  assert (Hfull : truthy (PStr tool) = true).
  { simpl. apply negb_true_iff. now apply String.eqb_neq. }
  unfold _handle_tool_call. rewrite Ht, Hfull. simpl negb. cbv iota.
  split; [|split].
  - intros ->. unfold mbind, dispatch, modify, timestamp, get, monitor, ret. simpl.
    destruct (outcome (handle_tool_call adapter tool _)); eexists _, _;
      (split; [reflexivity|reflexivity]).
  - intros ->. reflexivity.
  - intros other ->. reflexivity.
Qed.

Lemma validation_agrees_with_dispatch_witness :
  validate_client_request Scenario.negotiator "1.1" "rag_search"
    (PDict [("query", PStr "rocq")]) = true
  /\ exists reply s',
      _handle_tool_call Scenario.demo_dumps Scenario.demo_isoformat Scenario.adapter_1_1
        [ ("type", PStr "tool_call"); ("tool", PStr "rag_search");
          ("parameters", PDict [("query", PStr "rocq")]); ("id", PInt 1) ]
        (Scenario.ready_state []) = (Ok reply, s')
      /\ dispatched s' = [("rag_search", PDict [("query", PStr "rocq")])].
Proof.
  split; [reflexivity|].
  destruct (validation_agrees_with_dispatch Scenario.demo_dumps Scenario.demo_isoformat
              Scenario.negotiator "1.1" "rag_search" Scenario.adapter_1_1
              [ ("type", PStr "tool_call"); ("tool", PStr "rag_search");
                ("parameters", PDict [("query", PStr "rocq")]); ("id", PInt 1) ]
              (Scenario.ready_state []))
    as (Hvalid & _ & _); [reflexivity|reflexivity|discriminate|].
  exact (Hvalid eq_refl).
Defined.

(** *** The report *)

Lemma count_step (by_version : dict Z) (version k : string) :
  dict_get_default (dict_set by_version version
                             (dict_get_default by_version version 0 + 1)) k 0
  = dict_get_default by_version k 0 + (if String.eqb version k then 1 else 0).
Proof.
  unfold dict_get_default at 1.
  destruct (String.eqb_spec version k) as [->|Hne].
  - now rewrite dict_get_set_same.
  - rewrite dict_get_set_other by exact Hne. unfold dict_get_default. lia.
Qed.

Lemma by_version_from (connections : list live) (start : dict Z) :
  let counted :=
    fold_left (fun by_version l =>
                 let version := version_label (conn l) in
                 dict_set by_version version (dict_get_default by_version version 0 + 1))
              connections start in
  (forall k, dict_get_default counted k 0
             = dict_get_default start k 0
               + Z.of_nat (List.length
                             (filter (fun l => String.eqb (version_label (conn l)) k)
                                     connections)))
  /\ total_of (fun z => z) counted
     = total_of (fun z => z) start + Z.of_nat (List.length connections)
  /\ (NoDup (dict_keys start) -> NoDup (dict_keys counted))
  /\ (forall k, In k (dict_keys counted)
                <-> In k (dict_keys start)
                    \/ exists l, In l connections /\ version_label (conn l) = k).
Proof.
  revert start. induction connections as [|l ls IH]; intros start; simpl.
  - repeat split; try lia; auto. intros [H|(l & [] & _)]. exact H.
  - specialize (IH (dict_set start (version_label (conn l))
                             (dict_get_default start (version_label (conn l)) 0 + 1))).
    simpl in IH. destruct IH as (IH1 & IH2 & IH3 & IH4).
    split; [|split; [|split]].
    + intros k. rewrite IH1, count_step.
      destruct (String.eqb (version_label (conn l)) k); simpl List.length; lia.
    + rewrite IH2, total_of_set. unfold dict_get_default.
      destruct (dict_get start (version_label (conn l))); lia.
    + intros H. apply IH3. now apply dict_keys_set_nodup.
    + intros k. rewrite IH4, dict_keys_set_in. split.
      * intros [[->|H]|(l' & Hin & E)]; eauto.
      * intros [H|(l' & [<-|Hin] & E)]; eauto.
Qed.

(** X21.  In the report of [get_server_stats] every live connection is
    counted once under exactly one version: "by_version" maps a version
    to the number of connections that negotiated it, "unknown" to the
    number still without one, lists no other key, and its counts add up
    to "active"; the average number of messages is taken over at least
    one connection. *)
Theorem stats_count_every_connection :
  forall (A : Monitor.Arith) (v : MCPServer) (start_time now : Z)
         (connections : list live),
    let stats := get_server_stats A v start_time now connections in
    (forall version,
       dict_get_default (st_by_version stats) version 0
       = Z.of_nat (List.length
                     (filter (fun l => String.eqb (version_label (conn l)) version)
                             connections)))
    /\ (forall version,
          In version (dict_keys (st_by_version stats))
          <-> exists l, In l connections /\ version_label (conn l) = version)
    /\ NoDup (dict_keys (st_by_version stats))
    /\ Monitor.int_sum (dict_values (st_by_version stats)) = st_active stats
    /\ st_average_per_connection stats
       = Monitor.div A (Monitor.of_int A (_total_messages v))
                       (Monitor.of_int A (Z.max 1 (_total_connections v)))
    /\ 1 <= Z.max 1 (_total_connections v).
Proof.
  intros A v start_time now connections stats. subst stats. simpl.
  destruct (by_version_from connections []) as (H1 & H2 & H3 & H4).
  fold (connections_by_version connections) in H1, H2, H3, H4.
  split; [|split; [|split; [|split; [|split]]]].
  - intros version. rewrite H1. reflexivity.
  - intros version. rewrite H4. simpl. tauto.
  - apply H3. constructor.
  - exact H2.
  - reflexivity.
  - lia.
Qed.

(** *** The broadcast *)

(** A connection that [broadcast_message] reaches: the filter lets it
    through, its transport is connected, and the message can be
    encoded. *)
Lemma broadcast_from (v : MCPServer) (now : Z) (message : dict pyval)
  (version_filter : option string) (connections : list live) (n : Z) (seen : list live) :
  let reached l :=
    negb (filtered_out version_filter (conn l))
    && is_connected (client_state (socket l))
    && json_serialisable (PDict message) in
  fold_left (broadcast_to v now message version_filter) connections (n, seen)
  = (n + Z.of_nat (List.length (filter reached connections)),
     seen ++ map (fun l =>
                    if reached l
                    then {| conn := conn l;
                            socket := {| client_state := client_state (socket l);
                                         inbox := inbox (socket l);
                                         sent := sent (socket l) ++ [message];
                                         closed := closed (socket l) |} |}
                    else l)
                 connections).
Proof.
  intros reached. revert n seen.
  induction connections as [|l ls IH]; intros n seen.
  - simpl. now rewrite Z.add_0_r, app_nil_r.
  - cbn [fold_left map filter].
    assert (Hstep : broadcast_to v now message version_filter (n, seen) l
                    = (n + (if reached l then 1 else 0),
                       seen ++ [if reached l
                                then {| conn := conn l;
                                        socket := {| client_state := client_state (socket l);
                                                     inbox := inbox (socket l);
                                                     sent := sent (socket l) ++ [message];
                                                     closed := closed (socket l) |} |}
                                else l])).
    { unfold broadcast_to, reached.
      destruct (filtered_out version_filter (conn l)); simpl; [now rewrite Z.add_0_r|].
      unfold send_message, mbind, get, send_text_json, modify, raise, on_connection.
      simpl. destruct l as [c [cs ib st cl]]. simpl.
      destruct cs; simpl; try now rewrite Z.add_0_r.
      destruct (forallb _ message); simpl; [reflexivity|now rewrite Z.add_0_r]. }
    rewrite Hstep, IH. rewrite <- app_assoc. simpl app.
    f_equal. destruct (reached l); simpl List.length; lia.
Qed.

(** X22.  [broadcast_message] never raises, and the number it returns is the
    number of connections it has written to: those that the version
    filter lets through and whose transport is connected, when the
    message can be encoded, and none at all when it cannot.  Such a
    connection has the message as the last one sent; every other
    connection is as it was.  A filter that is the empty string filters
    nothing. *)
Theorem broadcast_counts_deliveries :
  forall (v : MCPServer) (now : Z) (connections : list live) (message : dict pyval)
         (version_filter : option string),
    let reached l :=
      negb (filtered_out version_filter (conn l))
      && is_connected (client_state (socket l))
      && json_serialisable (PDict message) in
    let result := broadcast_message v now connections message version_filter in
    fst result = Z.of_nat (List.length (filter reached connections))
    /\ snd result
       = map (fun l =>
                if reached l
                then {| conn := conn l;
                        socket := {| client_state := client_state (socket l);
                                     inbox := inbox (socket l);
                                     sent := sent (socket l) ++ [message];
                                     closed := closed (socket l) |} |}
                else l)
             connections
    /\ 0 <= fst result <= Z.of_nat (List.length connections)
    /\ (json_serialisable (PDict message) = false ->
        fst result = 0 /\ snd result = connections)
    /\ broadcast_message v now connections message (Some "")
       = broadcast_message v now connections message None.
Proof.
  intros v now connections message version_filter reached result. subst result.
  unfold broadcast_message. rewrite !broadcast_from. cbn [fst snd app Z.add].
  split; [reflexivity|]. split; [reflexivity|]. split; [|split].
  - pose proof (ReportFacts.filter_length_le reached connections). fold reached. lia.
  - intros Hbad.
    assert (Hnone : forall l : live,
               negb (filtered_out version_filter (conn l))
               && is_connected (client_state (socket l))
               && json_serialisable (PDict message) = false).
    { intros l. destruct (negb _), (is_connected _); try reflexivity. exact Hbad. }
    split.
    + induction connections as [|l ls IH]; [reflexivity|].
      cbn [filter]. now rewrite Hnone.
    + induction connections as [|l ls IH]; [reflexivity|].
      cbn [map]. now rewrite Hnone, IH.
  - reflexivity.
Qed.

End AdminFacts.

(** ** The adapter for protocol 1.0 *)

Module AdapterFacts.
Import Py.
Import Registry.
Import Server.
Import MCPv1.

Local Open Scope server_scope.

Lemma supported_cases (tool : string) :
  In tool get_supported_tools <->
  tool = "rag_search" \/ tool = "rag_summarize" \/ tool = "document_upload"
  \/ tool = "document_list" \/ tool = "document_get" \/ tool = "document_delete".
Proof.
  unfold get_supported_tools, _supported_tools. simpl.
  intuition (try congruence; auto).
Qed.

Lemma require_missing (k : string) (parameters : dict pyval) :
  dict_contains parameters k = false ->
  require k (PDict parameters) = Raise (ValueError ("Missing required parameter: " ++ k)%string).
Proof. intros H. unfold require. simpl. now rewrite H. Qed.

Lemma require_present (k : string) (parameters : dict pyval) :
  dict_contains parameters k = true -> require k (PDict parameters) = Ok tt.
Proof. intros H. unfold require. simpl. now rewrite H. Qed.

(** X23.  With the adapter for protocol 1.0 a tool call never takes the
    server's failure path.  Whatever the message and whatever the
    services behind the adapter do, [_handle_tool_call] either raises
    before the adapter is called and leaves the state alone, or answers
    with a "tool_response" whose "result" is what the adapter returned
    (an "error" entry when the handler raised) and reports the call to
    the monitor as a success. *)
Theorem v1_tool_calls_are_always_reported_successful :
  forall (served : string -> pyval -> result pyval) (adapter_isoformat : Z -> string)
         (caught_at took : string -> pyval -> Z)
         (py_str : pyval -> string) (isoformat : Z -> string)
         (message : dict pyval) (s : state),
    let adapter := MCPv1Adapter served adapter_isoformat caught_at took in
    let parameters := dict_get_default message "parameters" (PDict []) in
    let run := _handle_tool_call py_str isoformat adapter message s in
    match fst run with
    | Ok reply =>
        exists tool,
          msg_get message "tool" = PStr tool
          /\ In tool get_supported_tools
          /\ dict_get reply "type" = Some (PStr "tool_response")
          /\ dict_get reply "result"
             = Some (handle_tool_call served adapter_isoformat caught_at tool parameters)
          /\ dispatched (snd run) = dispatched s ++ [(tool, parameters)]
          /\ monitor_log (snd run)
             = monitor_log s
               ++ [track_tool_call "unknown" tool (took tool parameters) true None]
    | Raise e => snd run = s
    end.
Proof.
  intros served adapter_isoformat caught_at took py_str isoformat message s
         adapter parameters run.
  subst run. unfold _handle_tool_call. fold parameters.
  destruct (truthy (msg_get message "tool")) eqn:Ht; simpl negb; cbv iota;
    [|reflexivity].
  destruct (msg_get message "tool") as [| | | | tool | | |] eqn:Hm; try reflexivity.
  destruct (str_in tool (Registry.get_supported_tools adapter)) eqn:Hin; [|reflexivity].
  apply ExactMatchFacts.str_in_iff in Hin.
  unfold mbind, dispatch, modify, timestamp, get, monitor, ret. simpl.
  exists tool. repeat split; try reflexivity. exact Hin.
Qed.

(** X24.  The parameters a tool's schema lists as required are the ones
    its handler insists on.  When the parameters are a dict that lacks a
    required key, [handle_tool_call] returns the TOOL_EXECUTION_ERROR
    result naming a required key that is missing, whatever the services
    would have done. *)
Theorem required_parameters_are_checked :
  forall (served : string -> pyval -> result pyval) (isoformat : Z -> string)
         (caught_at : string -> pyval -> Z)
         (tool : string) (schema : dict pyval) (required : list pyval) (k : string)
         (parameters : dict pyval),
    get_tool_schema tool = Some (PDict schema) ->
    dict_get schema "required" = Some (PList required) ->
    In (PStr k) required ->
    dict_contains parameters k = false ->
    exists missing,
      In (PStr missing) required
      /\ dict_contains parameters missing = false
      /\ handle_tool_call served isoformat caught_at tool (PDict parameters)
         = PDict [ ("error", PDict
                      [ ("code", PStr "TOOL_EXECUTION_ERROR");
                        ("message", PStr ("Missing required parameter: " ++ missing));
                        ("tool", PStr tool);
                        ("timestamp",
                         PStr (isoformat (caught_at tool (PDict parameters)))) ]) ].
Proof.
  intros served isoformat caught_at tool schema required k parameters
         Hs Hr Hk Hmiss.
  unfold get_tool_schema, schemas in Hs. cbn [dict_get] in Hs.
  repeat match type of Hs with
         | (if String.eqb ?a tool then _ else _) = _ =>
             destruct (String.eqb_spec a tool) as [E|_]
         end;
    try discriminate Hs;
    try (subst tool; injection Hs as <-; cbn in Hr; try discriminate Hr;
         injection Hr as <-; cbn in Hk).
  - destruct Hk as [[= <-]|[]]. exists "query". split; [now left|]. split; [exact Hmiss|].
    unfold handle_tool_call, _handle_rag_search. cbn [String.eqb Ascii.eqb Bool.eqb].
    rewrite (require_missing _ _ Hmiss). reflexivity.
  - destruct Hk as [[= <-]|[]]. exists "document_ids". split; [now left|].
    split; [exact Hmiss|].
    unfold handle_tool_call, _handle_rag_summarize. cbn [String.eqb Ascii.eqb Bool.eqb].
    rewrite (require_missing _ _ Hmiss). reflexivity.
  - destruct (dict_contains parameters "filename") eqn:Hf.
    + destruct Hk as [[= <-]|[[= <-]|[]]]; [congruence|].
      exists "content". split; [right; now left|]. split; [exact Hmiss|].
      unfold handle_tool_call, _handle_document_upload.
      cbn [String.eqb Ascii.eqb Bool.eqb].
      rewrite (require_present _ _ Hf). cbn [bind].
      rewrite (require_missing _ _ Hmiss). reflexivity.
    + exists "filename". split; [now left|]. split; [exact Hf|].
      unfold handle_tool_call, _handle_document_upload.
      cbn [String.eqb Ascii.eqb Bool.eqb].
      rewrite (require_missing _ _ Hf). reflexivity.
  - destruct Hk as [[= <-]|[]]. exists "document_id". split; [now left|].
    split; [exact Hmiss|].
    unfold handle_tool_call, _handle_document_get. cbn [String.eqb Ascii.eqb Bool.eqb].
    rewrite (require_missing _ _ Hmiss). reflexivity.
  - destruct Hk as [[= <-]|[]]. exists "document_id". split; [now left|].
    split; [exact Hmiss|].
    unfold handle_tool_call, _handle_document_delete. cbn [String.eqb Ascii.eqb Bool.eqb].
    rewrite (require_missing _ _ Hmiss). reflexivity.
Qed.

Lemma required_parameters_are_checked_witness :
  exists missing,
    In (PStr missing) [PStr "filename"; PStr "content"]
    /\ dict_contains [("filename", PStr "a.txt")] missing = false
    /\ handle_tool_call (fun _ _ => Ok PNone) (fun _ => "t") (fun _ _ => 0)
                        "document_upload" (PDict [("filename", PStr "a.txt")])
       = PDict [ ("error", PDict
                    [ ("code", PStr "TOOL_EXECUTION_ERROR");
                      ("message", PStr ("Missing required parameter: " ++ missing));
                      ("tool", PStr "document_upload");
                      ("timestamp", PStr "t") ]) ].
Proof.
  refine (required_parameters_are_checked
            (fun _ _ => Ok PNone) (fun _ => "t") (fun _ _ => 0)
            "document_upload" _ [PStr "filename"; PStr "content"] "content"
            [("filename", PStr "a.txt")] eq_refl eq_refl _ eq_refl).
  right. left. reflexivity.
Defined.

(** X25.  The adapter's three tables agree: a tool has a schema exactly
    when it is one of the supported tools, and for any other name
    [handle_tool_call] returns the "Unsupported tool" error result
    without calling a service. *)
Theorem schemas_cover_the_supported_tools :
  forall (served : string -> pyval -> result pyval) (isoformat : Z -> string)
         (caught_at : string -> pyval -> Z) (tool : string),
    (In tool get_supported_tools <-> exists schema, get_tool_schema tool = Some schema)
    /\ (get_tool_schema tool = None ->
        forall parameters,
          handle_tool_call served isoformat caught_at tool parameters
          = PDict [ ("error", PDict
                       [ ("code", PStr "TOOL_EXECUTION_ERROR");
                         ("message", PStr ("Unsupported tool: " ++ tool));
                         ("tool", PStr tool);
                         ("timestamp", PStr (isoformat (caught_at tool parameters))) ]) ]).
Proof.
  intros served isoformat caught_at tool.
  assert (Hcases : get_tool_schema tool = None <-> ~ In tool get_supported_tools).
  { rewrite supported_cases. unfold get_tool_schema, schemas. cbn [dict_get].
    repeat match goal with
           | |- context [String.eqb ?a tool] =>
               destruct (String.eqb_spec a tool) as [E|?]; [subst tool|]
           end;
      split; intros H; try discriminate H; try reflexivity;
      try (exfalso; apply H; tauto); try (intuition congruence). }
  split; [split|].
  - intros Hin. destruct (get_tool_schema tool) as [schema|] eqn:E; [now exists schema|].
    exfalso. now apply Hcases.
  - intros [schema Hs] . destruct (in_dec string_dec tool get_supported_tools) as [H|H];
      [exact H|]. apply Hcases in H. congruence.
  - intros Hnone parameters. apply Hcases in Hnone. rewrite supported_cases in Hnone.
    unfold handle_tool_call.
    repeat match goal with
           | |- context [String.eqb tool ?a] =>
               destruct (String.eqb_spec tool a) as [E|?]; [exfalso; apply Hnone; tauto|]
           end.
    reflexivity.
Qed.

End AdapterFacts.

(** ** The compatible version *)

Module CompatibleFacts.
Import Py.
Import Registry.
Import Negotiator.

Lemma string_lt_comparable (x y : string) :
  True -> True -> exists b, string_lt x y = Ok b.
Proof. intros _ _. unfold string_lt. eauto. Qed.

Lemma string_lt_trans (x y z : string) :
  string_lt x y = Ok true -> string_lt y z = Ok true -> string_lt x z = Ok true.
Proof.
  unfold string_lt, String.ltb. intros [= H1] [= H2]. f_equal.
  destruct (String.compare x y) eqn:E1; try discriminate.
  destruct (String.compare y z) eqn:E2; try discriminate.
  now rewrite (TupleFacts.string_compare_trans _ _ _ E1 E2).
Qed.

Lemma string_lt_irrefl (x : string) : string_lt x x = Ok false.
Proof. unfold string_lt, String.ltb. now rewrite TupleFacts.string_compare_refl. Qed.

Lemma find_app {X : Type} (f : X -> bool) (l1 l2 : list X) :
  find f (l1 ++ l2) = match find f l1 with Some x => Some x | None => find f l2 end.
Proof. induction l1 as [|x l1 IH]; simpl; [reflexivity|]. now destruct (f x). Qed.

(** The first element of the reversed list that [f] accepts is below no
    element that [f] accepts. *)
Lemma find_latest_first (f : string -> bool) (r : list string) (v : string) :
  ascending (fun x => x) string_lt r ->
  find f (rev r) = Some v ->
  In v r /\ f v = true
  /\ forall w, In w r -> f w = true -> String.ltb v w = false.
Proof.
  induction r as [|a r IH]; simpl; [discriminate|].
  intros Hasc. inversion Hasc as [|? ? Hasc' Hall]; subst.
  rewrite find_app. destruct (find f (rev r)) as [x|] eqn:E.
  - intros [= ->]. destruct (IH Hasc' eq_refl) as (Hin & Hf & Hmax).
    split; [now right|]. split; [exact Hf|].
    intros w [<-|Hw] Hfw; [|now apply Hmax].
    rewrite Forall_forall in Hall. specialize (Hall v Hin).
    unfold string_lt in Hall. now injection Hall.
  - simpl. destruct (f a) eqn:Ea; [|discriminate]. intros [= ->].
    split; [now left|]. split; [exact Ea|].
    intros w [<-|Hw] Hfw.
    + pose proof (string_lt_irrefl v) as H. unfold string_lt in H. now injection H.
    + exfalso. apply find_none with (x := w) in E; [congruence|]. now apply in_rev in Hw.
Qed.

(** X26.  [_find_compatible_version], given client versions that are
    hashable, as the elements of the set built before it is called are,
    always returns.  It returns a server version that some client
    version is compatible with and that provides the client's features,
    and of these the greatest in the order of strings, which is the
    order [sorted] is applied with here, not the order of
    [_version_sort_key]; it returns [None] exactly when no server
    version is such. *)
Theorem compatible_version_is_greatest_string :
  forall (n : MCPProtocolNegotiator) (client_versions client_features : list pyval)
         (server_versions : list string),
    forallb hashable client_versions = true ->
    let fits server_version :=
      exists client_version,
        In (PStr client_version) client_versions
        /\ _are_versions_compatible n server_version client_version = true
        /\ _can_provide_features n server_version client_features = true in
    exists found,
      _find_compatible_version n client_versions server_versions client_features = Ok found
      /\ match found with
         | Some v =>
             In v server_versions /\ fits v
             /\ forall w, In w server_versions -> fits w -> String.ltb v w = false
         | None => forall w, In w server_versions -> ~ fits w
         end.
Proof.
  intros n client_versions client_features server_versions _ fits.
  assert (Hfits : forall w,
             some_client_compatible n w client_versions client_features = true <-> fits w).
  { intros w. unfold some_client_compatible, fits. rewrite existsb_exists. split.
    - intros ([| | | |c| | |] & Hin & H); try discriminate.
      apply andb_true_iff in H as [H1 H2]. eauto.
    - intros (c & Hin & H1 & H2). exists (PStr c). split; [exact Hin|].
      now rewrite H1, H2. }
  unfold _find_compatible_version, py_sorted.
  destruct (SortFacts.sort_ascending_ok (fun x : string => x) string_lt (fun _ => True)
              string_lt_comparable string_lt_trans string_lt_irrefl
              (rev server_versions) [])
    as (r & -> & Hperm & Hasc).
  { apply Forall_forall. auto. }
  { constructor. }
  { constructor. }
  simpl. rewrite app_nil_r in Hperm.
  assert (Hin : forall x, In x r <-> In x server_versions).
  { intros x. rewrite (in_rev server_versions). split; apply Permutation_in; auto.
    now apply Permutation_sym. }
  eexists. split; [reflexivity|].
  destruct (find _ (rev r)) as [v|] eqn:E.
  - apply find_latest_first in E as (Hv & Hf & Hmax); [|exact Hasc].
    split; [now apply Hin|]. split; [now apply Hfits|].
    intros w Hw Hfw. apply Hmax; [now apply Hin|now apply Hfits].
  - intros w Hw Hfw. apply Hfits in Hfw.
    apply find_none with (x := w) in E; [congruence|].
    apply in_rev. rewrite rev_involutive. now apply Hin.
Qed.

Lemma compatible_version_is_greatest_string_witness :
  _find_compatible_version Scenario.negotiator [PStr "0.9"] ["1.0"; "1.1"] [] = Ok (Some "1.0")
  /\ String.ltb "1.0" "1.0" = false.
Proof.
  destruct (compatible_version_is_greatest_string Scenario.negotiator [PStr "0.9"] []
              ["1.0"; "1.1"] eq_refl) as (found & Hfound & Hspec).
  assert (E : found = Some "1.0") by (vm_compute in Hfound; congruence).
  subst found. destruct Hspec as (Hin & Hfits & Hmax).
  split; [exact Hfound|]. exact (Hmax "1.0" Hin Hfits).
Defined.

End CompatibleFacts.

(** ** What the monitor is told *)

Module ReportingFacts.
Import Py.
Import Registry.
Import Negotiator.
Import Server.
Import ReportInv.

Local Open Scope server_scope.

Lemma reports_refl (s : state) : reports s s.
Proof. split; [reflexivity|]. exists []. split; [now rewrite app_nil_r|constructor]. Qed.

Lemma reports_trans (s1 s2 s3 : state) : reports s1 s2 -> reports s2 s3 -> reports s1 s3.
Proof.
  intros [Hid1 (m1 & Hl1 & Ha1)] [Hid2 (m2 & Hl2 & Ha2)].
  split; [congruence|]. exists (m1 ++ m2). split.
  - rewrite Hl2, Hl1. now rewrite app_assoc.
  - apply Forall_app. split; [exact Ha1|]. now rewrite <- Hid1.
Qed.

(** A step that leaves the id and the log alone. *)
Lemma reports_silent (s s' : state) :
  connection_id (connection s') = connection_id (connection s) ->
  monitor_log s' = monitor_log s ->
  reports s s'.
Proof.
  intros Hid Hlog. split; [exact Hid|]. exists []. split; [now rewrite app_nil_r|constructor].
Qed.

Section Combinators.
Context {X Y : Type}.

Lemma reporting_ret (x : X) : reporting (ret x).
Proof. intros s. apply reports_refl. Qed.

Lemma reporting_raise (e : exn) : reporting (@raise X e).
Proof. intros s. apply reports_refl. Qed.

Lemma reporting_bind (m : M X) (k : X -> M Y) :
  reporting m -> (forall x, reporting (k x)) -> reporting (mbind m k).
Proof.
  intros Hm Hk s. unfold mbind. specialize (Hm s).
  destruct (m s) as [[x|e] s1]; simpl in *; [|exact Hm].
  exact (reports_trans _ _ _ Hm (Hk x s1)).
Qed.

(** The state that [get] hands on is the state the rest starts in. *)
Lemma reporting_get_bind (k : state -> M Y) :
  (forall s, reports s (snd (k s s))) -> reporting (mbind get k).
Proof. intros Hk s. unfold mbind, get. apply Hk. Qed.

Lemma reporting_try_except (m : M X) (h : exn -> M X) :
  reporting m -> (forall e, reporting (h e)) -> reporting (try_except m h).
Proof.
  intros Hm Hh s. unfold try_except. specialize (Hm s).
  destruct (m s) as [[x|e] s1]; simpl in *; [exact Hm|].
  exact (reports_trans _ _ _ Hm (Hh e s1)).
Qed.

Lemma reporting_try_finally (m : M X) (f : M unit) :
  reporting m -> reporting f -> reporting (try_finally m f).
Proof.
  intros Hm Hf s. unfold try_finally. specialize (Hm s).
  destruct (m s) as [r s1]. simpl in Hm. specialize (Hf s1).
  destruct (f s1) as [[u|e] s2]; simpl in *; exact (reports_trans _ _ _ Hm Hf).
Qed.

End Combinators.

Lemma reporting_get : reporting get.
Proof. intros s. apply reports_refl. Qed.

Lemma reporting_modify (f : state -> state) :
  (forall s, connection_id (connection (f s)) = connection_id (connection s)) ->
  (forall s, monitor_log (f s) = monitor_log s) ->
  reporting (modify f).
Proof. intros Hid Hlog s. apply reports_silent; simpl; auto. Qed.

(** A call that says the same of every connection. *)
Lemma reporting_monitor (call : monitor_call) :
  (forall id, about id call) -> reporting (monitor call).
Proof.
  intros H s. unfold monitor, modify. simpl. split; [reflexivity|].
  exists [call]. split; [reflexivity|]. constructor; [apply H|constructor].
Qed.

(** A call about the connection of the state it is made in. *)
Lemma reports_monitor_then {Y : Type} (call : monitor_call) (k : M Y) (s : state) :
  about (connection_id (connection s)) call ->
  reporting k ->
  reports s (snd (mbind (monitor call) (fun _ => k) s)).
Proof.
  intros Ha Hk. unfold mbind, monitor, modify. cbv beta iota.
  eapply reports_trans; [|apply Hk].
  split; [reflexivity|]. exists [call]. split; [reflexivity|].
  constructor; [exact Ha|constructor].
Qed.

Lemma reporting_send_message (message : dict pyval) : reporting (send_message message).
Proof.
  intros s. unfold send_message, mbind, get, send_text_json, modify, raise.
  destruct (is_connected (client_state (websocket s))); [|apply reports_refl].
  destruct (json_serialisable (PDict message)); [|apply reports_refl].
  apply reports_silent; reflexivity.
Qed.

Lemma reporting_set_negotiated (version : string) : reporting (set_negotiated version).
Proof. apply reporting_modify; reflexivity. Qed.

Lemma reporting_set_client_info (info : pyval) : reporting (set_client_info info).
Proof. apply reporting_modify; reflexivity. Qed.

Lemma reporting_count_message : reporting count_message.
Proof. apply reporting_modify; reflexivity. Qed.

Lemma reporting_accept : reporting accept.
Proof. apply reporting_modify; reflexivity. Qed.

Lemma reporting_close (code : Z) (reason : string) : reporting (close code reason).
Proof. apply reporting_modify; reflexivity. Qed.

Lemma reporting_register_connection : reporting register_connection.
Proof. apply reporting_modify; reflexivity. Qed.

Lemma reporting_forget_connection : reporting forget_connection.
Proof. apply reporting_modify; reflexivity. Qed.

Lemma reporting_dispatch (adapter : ProtocolAdapter) (tool : string) (parameters : pyval) :
  reporting (dispatch adapter tool parameters).
Proof.
  unfold dispatch. apply reporting_bind; [|intros _; apply reporting_ret].
  apply reporting_modify; reflexivity.
Qed.

Section WithRuntime.
Variable json_loads : string -> option pyval.
Variable json_error_text : string -> string.
Variable py_str : pyval -> string.
Variable isoformat : Z -> string.
Variable set_order : list string -> list string.

Lemma reporting_timestamp : reporting (timestamp isoformat).
Proof. intros s. apply reports_refl. Qed.

Lemma reporting_receive_message : reporting (receive_message json_loads json_error_text).
Proof.
  intros s. unfold receive_message, mbind, get, receive_text, modify, raise, ret.
  destruct (is_connected (client_state (websocket s))); [|apply reports_refl].
  destruct (inbox (websocket s)) as [|[raw|] rest]; simpl;
    [|destruct (json_loads raw) as [[]|]; simpl|];
    apply reports_silent; reflexivity.
Qed.

Ltac report :=
  repeat first
    [ apply reporting_ret
    | apply reporting_raise
    | apply reporting_get
    | apply reporting_send_message
    | apply reporting_timestamp
    | apply reporting_set_negotiated
    | apply reporting_set_client_info
    | apply reporting_count_message
    | apply reporting_dispatch
    | apply reporting_receive_message
    | apply reporting_accept
    | apply reporting_close
    | apply reporting_register_connection
    | apply reporting_forget_connection
    | apply reporting_monitor; intros ?; exact I
    | apply reporting_monitor; intros ?; reflexivity
    | apply reporting_bind; [|intros ?]
    | apply reporting_try_except; [|intros ?]
    | match goal with
      | |- reporting (if ?c then _ else _) => destruct c
      | |- reporting (match ?x with _ => _ end) => destruct x
      end ].

Lemma reporting_handle_tool_call (adapter : ProtocolAdapter) (message : dict pyval) :
  reporting (_handle_tool_call py_str isoformat adapter message).
Proof. unfold _handle_tool_call. report. Qed.

Lemma reporting_handle_message (adapter : ProtocolAdapter) (message : dict pyval) :
  reporting (_handle_message py_str isoformat adapter message).
Proof.
  unfold _handle_message. apply reporting_try_except; [|intros e; report].
  destruct (is_str _ "tool_call"); [apply reporting_handle_tool_call|].
  destruct (is_str _ "ping"); [report|].
  destruct (is_str _ "get_capabilities"); [unfold _handle_get_capabilities; report|].
  destruct (is_str _ "get_protocol_info"); [unfold _handle_get_protocol_info; report|].
  report.
Qed.

Lemma reporting_process_message (adapter : ProtocolAdapter) (message : dict pyval) :
  reporting (process_message py_str isoformat adapter message).
Proof.
  unfold process_message.
  apply reporting_bind; [report|intros _].
  apply reporting_get_bind. intros s.
  apply reports_monitor_then; [reflexivity|].
  apply reporting_bind; [apply reporting_handle_message|intros response].
  destruct response; report.
Qed.

Lemma reporting_message_processing_error (e : exn) (message : option (dict pyval)) :
  reporting (message_processing_error isoformat e message).
Proof. unfold message_processing_error. report. Qed.

Lemma reporting_message_loop_turn (adapter : ProtocolAdapter)
  (message : option (dict pyval)) :
  reporting (message_loop_turn json_loads json_error_text py_str isoformat adapter message).
Proof.
  intros s. unfold message_loop_turn.
  pose proof (reporting_receive_message s) as H1.
  destruct (receive_message json_loads json_error_text s) as [[received|e] s1]; simpl in *.
  - pose proof (reporting_process_message adapter received s1) as H2.
    destruct (process_message py_str isoformat adapter received s1) as [[u|e] s2];
      simpl in *.
    + exact (reports_trans _ _ _ H1 H2).
    + pose proof (reporting_message_processing_error e (Some received) s2) as H3.
      destruct e; simpl; try exact (reports_trans _ _ _ H1 (reports_trans _ _ _ H2 H3)).
      exact (reports_trans _ _ _ H1 H2).
  - pose proof (reporting_message_processing_error e message s1) as H3.
    destruct e; simpl; try exact (reports_trans _ _ _ H1 H3).
    exact H1.
Qed.

Lemma reporting_message_loop_turns (turns : nat) (adapter : ProtocolAdapter)
  (message : option (dict pyval)) :
  reporting (message_loop_turns json_loads json_error_text py_str isoformat
                                turns adapter message).
Proof.
  revert message. induction turns as [|n IH]; intros message; simpl; [report|].
  apply reporting_bind; [apply reporting_message_loop_turn|intros [m'|]]; [apply IH|report].
Qed.

Lemma reporting_message_loop :
  reporting (_message_loop json_loads json_error_text py_str isoformat).
Proof.
  unfold _message_loop. apply reporting_bind; [report|intros s0].
  destruct (match negotiated_version (connection s0) with
            | Some v => get_adapter (Server._registry (server s0)) v
            | None => None
            end); [apply reporting_message_loop_turns|report].
Qed.

Lemma reporting_perform_handshake :
  reporting (_perform_handshake json_loads json_error_text py_str set_order).
Proof.
  unfold _perform_handshake.
  apply reporting_bind; [report|intros message].
  destruct (negb _); [report|].
  apply reporting_bind; [report|intros _].
  apply reporting_bind; [report|intros s0].
  apply reporting_bind.
  - destruct (negotiate_protocol _ _ _ _) as [version|[]]; report.
  - intros version. destruct (get_adapter _ version); report.
Qed.

Lemma reporting_on_error (e : exn) : reporting (on_error isoformat e).
Proof. unfold on_error. destruct e; unfold swallow; report. Qed.

Lemma reporting_serve :
  reporting (serve json_loads json_error_text py_str isoformat set_order).
Proof.
  unfold serve.
  apply reporting_bind; [report|intros _].
  apply reporting_bind; [apply reporting_perform_handshake|intros _].
  apply reporting_get_bind. intros s.
  apply reports_monitor_then; [reflexivity|].
  apply reporting_bind; [apply reporting_message_loop|intros _]. report.
Qed.

Lemma reporting_cleanup : reporting cleanup.
Proof.
  unfold cleanup. apply reporting_get_bind. intros s.
  apply reports_monitor_then; [reflexivity|].
  apply reporting_bind; [report|intros _].
  unfold swallow. report.
Qed.

Lemma reporting_handle_connection :
  reporting (handle_connection json_loads json_error_text py_str isoformat set_order).
Proof.
  unfold handle_connection. apply reporting_bind; [report|intros s0].
  destruct (_ <=? _); [report|].
  apply reporting_bind; [report|intros _].
  apply reporting_try_finally; [|apply reporting_cleanup].
  apply reporting_try_except; [apply reporting_serve|intros e; apply reporting_on_error].
Qed.

(** X27.  Whatever the client sends, the monitor is told of a
    connection only under that connection's id, and of its tool calls
    under no connection at all: in the calls [handle_connection] makes,
    [track_connection_started], [track_message] and
    [track_connection_ended] carry the id of the connection, and every
    [track_tool_call] carries the id "unknown". *)
Theorem monitor_calls_name_the_connection :
  forall (v : MCPServer) (id : string) (frames : list incoming) (now : Z),
    Forall (fun call =>
              match call with
              | track_connection_started c _ _ => c = id
              | track_connection_ended c => c = id
              | track_message c _ _ _ => c = id
              | track_tool_call c _ _ _ _ => c = "unknown"
              | track_negotiation_failure _ _ => True
              end)
           (monitor_log
              (snd (handle_connection json_loads json_error_text py_str isoformat
                      set_order (arrival v id frames now)))).
Proof.
  intros v id frames now.
  destruct (reporting_handle_connection (arrival v id frames now))
    as [_ (more & Hlog & Hall)].
  simpl in Hlog, Hall. rewrite Hlog. exact Hall.
Qed.

End WithRuntime.

End ReportingFacts.

(** ** Tool calls and the connections' details *)

Module AttributionFacts.
Import Py.
Import Monitor.
Import AttributionInv.
Import DictFacts.
Import CounterFacts.

Lemma history_entry_origin {X : Type} (n : Z) (d : list X) (x y : X) :
  In y (deque_append n d x) -> y = x \/ In y d.
Proof.
  unfold deque_append. destruct (n <=? Z.of_nat (List.length d)).
  - intros H. apply in_app_or in H as [H|[<-|[]]]; [|now left].
    right. destruct d; [destruct H|now right].
  - intros H. apply in_app_or in H as [H|[<-|[]]]; auto.
Qed.

Section Blank.
Variable A : Arith.
Variable anon : string.

Lemma new_blank (retention_hours : Z) : blank A anon (new_monitor A retention_hours).
Proof. split; simpl; intros; contradiction. Qed.

Lemma apply_event_blank (m : MCPMonitor A) (e : monitor_event A) :
  unattributed A anon e -> blank A anon m -> blank A anon (apply_event A m e).
Proof.
  intros He [Hc Hh]. destruct e as [now later c v i|now later c|now c t sz o|c t x s e| | |]; simpl.
  - simpl in He. unfold track_connection_started. split; simpl; [|exact Hh].
    intros id c' Hin. apply in_dict_set in Hin as [[= -> ->]|Hin]; [|now apply Hc].
    simpl. repeat split; auto.
  - unfold track_connection_ended.
    destruct (dict_get (_connections m) c) as [metrics|] eqn:E; [|now split].
    split; simpl.
    + intros id c' Hin. apply in_dict_remove in Hin. now apply Hc.
    + intros entry Hin. apply history_entry_origin in Hin as [->|Hin]; [|now apply Hh].
      simpl. apply dict_get_in in E. now destruct (Hc _ _ E) as (_ & _ & H & _).
  - unfold track_message.
    destruct (dict_get (_connections m) c) as [metrics|] eqn:E; [|now split].
    apply dict_get_in in E. destruct (Hc _ _ E) as (H1 & H2 & H3 & H4).
    split; simpl; [|exact Hh].
    intros id c' Hin. apply in_dict_set in Hin as [[= -> ->]|Hin]; [|now apply Hc].
    simpl. repeat split; auto.
  - simpl in He. subst c. unfold track_tool_call.
    destruct (dict_get (_connections m) anon) as [metrics|] eqn:E.
    + apply dict_get_in in E. destruct (Hc _ _ E) as (H & _). congruence.
    + split; simpl; assumption.
  - split; simpl; assumption.
  - split; simpl; assumption.
  - unfold set_alert_threshold.
    repeat (destruct (String.eqb _ _); [split; simpl; assumption|]).
    split; simpl; assumption.
Qed.

Lemma run_events_blank (retention_hours : Z) (events : list (monitor_event A)) :
  Forall (unattributed A anon) events ->
  blank A anon (run_events A retention_hours events).
Proof.
  unfold run_events. generalize (new_blank retention_hours).
  generalize (new_monitor A retention_hours).
  induction events as [|e es IH]; intros m Hm Hall; simpl; [exact Hm|].
  inversion Hall as [|? ? He Hes]; subst.
  apply IH; [|exact Hes]. now apply apply_event_blank.
Qed.

End Blank.

(** X28.  Tool calls that are reported under an id no connection has,
    as the server reports them under "unknown", never reach a
    connection: after any run of such events the details of every
    tracked connection show no tool call, no error and a response time
    of zero, whatever was called and however it ended, and every entry
    of the history has no error; the tool's own metrics count the
    calls all the same. *)
Theorem unattributed_tool_calls_reach_no_connection :
  forall (A : Arith) (retention_hours : Z) (events : list (monitor_event A))
         (anon : string),
    (forall e, In e events ->
       match e with
       | ToolCall _ c _ _ _ _ => c = anon
       | ConnectionStarted _ _ _ c _ _ => c <> anon
       | _ => True
       end) ->
    let m := run_events A retention_hours events in
    (forall now id d,
       get_connection_details A m now id = Some d ->
       cd_tool_calls d = [] /\ cd_errors d = 0 /\ cd_avg_response_time d = zero A)
    /\ (forall entry, In entry (_connection_history m) -> h_errors A entry = 0)
    /\ (forall now, get_connection_details A m now anon = None)
    /\ (forall tool x success error_type,
          let m' := track_tool_call A m anon tool x success error_type in
          ToolMetrics.total_calls
            (dict_get_default (_tool_metrics m') tool (ToolMetrics.new A tool))
          = ToolMetrics.total_calls
              (dict_get_default (_tool_metrics m) tool (ToolMetrics.new A tool)) + 1
          /\ _connections m' = _connections m).
Proof.
  intros A retention_hours events anon Hev m.
  assert (Hb : blank A anon m).
  { apply run_events_blank. apply Forall_forall. exact Hev. }
  destruct Hb as [Hc Hh].
  assert (Hanon : dict_get (_connections m) anon = None).
  { destruct (dict_get (_connections m) anon) as [c|] eqn:E; [|reflexivity].
    apply dict_get_in in E. destruct (Hc _ _ E) as (H & _). congruence. }
  split; [|split; [exact Hh|split]].
  - intros now id d. unfold get_connection_details.
    destruct (dict_get (_connections m) id) as [c|] eqn:E; [|discriminate].
    intros [= <-]. simpl. apply dict_get_in in E.
    destruct (Hc _ _ E) as (_ & H1 & H2 & H3). auto.
  - intros now. unfold get_connection_details. now rewrite Hanon.
  - intros tool x success error_type m'. subst m'.
    unfold track_tool_call. rewrite Hanon. simpl. unfold dict_get_default at 1.
    rewrite PyFacts.dict_get_set_same. split; reflexivity.
Qed.

Lemma unattributed_tool_calls_reach_no_connection_witness :
  get_connection_details Exact.arith
    (run_events Exact.arith 24
       [ ConnectionStarted Exact.arith 0 1 "c-1" "1.0" (PDict []);
         ToolCall Exact.arith "unknown" "rag_search" (Exact.Fin 1) false
                  (Some "ValueError") ])
    5 "unknown" = None.
Proof.
  apply (unattributed_tool_calls_reach_no_connection Exact.arith 24
           [ ConnectionStarted Exact.arith 0 1 "c-1" "1.0" (PDict []);
             ToolCall Exact.arith "unknown" "rag_search" (Exact.Fin 1) false
                      (Some "ValueError") ]
           "unknown").
  intros e [<-|[<-|[]]]; simpl; [discriminate|reflexivity].
Defined.

End AttributionFacts.
